(** * Rootless slirp4netns networking of libpod

    A shallow embedding of the code of package [libpod] in
    [pkg/domain/infra/tunnel/play.go]: option parsing, construction of the slirp4netns command line, the
    readiness handshake over the sync pipe, the child address handed to
    rootlessport, and the registration of port mappings over the slirp4netns
    control socket.

    Conventions.  Go strings and byte slices are [string] (a sequence of 8-bit
    characters); Go [int], [int32] and pids are [Z]; a byte of an IP address is
    a [Z] in [0, 255] and byte arithmetic is written with its wrap-around.  A
    Go call returning [(T, error)] returns [result T]; a call returning only
    [error] returns [option error] ([None] is [nil]).  Errors are kept as the
    constructor call that built them (format and arguments), so that what an
    error names can be read off without a model of [fmt]. *)

From stdpp Require Import base strings list gmap.
From Stdlib Require Import ZArith Lia Ascii.

Set Warnings "-register-all".

(** ** Errors and results *)

(** A JSON value, as [encoding/json] decodes one into [interface{}];
    a number keeps its text. *)
Inductive json : Type :=
| JNull
| JBool (b : bool)
| JNumber (text : string)
| JString (s : string)
| JArray (items : list json)
| JObject (members : list (string * json)).

(** A Go [error].  [OSError] stands for the errors of the operating system and
    of the standard library (io.EOF, a deadline expiry, ENOENT, ...);
    [isTimeout] is what [os.IsTimeout] answers for it. *)
Inductive error : Type :=
| OSError (msg : string) (isTimeout : bool)
| Errorf (format : string) (args : list fmtarg)
| Wrapf (cause : error) (format : string) (args : list fmtarg)
with fmtarg : Type :=
| AString (s : string)
| AInt (n : Z)
| AError (e : error)
| AJson (v : json).

Inductive result (A : Type) : Type :=
| Ok (a : A)
| Err (e : error).
Arguments Ok {A} a.
Arguments Err {A} e.

Definition IsTimeout (e : error) : bool :=
  match e with
  | OSError _ t => t
  | _ => false
  end.


(** The format of the outermost message of an error. *)
Definition error_format (e : error) : string :=
  match e with
  | OSError msg _ => msg
  | Errorf format _ => format
  | Wrapf _ format _ => format
  end.

(** ** The pieces of [strings], [strconv] and [fmt] the code uses *)

Module GoStrings.

Definition byteOf (c : Ascii.ascii) : Z := Z.of_N (Ascii.N_of_ascii c).

(** [s[n:]] *)
Fixpoint from (n : nat) (s : string) : string :=
  match n, s with
  | O, _ => s
  | S n', String _ s' => from n' s'
  | S _, EmptyString => EmptyString
  end.

(** [s[:n]] *)
Fixpoint upto (n : nat) (s : string) : string :=
  match n, s with
  | O, _ => EmptyString
  | S n', String c s' => String c (upto n' s')
  | S _, EmptyString => EmptyString
  end.

(** [strings.Index]: the position of the first occurrence of [substr];
    [None] is Go's -1. *)
Fixpoint Index (s substr : string) : option nat :=
  if String.prefix substr s then Some O
  else match s with
       | EmptyString => None
       | String _ s' => option_map S (Index s' substr)
       end.

Definition Contains (s substr : string) : bool :=
  match Index s substr with
  | Some _ => true
  | None => false
  end.

(** [strings.SplitN(s, sep, n)] for a separator that is not empty and
    [n >= 0]: at most [n] pieces, the last one the unsplit remainder. *)
Fixpoint SplitN (s sep : string) (n : nat) : list string :=
  match n with
  | O => []
  | S O => [s]
  | S n' =>
      match Index s sep with
      | None => [s]
      | Some m => upto m s :: SplitN (from (m + String.length sep) s) sep n'
      end
  end.

Fixpoint HasSuffix (s suffix : string) : bool :=
  if String.eqb s suffix then true
  else match s with
       | EmptyString => false
       | String _ s' => HasSuffix s' suffix
       end.

Definition TrimSuffix (s suffix : string) : string :=
  if HasSuffix s suffix
  then upto (String.length s - String.length suffix) s
  else s.

Definition digitChar (d : Z) : Ascii.ascii :=
  Ascii.ascii_of_N (Z.to_N (48 + d)).

Fixpoint uitoa_aux (fuel : nat) (n : Z) (acc : string) : string :=
  match fuel with
  | O => acc
  | S fuel' =>
      if (n <? 10)%Z then String (digitChar n) acc
      else uitoa_aux fuel' (n / 10)%Z (String (digitChar (n mod 10)%Z) acc)
  end.

(** Decimal text of a number that is not negative. *)
Definition uitoa (n : Z) : string :=
  uitoa_aux (S (Z.to_nat (Z.log2 n))) n EmptyString.

(** [%d] of [fmt], [strconv.Itoa]. *)
Definition Itoa (n : Z) : string :=
  if (n <? 0)%Z then String "-"%char (uitoa (- n)%Z) else uitoa n.

Inductive scan : Type :=
| ScanSyntax
| ScanRange
| ScanVal (n : Z).

(** The digit loop of [strconv.ParseUint(s, 10, 64)]: the first character
    that is no digit is a syntax error, a value above [2^64 - 1] is a range
    error, whichever comes first from the left. *)
Fixpoint scanDigits (s : string) (n : Z) : scan :=
  match s with
  | EmptyString => ScanVal n
  | String c s' =>
      let d := (byteOf c - 48)%Z in
      if ((d <? 0) || (9 <? d))%Z then ScanSyntax
      else
        let n1 := (n * 10 + d)%Z in
        if (2 ^ 64 - 1 <? n1)%Z then ScanRange else scanDigits s' n1
  end.

Definition ErrSyntax : error := OSError "invalid syntax" false.
Definition ErrRange : error := OSError "value out of range" false.

(** [strconv.Atoi] on a 64-bit platform: an optional sign, then decimal
    digits.  With the error Go returns 0 for bad syntax and the nearest
    [int] for a value out of range. *)
Definition Atoi (s : string) : Z * option error :=
  let '(neg, body) :=
    match s with
    | String "-"%char s' => (true, s')
    | String "+"%char s' => (false, s')
    | _ => (false, s)
    end in
  match body with
  | EmptyString => (0%Z, Some ErrSyntax)
  | _ =>
      match scanDigits body 0 with
      | ScanSyntax => (0%Z, Some ErrSyntax)
      | ScanRange =>
          (if neg then (- 2 ^ 63)%Z else (2 ^ 63 - 1)%Z, Some ErrRange)
      | ScanVal un =>
          if negb neg && (2 ^ 63 <=? un)%Z then ((2 ^ 63 - 1)%Z, Some ErrRange)
          else if neg && (2 ^ 63 <? un)%Z then ((- 2 ^ 63)%Z, Some ErrRange)
          else ((if neg then - un else un)%Z, None)
      end
  end.

(** [filepath.Base]: the last element of a path, trailing slashes removed. *)
Fixpoint stripTrailingSlashes (s : string) : string :=
  match s with
  | EmptyString => EmptyString
  | String c s' =>
      match stripTrailingSlashes s' with
      | EmptyString => if Ascii.eqb c "/"%char then EmptyString else String c EmptyString
      | t => String c t
      end
  end.

Fixpoint lastElement (s acc : string) : string :=
  match s with
  | EmptyString => acc
  | String c s' =>
      if Ascii.eqb c "/"%char then lastElement s' EmptyString
      else lastElement s' (acc +:+ String c EmptyString)
  end.

Definition Base (path : string) : string :=
  match path with
  | EmptyString => "."
  | _ =>
      match stripTrailingSlashes path with
      | EmptyString => "/"
      | p => lastElement p EmptyString
      end
  end.

End GoStrings.

(** ** [path/filepath] on a Unix host *)

Module GoPath.

(** The elements of a path between its slashes. *)
Fixpoint elements (s cur : string) : list string :=
  match s with
  | EmptyString => [cur]
  | String c s' =>
      if Ascii.eqb c "/"%char then cur :: elements s' EmptyString
      else elements s' (cur +:+ String c EmptyString)
  end.

(** One element of [filepath.Clean]'s scan, [out] being the cleaned elements
    so far, last one first: empty elements and [.] are dropped, [..] removes
    the element before it, stays at the front of a relative path and is
    dropped at the root. *)
Definition cleanStep (rooted : bool) (out : list string) (e : string) : list string :=
  if String.eqb e "" || String.eqb e "." then out
  else if String.eqb e ".." then
    match out with
    | top :: below => if String.eqb top ".." then e :: out else below
    | [] => if rooted then [] else [e]
    end
  else e :: out.

Fixpoint joinWith (sep : string) (l : list string) : string :=
  match l with
  | [] => EmptyString
  | [x] => x
  | x :: rest => x +:+ sep +:+ joinWith sep rest
  end.

Definition Clean (path : string) : string :=
  match path with
  | EmptyString => "."
  | String c _ =>
      let rooted := Ascii.eqb c "/"%char in
      let out := rev (fold_left (cleanStep rooted) (elements path EmptyString) []) in
      match out with
      | [] => if rooted then "/" else "."
      | _ => (if rooted then "/" else "") +:+ joinWith "/" out
      end
  end.

(** [filepath.Join]: the elements from the first one that is not empty,
    joined by slashes and cleaned. *)
Fixpoint Join (elem : list string) : string :=
  match elem with
  | [] => EmptyString
  | e :: rest =>
      if String.eqb e "" then Join rest else Clean (joinWith "/" elem)
  end.

End GoPath.

(** ** The pieces of package [net] the code uses

    Written after Go's [net/ip.go] (Go 1.17 and later: a decimal field of an
    IPv4 address with a leading zero is rejected). *)

Module GoNet.
Import GoStrings.

(** An [IP] is a byte slice of length 4 or 16; an [IPMask] likewise. *)
Definition IP : Type := list Z.
Definition IPMask : Type := list Z.

Record IPNet : Type := mkIPNet { net_IP : IP; net_Mask : IPMask }.

Definition IPv4len : nat := 4.
Definition IPv6len : nat := 16.

Definition v4InV6Prefix : list Z := [0; 0; 0; 0; 0; 0; 0; 0; 0; 0; 255; 255]%Z.

Definition IPv4 (a b c d : Z) : IP := v4InV6Prefix ++ [a; b; c; d].

Definition bytesEqual (a b : list Z) : bool :=
  bool_decide (a = b).

Definition isZeros (p : list Z) : bool := forallb (Z.eqb 0) p.

(** [ip.To4()]: the 4-byte form of an IPv4 address, [None] (nil) otherwise. *)
Definition To4 (ip : IP) : option IP :=
  if Nat.eqb (length ip) IPv4len then Some ip
  else if Nat.eqb (length ip) IPv6len && bytesEqual (take 12 ip) v4InV6Prefix
  then Some (drop 12 ip)
  else None.

Definition big : Z := 16777215.

Fixpoint dtoi_loop (s : string) (n : Z) (i : nat) : Z * nat * bool :=
  match s with
  | EmptyString => (n, i, true)
  | String c s' =>
      let b := byteOf c in
      if ((48 <=? b) && (b <=? 57))%Z then
        let n' := (n * 10 + (b - 48))%Z in
        if (big <=? n')%Z then (big, i, false) else dtoi_loop s' n' (S i)
      else (n, i, true)
  end.

(** Decimal to integer: the value, the characters consumed, success. *)
Definition dtoi (s : string) : Z * nat * bool :=
  match dtoi_loop s 0 0 with
  | (n, i, true) => if Nat.eqb i 0 then (0%Z, 0, false) else (n, i, true)
  | r => r
  end.

Definition hexDigit (b : Z) : option Z :=
  if ((48 <=? b) && (b <=? 57))%Z then Some (b - 48)%Z
  else if ((97 <=? b) && (b <=? 102))%Z then Some (b - 97 + 10)%Z
  else if ((65 <=? b) && (b <=? 70))%Z then Some (b - 65 + 10)%Z
  else None.

Fixpoint xtoi_loop (s : string) (n : Z) (i : nat) : Z * nat * bool :=
  match s with
  | EmptyString => (n, i, true)
  | String c s' =>
      match hexDigit (byteOf c) with
      | Some d =>
          let n' := (n * 16 + d)%Z in
          if (big <=? n')%Z then (0%Z, i, false) else xtoi_loop s' n' (S i)
      | None => (n, i, true)
      end
  end.

(** Hexadecimal to integer: the value, the characters consumed, success. *)
Definition xtoi (s : string) : Z * nat * bool :=
  match xtoi_loop s 0 0 with
  | (n, i, true) => if Nat.eqb i 0 then (0%Z, i, false) else (n, i, true)
  | r => r
  end.

Definition startsWith (c : ascii) (s : string) : bool :=
  match s with
  | String c' _ => Ascii.eqb c c'
  | EmptyString => false
  end.

(** The loop of [parseIPv4] over the [k] fields still to read. *)
Fixpoint parseIPv4_fields (k : nat) (first : bool) (s : string) (p : list Z)
  : option (list Z * string) :=
  match k with
  | O => Some (p, s)
  | S k' =>
      match s with
      | EmptyString => None
      | String c0 s0 =>
          if negb first && negb (Ascii.eqb c0 "."%char) then None
          else
            let s1 := if first then s else s0 in
            match dtoi s1 with
            | (n, c, ok) =>
                if negb ok || (255 <? n)%Z then None
                else if (1 <? c)%nat && startsWith "0"%char s1 then None
                else parseIPv4_fields k' false (from c s1) (p ++ [n])
            end
      end
  end.

Definition parseIPv4 (s : string) : option IP :=
  match parseIPv4_fields 4 true s [] with
  | Some ([a; b; c; d], EmptyString) => Some (IPv4 a b c d)
  | _ => None
  end.

(** The loop of [parseIPv6]: [ip] holds the [i = length ip] bytes parsed so
    far, [ellipsis] the position of the [::] seen.  It ends with the bytes,
    the ellipsis and the text left over. *)
Fixpoint parseIPv6_groups (fuel : nat) (s : string) (ip : list Z) (ellipsis : option nat)
  : option (list Z * option nat * string) :=
  match fuel with
  | O => Some (ip, ellipsis, s)
  | S fuel' =>
      let i := length ip in
      if negb (i <? IPv6len)%nat then Some (ip, ellipsis, s)
      else
        match xtoi s with
        | (n, c, ok) =>
            if negb ok || (65535 <? n)%Z then None
            else if (c <? String.length s)%nat && startsWith "."%char (from c s) then
              if bool_decide (ellipsis = None) && negb (Nat.eqb i (IPv6len - IPv4len)) then None
              else if (IPv6len <? i + IPv4len)%nat then None
              else
                match parseIPv4 s with
                | None => None
                | Some ip4 => Some (ip ++ drop 12 ip4, ellipsis, EmptyString)
                end
            else
              let ip' := ip ++ [Z.shiftr n 8; Z.land n 255] in
              match from c s with
              | EmptyString => Some (ip', ellipsis, EmptyString)
              | String c1 s1 =>
                  if negb (Ascii.eqb c1 ":"%char) || String.eqb s1 "" then None
                  else
                    match s1 with
                    | String ":"%char s2 =>
                        match ellipsis with
                        | Some _ => None
                        | None =>
                            if String.eqb s2 "" then Some (ip', Some (length ip'), EmptyString)
                            else parseIPv6_groups fuel' s2 ip' (Some (length ip'))
                        end
                    | _ => parseIPv6_groups fuel' s1 ip' ellipsis
                    end
              end
        end
  end.

Definition parseIPv6_finish (r : list Z * option nat * string) : option IP :=
  match r with
  | (ip, ellipsis, s) =>
      if negb (String.eqb s "") then None
      else if (length ip <? IPv6len)%nat then
        match ellipsis with
        | None => None
        | Some e => Some (take e ip ++ replicate (IPv6len - length ip) 0%Z ++ drop e ip)
        end
      else
        match ellipsis with
        | Some _ => None
        | None => Some ip
        end
  end.

Definition parseIPv6 (s : string) : option IP :=
  match s with
  | String ":"%char (String ":"%char s') =>
      if String.eqb s' "" then Some (replicate IPv6len 0%Z)
      else parseIPv6_groups 8 s' [] (Some 0) ≫= parseIPv6_finish
  | _ => parseIPv6_groups 8 s [] None ≫= parseIPv6_finish
  end.

(** [net.ParseIP]: the first dot or colon decides the family. *)
Fixpoint ParseIP_scan (whole rest : string) : option IP :=
  match rest with
  | EmptyString => None
  | String c rest' =>
      if Ascii.eqb c "."%char then parseIPv4 whole
      else if Ascii.eqb c ":"%char then parseIPv6 whole
      else ParseIP_scan whole rest'
  end.

Definition ParseIP (s : string) : option IP := ParseIP_scan s s.

Fixpoint CIDRMask_bytes (l : nat) (n : Z) : list Z :=
  match l with
  | O => []
  | S l' =>
      if (8 <=? n)%Z then 255%Z :: CIDRMask_bytes l' (n - 8)%Z
      else Z.lxor 255 (Z.shiftr 255 n) :: CIDRMask_bytes l' 0%Z
  end.

Definition CIDRMask (ones bits : Z) : option IPMask :=
  if negb (bits =? 32)%Z && negb (bits =? 128)%Z then None
  else if ((ones <? 0) || (bits <? ones))%Z then None
  else Some (CIDRMask_bytes (Z.to_nat (bits / 8)) ones).

Definition allFF (b : list Z) : bool := forallb (Z.eqb 255) b.

Fixpoint andBytes (ip mask : list Z) : list Z :=
  match ip, mask with
  | a :: ip', m :: mask' => Z.land a m :: andBytes ip' mask'
  | _, _ => []
  end.

(** [ip.Mask(mask)]; [None] is nil. *)
Definition Mask (ip : IP) (mask : IPMask) : option IP :=
  let mask :=
    if Nat.eqb (length mask) IPv6len && Nat.eqb (length ip) IPv4len && allFF (take 12 mask)
    then drop 12 mask else mask in
  let ip :=
    if Nat.eqb (length mask) IPv4len && Nat.eqb (length ip) IPv6len
       && bytesEqual (take 12 ip) v4InV6Prefix
    then drop 12 ip else ip in
  if Nat.eqb (length ip) (length mask) then Some (andBytes ip mask) else None.

Definition ParseError (text : string) : error :=
  OSError ("invalid CIDR address: " +:+ text) false.

(** [net.ParseCIDR]: the address and the network it lies in.  The network's
    [IP] is masked, and 4 bytes long for a dotted address. *)
Definition ParseCIDR (s : string) : result (IP * IPNet) :=
  match Index s "/" with
  | None => Err (ParseError s)
  | Some i =>
      let addr := upto i s in
      let mask := from (S i) s in
      let '(iplen, ip) :=
        match parseIPv4 addr with
        | Some ip => (IPv4len, Some ip)
        | None => (IPv6len, parseIPv6 addr)
        end in
      match ip, dtoi mask with
      | Some ip, (n, j, true) =>
          if negb (Nat.eqb j (String.length mask)) || (Z.of_nat (8 * iplen) <? n)%Z
          then Err (ParseError s)
          else
            match CIDRMask n (Z.of_nat (8 * iplen)) with
            | Some m =>
                match Mask ip m with
                | Some masked => Ok (ip, mkIPNet masked m)
                | None => Ok (ip, mkIPNet [] m)
                end
            | None => Err (ParseError s)
            end
      | _, _ => Err (ParseError s)
      end
  end.

Definition hexChar (d : Z) : ascii :=
  if (d <? 10)%Z then ascii_of_N (Z.to_N (48 + d)) else ascii_of_N (Z.to_N (97 + d - 10)).

Fixpoint hex_aux (fuel : nat) (n : Z) (acc : string) : string :=
  match fuel with
  | O => acc
  | S fuel' =>
      if (n <? 16)%Z then String (hexChar n) acc
      else hex_aux fuel' (n / 16)%Z (String (hexChar (n mod 16)%Z) acc)
  end.

(** [appendHex]: lower-case hexadecimal without leading zeros. *)
Definition hex (n : Z) : string := hex_aux (S (Z.to_nat (Z.log2 n))) n EmptyString.

Fixpoint groups16 (p : list Z) : list Z :=
  match p with
  | hi :: lo :: rest => Z.lor (Z.shiftl hi 8) lo :: groups16 rest
  | _ => []
  end.

Fixpoint zeroRun (g : list Z) : nat :=
  match g with
  | z :: rest => if (z =? 0)%Z then S (zeroRun rest) else O
  | [] => O
  end.

(** The scan of [IP.String] for the longest run of zero groups: [i] is the
    group index, [best] the run [(e0, e1)] found so far; a later run replaces
    it only when strictly longer, and the group after a recorded run is
    skipped as the source's [i = j] followed by the loop's step does. *)
Fixpoint longestZeros (fuel i : nat) (g : list Z) (best : option (nat * nat))
  : option (nat * nat) :=
  match fuel with
  | O => best
  | S fuel' =>
      if negb (i <? 8)%nat then best
      else
        let j := (i + zeroRun (drop i g))%nat in
        let width := match best with Some (e0, e1) => (e1 - e0)%nat | None => O end in
        if (i <? j)%nat && (width <? j - i)%nat
        then longestZeros fuel' (S j) g (Some (i, j))
        else longestZeros fuel' (S i) g best
  end.

Fixpoint printGroups (fuel i : nat) (g : list Z) (e : option (nat * nat)) : string :=
  match fuel with
  | O => EmptyString
  | S fuel' =>
      if negb (i <? 8)%nat then EmptyString
      else
        match e with
        | Some (e0, e1) =>
            if Nat.eqb i e0 then
              "::" +:+ (if negb (e1 <? 8)%nat then EmptyString
                        else hex (nth e1 g 0%Z) +:+ printGroups fuel' (S e1) g e)
            else (if (0 <? i)%nat then ":" else "") +:+ hex (nth i g 0%Z)
                 +:+ printGroups fuel' (S i) g e
        | None =>
            (if (0 <? i)%nat then ":" else "") +:+ hex (nth i g 0%Z)
            +:+ printGroups fuel' (S i) g e
        end
  end.

Fixpoint hexString (b : list Z) : string :=
  match b with
  | [] => EmptyString
  | x :: rest => String (hexChar (Z.shiftr x 4)) (String (hexChar (Z.land x 15)) (hexString rest))
  end.

(** [ip.String()]. *)
Definition IP_String (ip : IP) : string :=
  match ip with
  | [] => "<nil>"
  | _ =>
      match To4 ip with
      | Some [a; b; c; d] => uitoa a +:+ "." +:+ uitoa b +:+ "." +:+ uitoa c +:+ "." +:+ uitoa d
      | _ =>
          if negb (Nat.eqb (length ip) IPv6len) then "?" +:+ hexString ip
          else
            let g := groups16 ip in
            let e := match longestZeros 8 0 g None with
                     | Some (e0, e1) => if (e1 - e0 <=? 1)%nat then None else Some (e0, e1)
                     | None => None
                     end in
            printGroups 8 0 g e
      end
  end.

End GoNet.

(** ** [encoding/json]: decoding a document

    A decoder for the JSON grammar of RFC 8259, as [json.Unmarshal] accepts
    it.  In a string a byte that starts no valid UTF-8 encoding is replaced
    by U+FFFD; an escape [\uXXXX] is written out in UTF-8. *)

Module GoJSON.
Import GoStrings.

Definition dquote : ascii := ascii_of_nat 34.

Definition isSpace (c : ascii) : bool :=
  let b := byteOf c in
  ((b =? 32) || (b =? 9) || (b =? 13) || (b =? 10))%Z.

Fixpoint skipSpace (s : string) : string :=
  match s with
  | String c r => if isSpace c then skipSpace r else s
  | EmptyString => s
  end.

Definition isDigit (c : ascii) : bool :=
  let b := byteOf c in ((48 <=? b) && (b <=? 57))%Z.

(** The digits at the front of [s], and the rest. *)
Fixpoint spanDigits (s : string) : string * string :=
  match s with
  | String c r =>
      if isDigit c then let '(d, rest) := spanDigits r in (String c d, rest)
      else (EmptyString, s)
  | EmptyString => (EmptyString, s)
  end.

Definition parseFraction (s : string) : option (string * string) :=
  match s with
  | String "."%char r =>
      match spanDigits r with
      | (EmptyString, _) => None
      | (d, rest) => Some (String "."%char d, rest)
      end
  | _ => Some (EmptyString, s)
  end.

Definition parseExponent (s : string) : option (string * string) :=
  match s with
  | String c r =>
      if Ascii.eqb c "e"%char || Ascii.eqb c "E"%char then
        let '(sign, r1) :=
          match r with
          | String c1 r1 =>
              if Ascii.eqb c1 "+"%char || Ascii.eqb c1 "-"%char
              then (String c1 EmptyString, r1) else (EmptyString, r)
          | EmptyString => (EmptyString, r)
          end in
        match spanDigits r1 with
        | (EmptyString, _) => None
        | (d, rest) => Some (String c sign +:+ d, rest)
        end
      else Some (EmptyString, s)
  | EmptyString => Some (EmptyString, s)
  end.

(** A number: its text and the rest. *)
Definition parseNumber (s : string) : option (string * string) :=
  let '(sign, s1) :=
    match s with
    | String "-"%char r => ("-", r)
    | _ => ("", s)
    end in
  match s1 with
  | String c r =>
      if negb (isDigit c) then None
      else
        let '(int, s2) :=
          if Ascii.eqb c "0"%char then (String c EmptyString, r) else spanDigits s1 in
        '(frac, s3) ← parseFraction s2;
        '(exp, s4) ← parseExponent s3;
        Some (sign +:+ int +:+ frac +:+ exp, s4)
  | EmptyString => None
  end.

(** The code point [cp] in UTF-8. *)
Definition utf8 (cp : Z) : string :=
  let ch (z : Z) := String (ascii_of_N (Z.to_N z)) EmptyString in
  if (cp <? 128)%Z then ch cp
  else if (cp <? 2048)%Z then
    ch (Z.lor 192 (Z.shiftr cp 6)) +:+ ch (Z.lor 128 (Z.land cp 63))
  else if (cp <? 65536)%Z then
    ch (Z.lor 224 (Z.shiftr cp 12)) +:+ ch (Z.lor 128 (Z.land (Z.shiftr cp 6) 63))
    +:+ ch (Z.lor 128 (Z.land cp 63))
  else
    ch (Z.lor 240 (Z.shiftr cp 18)) +:+ ch (Z.lor 128 (Z.land (Z.shiftr cp 12) 63))
    +:+ ch (Z.lor 128 (Z.land (Z.shiftr cp 6) 63)) +:+ ch (Z.lor 128 (Z.land cp 63)).

(** [utf8.DecodeRuneInString] as far as the package needs it: the number of
    bytes of the UTF-8 encoding at the front of [s], or nothing where the
    first byte starts no valid encoding ([RuneError] of width 1). *)
Definition continues (lo hi : Z) (s : string) : option string :=
  match s with
  | String c r => let b := byteOf c in
                  if ((lo <=? b) && (b <=? hi))%Z then Some r else None
  | EmptyString => None
  end.

Definition runeSize (s : string) : option nat :=
  match s with
  | EmptyString => None
  | String c r =>
      let b := byteOf c in
      if (b <? 128)%Z then Some 1
      else if ((194 <=? b) && (b <=? 223))%Z then
        _ ← continues 128 191 r; Some 2
      else if ((224 <=? b) && (b <=? 239))%Z then
        r1 ← continues (if (b =? 224)%Z then 160 else 128)
                       (if (b =? 237)%Z then 159 else 191) r;
        _ ← continues 128 191 r1; Some 3
      else if ((240 <=? b) && (b <=? 244))%Z then
        r1 ← continues (if (b =? 240)%Z then 144 else 128)
                       (if (b =? 244)%Z then 143 else 191) r;
        r2 ← continues 128 191 r1;
        _ ← continues 128 191 r2; Some 4
      else None
  end.

Definition hex4 (a b c d : ascii) : option Z :=
  x3 ← GoNet.hexDigit (byteOf a);
  x2 ← GoNet.hexDigit (byteOf b);
  x1 ← GoNet.hexDigit (byteOf c);
  x0 ← GoNet.hexDigit (byteOf d);
  Some (((x3 * 16 + x2) * 16 + x1) * 16 + x0)%Z.

(** The escape [\uXXXX] at the front of [s], if there is one. *)
Definition unicodeEscape (s : string) : option (Z * string) :=
  match s with
  | String "\"%char (String "u"%char (String a (String b (String c (String d r))))) =>
      cp ← hex4 a b c d; Some (cp, r)
  | _ => None
  end.

(** The body of a string after its opening quote: the decoded text and the
    rest after the closing quote.  [fuel] bounds the characters read. *)
Fixpoint parseString (fuel : nat) (s : string) : option (string * string) :=
  match fuel with
  | O => None
  | S fuel' =>
      match s with
      | EmptyString => None
      | String c r =>
          if Ascii.eqb c dquote then Some (EmptyString, r)
          else if (byteOf c <? 32)%Z then None
          else if Ascii.eqb c "\"%char then
            match r with
            | String "u"%char _ =>
                match unicodeEscape s with
                | None => None
                | Some (cp, r1) =>
                    let '(cp', r2) :=
                      if ((55296 <=? cp) && (cp <? 56320))%Z then
                        match unicodeEscape r1 with
                        | Some (lo, r2) =>
                            if ((56320 <=? lo) && (lo <? 57344))%Z
                            then (65536 + (cp - 55296) * 1024 + (lo - 56320), r2)%Z
                            else (65533%Z, r1)
                        | None => (65533%Z, r1)
                        end
                      else if ((56320 <=? cp) && (cp <? 57344))%Z then (65533%Z, r1)
                      else (cp, r1) in
                    '(t, rest) ← parseString fuel' r2; Some (utf8 cp' +:+ t, rest)
                end
            | String e r1 =>
                let plain (z : Z) :=
                  '(t, rest) ← parseString fuel' r1;
                  Some (String (ascii_of_N (Z.to_N z)) t, rest) in
                if Ascii.eqb e dquote then plain 34%Z
                else if Ascii.eqb e "\"%char then plain 92%Z
                else if Ascii.eqb e "/"%char then plain 47%Z
                else if Ascii.eqb e "b"%char then plain 8%Z
                else if Ascii.eqb e "f"%char then plain 12%Z
                else if Ascii.eqb e "n"%char then plain 10%Z
                else if Ascii.eqb e "r"%char then plain 13%Z
                else if Ascii.eqb e "t"%char then plain 9%Z
                else None
            | EmptyString => None
            end
          else if (byteOf c <? 128)%Z then
            '(t, rest) ← parseString fuel' r; Some (String c t, rest)
          else
            match runeSize s with
            | Some size =>
                '(t, rest) ← parseString fuel' (from size s); Some (upto size s +:+ t, rest)
            | None => '(t, rest) ← parseString fuel' r; Some (utf8 65533 +:+ t, rest)
            end
      end
  end.

Definition literal (word : string) (v : json) (s : string) : option (json * string) :=
  if String.prefix word s then Some (v, from (String.length word) s) else None.

(** A value at the front of [s] (after white space), and the rest;
    [parseElements] reads the elements of an array after its bracket or a
    comma, [parseMembers] the members of an object likewise. *)
Fixpoint parseValue (fuel : nat) (s : string) : option (json * string) :=
  match fuel with
  | O => None
  | S fuel' =>
      match skipSpace s with
      | EmptyString => None
      | String c r as s1 =>
          if Ascii.eqb c "{"%char then
            match skipSpace r with
            | String "}"%char r' => Some (JObject [], r')
            | r1 => '(m, rest) ← parseMembers fuel' r1 []; Some (JObject m, rest)
            end
          else if Ascii.eqb c "["%char then
            match skipSpace r with
            | String "]"%char r' => Some (JArray [], r')
            | r1 => '(l, rest) ← parseElements fuel' r1 []; Some (JArray l, rest)
            end
          else if Ascii.eqb c dquote then
            '(t, rest) ← parseString (S (String.length r)) r; Some (JString t, rest)
          else if Ascii.eqb c "t"%char then literal "true" (JBool true) s1
          else if Ascii.eqb c "f"%char then literal "false" (JBool false) s1
          else if Ascii.eqb c "n"%char then literal "null" JNull s1
          else '(t, rest) ← parseNumber s1; Some (JNumber t, rest)
      end
  end
with parseElements (fuel : nat) (s : string) (acc : list json) : option (list json * string) :=
  match fuel with
  | O => None
  | S fuel' =>
      match parseValue fuel' s with
      | None => None
      | Some (v, r) =>
          match skipSpace r with
          | String ","%char r' => parseElements fuel' r' (acc ++ [v])
          | String "]"%char r' => Some (acc ++ [v], r')
          | _ => None
          end
      end
  end
with parseMembers (fuel : nat) (s : string) (acc : list (string * json))
  : option (list (string * json) * string) :=
  match fuel with
  | O => None
  | S fuel' =>
      match skipSpace s with
      | String c r =>
          if negb (Ascii.eqb c dquote) then None
          else
            match parseString (S (String.length r)) r with
            | None => None
            | Some (k, r1) =>
                match skipSpace r1 with
                | String ":"%char r2 =>
                    match parseValue fuel' r2 with
                    | None => None
                    | Some (v, r3) =>
                        match skipSpace r3 with
                        | String ","%char r' => parseMembers fuel' r' (acc ++ [(k, v)])
                        | String "}"%char r' => Some (acc ++ [(k, v)], r')
                        | _ => None
                        end
                    end
                | _ => None
                end
            end
      | EmptyString => None
      end
  end.

(** A whole document: one value, white space around it. *)
Definition parseDocument (data : string) : option json :=
  match parseValue (S (S (String.length data))) data with
  | Some (v, rest) => if String.eqb (skipSpace rest) "" then Some v else None
  | None => None
  end.

Definition SyntaxError : error := OSError "invalid character or unexpected end of JSON input" false.
Definition UnmarshalTypeError : error :=
  OSError "json: cannot unmarshal into Go value of type map[string]interface {}" false.

(** [json.Unmarshal(data, &y)] for [y] a nil [map[string]interface{}]: an
    object fills the map, a later member replacing an earlier one of the same
    name; [null] leaves it empty; any other value is a type error. *)
Definition Unmarshal (data : string) : result (gmap string json) :=
  match parseDocument data with
  | None => Err SyntaxError
  | Some (JObject members) =>
      Ok (fold_left (fun (m : gmap string json) kv => <[kv.1 := kv.2]> m) members ∅)
  | Some JNull => Ok ∅
  | Some _ => Err UnmarshalTypeError
  end.

Definition hexByte (b : Z) : string :=
  String (GoNet.hexChar (Z.shiftr b 4)) (String (GoNet.hexChar (Z.land b 15)) EmptyString).

(** A string as [json.Marshal] writes it: quotes, the backslash and control
    characters escaped; [<], [>], [&] written as \u003c, \u003e, \u0026;
    U+2028 and U+2029 written as \u2028 and \u2029; a byte that starts no
    valid UTF-8 encoding written as \ufffd; all else as it is.  [pending]
    counts the bytes still to copy of an encoding already examined. *)
Fixpoint escapeFrom (pending : nat) (s : string) : string :=
  match s with
  | EmptyString => EmptyString
  | String c r =>
      match pending with
      | S n => String c (escapeFrom n r)
      | O =>
          let b := byteOf c in
          if (b <? 128)%Z then
            (if Ascii.eqb c dquote then String "\"%char (String dquote EmptyString)
             else if Ascii.eqb c "\"%char then "\\"
             else if (b =? 10)%Z then "\n"
             else if (b =? 13)%Z then "\r"
             else if (b =? 9)%Z then "\t"
             else if ((b <? 32) || (b =? 60) || (b =? 62) || (b =? 38))%Z
                  then "\u00" +:+ hexByte b
             else String c EmptyString) +:+ escapeFrom 0 r
          else
            match runeSize s with
            | None => "\ufffd" +:+ escapeFrom 0 r
            | Some size =>
                match r with
                | String c1 (String c2 r2) =>
                    if ((b =? 226) && (byteOf c1 =? 128)
                        && ((byteOf c2 =? 168) || (byteOf c2 =? 169)))%Z
                    then "\u202" +:+ String (GoNet.hexChar (Z.land (byteOf c2) 15)) EmptyString
                         +:+ escapeFrom 0 r2
                    else String c (escapeFrom (size - 1) r)
                | _ => String c (escapeFrom (size - 1) r)
                end
            end
      end
  end.

Definition escape (s : string) : string := escapeFrom 0 s.

Definition quote (s : string) : string :=
  String dquote (escape s) +:+ String dquote EmptyString.

End GoJSON.

(** ** Data of the package *)

Record slirpFeatures : Type := mkFeatures {
  HasDisableHostLoopback : bool;
  HasMTU : bool;
  HasEnableSandbox : bool;
  HasEnableSeccomp : bool;
  HasCIDR : bool;
  HasOutboundAddr : bool;
  HasIPv6 : bool
}.

Record slirp4netnsCmdArg : Type := mkCmdArg {
  Proto : string;
  HostAddr : string;
  arg_HostPort : Z;
  GuestAddr : string;
  GuestPort : Z
}.

Record slirp4netnsCmd : Type := mkCmd {
  Execute : string;
  Args : slirp4netnsCmdArg
}.

Record slirp4netnsNetworkOptions : Type := mkOptions {
  cidr : string;
  disableHostLoopback : bool;
  enableIPv6 : bool;
  isSlirpHostForward : bool;
  noPivotRoot : bool;
  mtu : Z;
  outboundAddr : string;
  outboundAddr6 : string
}.

(** [r.config.Engine], the fields read here. *)
Record EngineConfig : Type := mkEngine {
  NetworkCmdOptions : list string;
  NoPivotRoot : bool;
  NetworkCmdPath : string;
  TmpDir : string
}.

Record Runtime : Type := mkRuntime { Engine : EngineConfig }.

(** [ocicni.PortMapping]. *)
Record PortMapping : Type := mkPortMapping {
  HostPort : Z;
  ContainerPort : Z;
  Protocol : string;
  HostIP : string
}.

(** [ctr.config], [ctr.state] and the container's sync descriptors, the
    fields read here.  A CNI result of [NetworkStatus] is the list of the
    addresses of its [IPs]; [rootlessPortSyncR] says whether that descriptor
    is set (not nil) when the call starts. *)
Record Container : Type := mkContainer {
  ID : string;
  PortMappings : list PortMapping;
  NetworkOptions : option (gmap string (list string));
  PostConfigureNetNS : bool;
  NetNSPath : string;
  PID : Z;
  NetworkStatus : list (list GoNet.IP);
  rootlessPortSyncR : bool
}.

(** [rootlessport.Config]. *)
Record rootlessportConfig : Type := mkRLKConfig {
  Mappings : list PortMapping;
  NetNSPathCfg : string;
  ExitFD : Z;
  ReadyFD : Z;
  TmpDirCfg : string;
  ChildIP : string
}.

(** [exec.Cmd], the fields set here.  [ExtraFiles] names the descriptors
    handed to the child, [Stdin] is the text supplied on standard input,
    [NewMountNS] says that [Cloneflags] and [Unshareflags] are
    [CLONE_NEWNS]. *)
Record Cmd : Type := mkExecCmd {
  Path : string;
  CmdArgs : list string;
  ExtraFiles : list string;
  Stdin : option string;
  Setpgid : bool;
  NewMountNS : bool
}.

(** ** What the parent observes of the world *)

(** One turn of the loop of [waitForSync]: the answers of
    [syncR.SetDeadline], of [syncR.Read] (the bytes read) and of
    [syscall.Wait4(pid, &status, WNOHANG, nil)] (the pid returned and the
    wait status written).  The answer of [Wait4] is consulted only after a
    read that timed out. *)
Record observation : Type := mkObs {
  obs_setDeadline : option error;
  obs_read : result nat;
  obs_wait4 : result (Z * Z)
}.

(** The log file as an [io.ReadSeeker]: its bytes, the read offset, and
    whether [Seek] and [ReadAll] fail. *)
Record LogFile : Type := mkLogFile {
  log_content : string;
  log_offset : nat;
  log_seekErr : option error;
  log_readErr : option error
}.

(** A started child: its pid, what the parent will observe on the sync pipe
    and of the child's status, the log file as the parent finds it, the
    child's standard output, and the answer of [Process.Release]. *)
Record Process : Type := mkProcess {
  Pid : Z;
  proc_sync : list observation;
  proc_log : LogFile;
  proc_stdout : string;
  proc_release : option error
}.

(** One connection to the control socket: the answers of [Write],
    [CloseWrite], [Read] (the bytes the helper sent back) and [Close]. *)
Record Conn : Type := mkConn {
  conn_write : option error;
  conn_closeWrite : option error;
  conn_read : result string;
  conn_close : option error
}.

(** The host: the answers of the operating system to the calls made here.
    [os_Pipe name] answers the [os.Pipe] that makes the pair of descriptors
    [name], [os_Dial n] the [n]-th [net.Dial] of a call; [os_WaitForFile] is
    the outcome of the package's [WaitForFile] on the control socket, with
    the task that watches the helper beside it. *)
Record Host : Type := mkHost {
  InterfaceByName : string -> option error;
  os_LookPath : string -> result string;
  os_Pipe : string -> option error;
  os_CombinedOutput : string -> list string -> string * option error;
  os_Create : string -> option error;
  os_Remove : string -> option error;
  os_Start : Cmd -> result Process;
  os_Getpid : Z;
  os_WaitForFile : string -> option error;
  os_Dial : nat -> string -> result Conn
}.

(** The calls a function makes, in order; a call that fails is recorded
    too. *)
Inductive event : Type :=
| EvLog (level format : string) (args : list fmtarg)
| EvPipe (name : string)
| EvClose (name : string)
| EvExec (path : string) (args : list string)
| EvCreate (path : string)
| EvRemove (path : string)
| EvStart (c : Cmd)
| EvRelease (pid : Z)
| EvSetDeadline (timeout : Z)
| EvRead
| EvWait4 (pid : Z)
| EvSeek
| EvReadAll
| EvWaitForFile (path : string)
| EvDial (n : nat) (sock : string)
| EvWrite (n : nat) (data : string)
| EvCloseWrite (n : nat)
| EvConnRead (n : nat)
| EvConnClose (n : nat).

(** ** Function bodies with effects

    A function of the package runs to a [return], blocks for ever, or stops
    in a run-time panic.  Its body is a computation that records the calls it
    makes ([did]) and the calls it has deferred ([deferred], the last one
    deferred first); the deferred calls run when the function returns. *)

Inductive exit : Type :=
| Return (err : option error)
| Block
| Panic.

Inductive waited : Type :=
| Returned (err : option error)
| Blocked
| Panicked.

Record body (A : Type) : Type := mkBody {
  did : list event;
  deferred : list event;
  next : A + exit
}.
Arguments mkBody {A} did deferred next.
Arguments did {A} b.
Arguments deferred {A} b.
Arguments next {A} b.

#[global] Instance body_ret : MRet body := fun A a => mkBody [] [] (inl a).

#[global] Instance body_bind : MBind body := fun A B f m =>
  match next m with
  | inl a => let m' := f a in mkBody (did m ++ did m') (deferred m' ++ deferred m) (next m')
  | inr x => mkBody (did m) (deferred m) (inr x)
  end.

(** A call is made. *)
Definition call (ev : event) : body unit := mkBody [ev] [] (inl tt).

(** [defer]: the calls [evs] will be made at the return. *)
Definition defer (evs : list event) : body unit := mkBody [] evs (inl tt).

(** [return err]. *)
Definition ret {A : Type} (err : option error) : body A := mkBody [] [] (inr (Return err)).

Definition block {A : Type} : body A := mkBody [] [] (inr Block).

Definition panic {A : Type} : body A := mkBody [] [] (inr Panic).

(** A whole function: its body, then the deferred calls if it returns. *)
Definition func (b : body unit) : waited * list event :=
  match next b with
  | inl _ => (Returned None, did b ++ deferred b)
  | inr (Return err) => (Returned err, did b ++ deferred b)
  | inr Block => (Blocked, did b)
  | inr Panic => (Panicked, did b)
  end.

(** Calling a function from a body: what it did is done, and its error is
    the value of the call. *)
Definition invoke (r : waited * list event) : body (option error) :=
  mkBody r.2 []
    match r.1 with
    | Returned err => inl err
    | Blocked => inr Block
    | Panicked => inr Panic
    end.

(** [logrus]. *)
Definition logError (format : string) (args : list fmtarg) : event := EvLog "error" format args.
Definition logDebug (format : string) (args : list fmtarg) : event := EvLog "debug" format args.

(** ** Parsing the options, building the command line *)

Section Slirp4netns.

(** Constants of the package declared in other files. *)
Variable slirp4netnsMTU : Z.
Variable slirp4netnsIP : string.
Variable ReexecKey : string.
(** [json.Marshal] of a [rootlessport.Config]. *)
Variable marshalConfig : rootlessportConfig -> result string.

Definition isNil {A : Type} (o : option A) : bool :=
  match o with
  | None => true
  | Some _ => false
  end.

(** The [switch option] of [parseSlirp4netnsNetworkOptions]: the key
    [option] with its [value], of the raw option [o], applied to the options
    parsed so far. *)
Definition setOption (h : Host) (slirp4netnsOpts : slirp4netnsNetworkOptions)
  (o option value : string) : result slirp4netnsNetworkOptions :=
  let opts := slirp4netnsOpts in
  if String.eqb option "cidr" then
    match GoNet.ParseCIDR value with
    | Ok (ipv4, _) =>
        if isNil (GoNet.To4 ipv4) then Err (Errorf "invalid cidr %q" [AString value])
        else Ok (mkOptions value (disableHostLoopback opts) (enableIPv6 opts)
                   (isSlirpHostForward opts) (noPivotRoot opts) (mtu opts)
                   (outboundAddr opts) (outboundAddr6 opts))
    | Err _ => Err (Errorf "invalid cidr %q" [AString value])
    end
  else if String.eqb option "port_handler" then
    if String.eqb value "slirp4netns" then
      Ok (mkOptions (cidr opts) (disableHostLoopback opts) (enableIPv6 opts)
            true (noPivotRoot opts) (mtu opts) (outboundAddr opts) (outboundAddr6 opts))
    else if String.eqb value "rootlesskit" then
      Ok (mkOptions (cidr opts) (disableHostLoopback opts) (enableIPv6 opts)
            false (noPivotRoot opts) (mtu opts) (outboundAddr opts) (outboundAddr6 opts))
    else Err (Errorf "unknown port_handler for slirp4netns: %q" [AString value])
  else if String.eqb option "allow_host_loopback" then
    if String.eqb value "true" then
      Ok (mkOptions (cidr opts) false (enableIPv6 opts)
            (isSlirpHostForward opts) (noPivotRoot opts) (mtu opts)
            (outboundAddr opts) (outboundAddr6 opts))
    else if String.eqb value "false" then
      Ok (mkOptions (cidr opts) true (enableIPv6 opts)
            (isSlirpHostForward opts) (noPivotRoot opts) (mtu opts)
            (outboundAddr opts) (outboundAddr6 opts))
    else Err (Errorf "invalid value of allow_host_loopback for slirp4netns: %q" [AString value])
  else if String.eqb option "enable_ipv6" then
    if String.eqb value "true" then
      Ok (mkOptions (cidr opts) (disableHostLoopback opts) true
            (isSlirpHostForward opts) (noPivotRoot opts) (mtu opts)
            (outboundAddr opts) (outboundAddr6 opts))
    else if String.eqb value "false" then
      Ok (mkOptions (cidr opts) (disableHostLoopback opts) false
            (isSlirpHostForward opts) (noPivotRoot opts) (mtu opts)
            (outboundAddr opts) (outboundAddr6 opts))
    else Err (Errorf "invalid value of enable_ipv6 for slirp4netns: %q" [AString value])
  else if String.eqb option "outbound_addr" then
    let ipv4 := GoNet.ParseIP value in
    if (isNil ipv4 || isNil (ipv4 ≫= GoNet.To4)) && negb (isNil (InterfaceByName h value))
    then Err (Errorf "invalid outbound_addr %q" [AString value])
    else Ok (mkOptions (cidr opts) (disableHostLoopback opts) (enableIPv6 opts)
               (isSlirpHostForward opts) (noPivotRoot opts) (mtu opts)
               value (outboundAddr6 opts))
  else if String.eqb option "outbound_addr6" then
    let ipv6 := GoNet.ParseIP value in
    if (isNil ipv6 || negb (isNil (ipv6 ≫= GoNet.To4))) && negb (isNil (InterfaceByName h value))
    then Err (Errorf "invalid outbound_addr6: %q" [AString value])
    else Ok (mkOptions (cidr opts) (disableHostLoopback opts) (enableIPv6 opts)
               (isSlirpHostForward opts) (noPivotRoot opts) (mtu opts)
               (outboundAddr opts) value)
  else if String.eqb option "mtu" then
    match GoStrings.Atoi value with
    | (n, err) =>
        if (n <? 68)%Z || negb (isNil err) then Err (Errorf "invalid mtu %q" [AString value])
        else Ok (mkOptions (cidr opts) (disableHostLoopback opts) (enableIPv6 opts)
                   (isSlirpHostForward opts) (noPivotRoot opts) n
                   (outboundAddr opts) (outboundAddr6 opts))
    end
  else Err (Errorf "unknown option for slirp4netns: %q" [AString o]).

(** The body of the loop: the raw option is split at its first [=]. *)
Definition parseOption (h : Host) (slirp4netnsOpts : slirp4netnsNetworkOptions) (o : string)
  : result slirp4netnsNetworkOptions :=
  match GoStrings.SplitN o "=" 2 with
  | [option; value] => setOption h slirp4netnsOpts o option value
  | _ => Err (Errorf "unknown option for slirp4netns: %q" [AString o])
  end.

(** The loop over the options, stopping at the first error. *)
Fixpoint parseOptions (h : Host) (slirp4netnsOpts : slirp4netnsNetworkOptions)
  (slirpOptions : list string) : result slirp4netnsNetworkOptions :=
  match slirpOptions with
  | [] => Ok slirp4netnsOpts
  | o :: rest =>
      match parseOption h slirp4netnsOpts o with
      | Ok opts' => parseOptions h opts' rest
      | Err e => Err e
      end
  end.

Definition parseSlirp4netnsNetworkOptions (h : Host) (r : Runtime) (extraOptions : list string)
  : result slirp4netnsNetworkOptions :=
  let slirpOptions := NetworkCmdOptions (Engine r) ++ extraOptions in
  let slirp4netnsOpts :=
    mkOptions "" true false false (NoPivotRoot (Engine r)) slirp4netnsMTU "" "" in
  parseOptions h slirp4netnsOpts slirpOptions.

Definition appendIf (c : bool) (cmdArgs : list string) (arg : string) : list string :=
  if c then cmdArgs ++ [arg] else cmdArgs.

Definition createBasicSlirp4netnsCmdArgs (options : slirp4netnsNetworkOptions)
  (features : slirpFeatures) : result (list string) :=
  let cmdArgs := [] in
  let cmdArgs := appendIf (disableHostLoopback options && HasDisableHostLoopback features)
                   cmdArgs "--disable-host-loopback" in
  let cmdArgs := appendIf ((-1 <? mtu options)%Z && HasMTU features)
                   cmdArgs ("--mtu=" +:+ GoStrings.Itoa (mtu options)) in
  let cmdArgs := appendIf (negb (noPivotRoot options) && HasEnableSandbox features)
                   cmdArgs "--enable-sandbox" in
  let cmdArgs := appendIf (HasEnableSeccomp features) cmdArgs "--enable-seccomp" in
  if negb (String.eqb (cidr options) "") && negb (HasCIDR features)
  then Err (Errorf "cidr not supported" [])
  else
    let cmdArgs := appendIf (negb (String.eqb (cidr options) ""))
                     cmdArgs ("--cidr=" +:+ cidr options) in
    if enableIPv6 options && negb (HasIPv6 features)
    then Err (Errorf "enable_ipv6 not supported" [])
    else
      let cmdArgs := appendIf (enableIPv6 options) cmdArgs "--enable-ipv6" in
      if negb (String.eqb (outboundAddr options) "") && negb (HasOutboundAddr features)
      then Err (Errorf "outbound_addr not supported" [])
      else
        let cmdArgs := appendIf (negb (String.eqb (outboundAddr options) ""))
                         cmdArgs ("--outbound-addr=" +:+ outboundAddr options) in
        if negb (String.eqb (outboundAddr6 options) "") then
          if negb (HasOutboundAddr features) || negb (HasIPv6 features)
          then Err (Errorf "outbound_addr6 not supported" [])
          else if negb (enableIPv6 options)
          then Err (Errorf "enable_ipv6=true is required for outbound_addr6" [])
          else Ok (cmdArgs ++ ["--outbound-addr6=" +:+ outboundAddr6 options])
        else Ok cmdArgs.

(** ** The readiness handshake *)

(** [syscall.WaitStatus] on Linux. *)
Definition Exited (status : Z) : bool := (Z.land status 127 =? 0)%Z.

Definition Signaled (status : Z) : bool :=
  negb (Z.land status 127 =? 127)%Z && negb (Z.land status 127 =? 0)%Z.

Definition ExitStatus (status : Z) : Z :=
  if negb (Exited status) then (-1)%Z else Z.land (Z.shiftr status 8) 255.

(** [logFile.Seek(0, 0)]. *)
Definition Seek0 (f : LogFile) : LogFile * option error :=
  match log_seekErr f with
  | Some err => (f, Some err)
  | None => (mkLogFile (log_content f) 0 (log_seekErr f) (log_readErr f), None)
  end.

(** [ioutil.ReadAll(logFile)]: the bytes from the offset to the end. *)
Definition ReadAll (f : LogFile) : result string :=
  match log_readErr f with
  | Some err => Err err
  | None => Ok (GoStrings.from (log_offset f) (log_content f))
  end.

(** [exec.Command]: a name that is its own base name is looked up on the
    search path, and kept as it is when the lookup fails. *)
Definition Command (h : Host) (name : string) (arg : list string) : Cmd :=
  let path :=
    if String.eqb (GoStrings.Base name) name then
      match os_LookPath h name with
      | Ok p => p
      | Err _ => name
      end
    else name in
  mkExecCmd path (name :: arg) [] None false false.

Definition progOf (cmd : Cmd) : string :=
  match CmdArgs cmd with
  | a0 :: _ => a0
  | [] => GoStrings.Base (Path cmd)
  end.

(** The loop of [waitForSync], one observation a turn.  It blocks when the
    observations run out. *)
Fixpoint waitForSync_loop (prog : string) (pid : Z) (script : list observation)
  (logFile : LogFile) (timeout : Z) : body unit :=
  match script with
  | [] => block
  | o :: rest =>
      call (EvSetDeadline timeout);;
      match obs_setDeadline o with
      | Some err => ret (Some (Wrapf err "error setting %s pipe timeout" [AString prog]))
      | None =>
          call EvRead;;
          match obs_read o with
          | Ok _ => mret ()
          | Err err =>
              if IsTimeout err then
                call (EvWait4 pid);;
                match obs_wait4 o with
                | Err err => ret (Some (Wrapf err "failed to read %s process status" [AString prog]))
                | Ok (pid', status) =>
                    if negb (pid' =? pid)%Z then waitForSync_loop prog pid rest logFile timeout
                    else if Exited status then
                      call EvSeek;;
                      let '(logFile, seekErr) := Seek0 logFile in
                      match seekErr with
                      | Some err => call (logError "could not seek log file: %q" [AError err])
                      | None => mret ()
                      end;;
                      call EvReadAll;;
                      match ReadAll logFile with
                      | Err err => ret (Some (Wrapf err "%s failed" [AString prog]))
                      | Ok logContent =>
                          ret (Some (Errorf "%s failed: %q" [AString prog; AString logContent]))
                      end
                    else if Signaled status then
                      ret (Some (Errorf "%s killed by signal" [AString prog]))
                    else waitForSync_loop prog pid rest logFile timeout
                end
              else ret (Some (Wrapf err "failed to read from %s sync pipe" [AString prog]))
          end
      end
  end.

(** [waitForSync(syncR, cmd, logFile, timeout)]: [script] is what the sync
    pipe and the child [pid] of [cmd] will answer. *)
Definition waitForSync (script : list observation) (cmd : Cmd) (pid : Z)
  (logFile : LogFile) (timeout : Z) : waited * list event :=
  func (waitForSync_loop (progOf cmd) pid script logFile timeout;; ret None).

Definition second : Z := 1000000000.

(** ** Port forwarding through rootlessport *)

(** The first IPv4 address of the network status, scanning the results and
    their addresses in order. *)
Fixpoint firstIPv4 (status : list (list GoNet.IP)) : option GoNet.IP :=
  match status with
  | [] => None
  | r :: rest =>
      match list_find (fun ip => is_Some (GoNet.To4 ip)) r with
      | Some (_, i) => GoNet.To4 i
      | None => firstIPv4 rest
      end
  end.

(** [cidr.IP[len(cidr.IP)-1] = cidr.IP[len(cidr.IP)-1] + 100], an addition of
    bytes; [None] when there is no last byte (a run-time panic in Go). *)
Definition addToLastByte (ip : GoNet.IP) (k : Z) : option GoNet.IP :=
  match last ip with
  | Some b => Some (<[pred (length ip) := ((b + k) mod 256)%Z]> ip)
  | None => None
  end.

(** The child address of [setupRootlessPortMappingViaRLK]: the default, the
    address derived from a custom CIDR, then the first IPv4 address already
    known. *)
Definition rlkChildIP (slirp4CIDR : string) (status : list (list GoNet.IP)) : body string :=
  childIP ←
    (if String.eqb slirp4CIDR "" then mret slirp4netnsIP
     else
       match GoNet.ParseCIDR slirp4CIDR with
       | Err err => ret (Some (Wrapf err "failed to parse slirp4netns cidr" []))
       | Ok (_, cidr) =>
           match addToLastByte (GoNet.net_IP cidr) 100 with
           | Some ip => mret (GoNet.IP_String ip)
           | None => panic
           end
       end);
  match firstIPv4 status with
  | Some ipv4 => mret (GoNet.IP_String ipv4)
  | None => mret childIP
  end.

Definition releaseProcess (what : string) (p : Process) : list event :=
  EvRelease (Pid p) ::
  match proc_release p with
  | Some err => [logError ("unable to release " +:+ what +:+ " process: %q") [AError err]]
  | None => []
  end.

Definition setupRootlessPortMappingViaRLK (h : Host) (r : Runtime) (ctr : Container)
  (netnsPath slirp4CIDR : string) : waited * list event :=
  func (
    call (EvPipe "syncR, syncW");;
    match os_Pipe h "syncR, syncW" with
    | Some err => ret (Some (Wrapf err "failed to open pipe" []))
    | None =>
        defer [EvClose "syncW"; EvClose "syncR"];;
        let logPath := GoPath.Join [TmpDir (Engine r); "rootlessport-" +:+ ID ctr +:+ ".log"] in
        call (EvCreate logPath);;
        match os_Create h logPath with
        | Some err => ret (Some (Wrapf err "failed to open rootlessport log file %s" [AString logPath]))
        | None =>
            defer [EvClose "logFile"];;
            call (EvRemove logPath);;
            match os_Remove h logPath with
            | Some err => ret (Some (Wrapf err "delete file %s" [AString logPath]))
            | None =>
                (if PostConfigureNetNS ctr then mret ()
                 else
                   call (EvPipe "rootlessPortSyncR, rootlessPortSyncW");;
                   match os_Pipe h "rootlessPortSyncR, rootlessPortSyncW" with
                   | Some err => ret (Some (Wrapf err "failed to create rootless port sync pipe" []))
                   | None => mret ()
                   end);;
                childIP ← rlkChildIP slirp4CIDR (NetworkStatus ctr);
                let cfg := mkRLKConfig (PortMappings ctr) netnsPath 3 4 (TmpDir (Engine r)) childIP in
                match marshalConfig cfg with
                | Err err => ret (Some err)
                | Ok cfgJSON =>
                    let cmd := Command h ("/proc/" +:+ GoStrings.Itoa (os_Getpid h) +:+ "/exe") [] in
                    (if negb (PostConfigureNetNS ctr) || rootlessPortSyncR ctr
                     then defer [EvClose "rootlessPortSyncR"] else mret ());;
                    let cmd := mkExecCmd (Path cmd) [ReexecKey] ["rootlessPortSyncR"; "syncW"]
                                 (Some cfgJSON) true false in
                    call (EvStart cmd);;
                    match os_Start h cmd with
                    | Err err => ret (Some (Wrapf err "failed to start rootlessport process" []))
                    | Ok p =>
                        defer (releaseProcess "rootlessport" p);;
                        err ← invoke (waitForSync (proc_sync p) cmd (Pid p) (proc_log p) (3 * second));
                        match err with
                        | Some err =>
                            let stdoutStr := proc_stdout p in
                            if negb (String.eqb stdoutStr "") then
                              call (logDebug "%v" [AError err]);;
                              ret (Some (Errorf ("rootlessport " +:+ GoStrings.TrimSuffix stdoutStr (String (ascii_of_nat 10) EmptyString)) []))
                            else ret (Some err)
                        | None =>
                            call (logDebug "rootlessport is ready" []);;
                            ret None
                        end
                    end
                end
            end
        end
    end).

(** ** Port forwarding through the control socket of slirp4netns *)

(** [json.Marshal(&apiCmd)]; [proto] is left out when empty. *)
Definition marshalCmd (apiCmd : slirp4netnsCmd) : string :=
  let q := GoJSON.quote in
  let a := Args apiCmd in
  "{" +:+ q "execute" +:+ ":" +:+ q (Execute apiCmd) +:+ "," +:+ q "arguments" +:+ ":{"
  +:+ (if String.eqb (Proto a) "" then "" else q "proto" +:+ ":" +:+ q (Proto a) +:+ ",")
  +:+ q "host_addr" +:+ ":" +:+ q (HostAddr a) +:+ ","
  +:+ q "host_port" +:+ ":" +:+ GoStrings.Itoa (arg_HostPort a) +:+ ","
  +:+ q "guest_addr" +:+ ":" +:+ q (GuestAddr a) +:+ ","
  +:+ q "guest_port" +:+ ":" +:+ GoStrings.Itoa (GuestPort a) +:+ "}}".

Definition closeConn (n : nat) (conn : Conn) : list event :=
  EvConnClose n ::
  match conn_close conn with
  | Some err => [logError "unable to close connection: %q" [AError err]]
  | None => []
  end.

(** The loop of [setupRootlessPortMappingViaSlirp] over the port mappings,
    [n] connections having been opened before. *)
Fixpoint addHostFwd (h : Host) (apiSocket : string) (n : nat) (mappings : list PortMapping)
  : body unit :=
  match mappings with
  | [] => mret ()
  | i :: rest =>
      call (EvDial n apiSocket);;
      match os_Dial h n apiSocket with
      | Err err => ret (Some (Wrapf err "cannot open connection to %s" [AString apiSocket]))
      | Ok conn =>
          defer (closeConn n conn);;
          let hostIP := if String.eqb (HostIP i) "" then "0.0.0.0" else HostIP i in
          let apiCmd := mkCmd "add_hostfwd" (mkCmdArg (Protocol i) hostIP (HostPort i) "" (ContainerPort i)) in
          let data := marshalCmd apiCmd in
          call (EvWrite n (data +:+ String (ascii_of_nat 10) EmptyString));;
          match conn_write conn with
          | Some err => ret (Some (Wrapf err "cannot write to control socket %s" [AString apiSocket]))
          | None =>
              call (EvCloseWrite n);;
              match conn_closeWrite conn with
              | Some err => ret (Some (Wrapf err "cannot shutdown the socket %s" [AString apiSocket]))
              | None =>
                  call (EvConnRead n);;
                  match conn_read conn with
                  | Err err => ret (Some (Wrapf err "cannot read from control socket %s" [AString apiSocket]))
                  | Ok sent =>
                      let buf := GoStrings.upto 2048 sent in
                      match GoJSON.Unmarshal buf with
                      | Err err => ret (Some (Wrapf err "error parsing error status from slirp4netns" []))
                      | Ok y =>
                          match y !! "error" with
                          | Some e =>
                              ret (Some (Errorf "error from slirp4netns while setting up port redirection: %v" [AJson e]))
                          | None => addHostFwd h apiSocket (S n) rest
                          end
                      end
                  end
              end
          end
      end
  end.

Definition setupRootlessPortMappingViaSlirp (h : Host) (ctr : Container) (cmd : Cmd)
  (apiSocket : string) : waited * list event :=
  func (
    call (EvWaitForFile apiSocket);;
    match os_WaitForFile h apiSocket with
    | Some err =>
        ret (Some (Wrapf err "waiting for slirp4nets to create the api socket file %s" [AString apiSocket]))
    | None =>
        addHostFwd h apiSocket 0 (PortMappings ctr);;
        call (logDebug "slirp4netns port-forwarding setup via add_hostfwd is ready" []);;
        ret None
    end).

(** ** Starting slirp4netns *)

Definition checkSlirpFlags (h : Host) (path : string) : result slirpFeatures * list event :=
  (match os_CombinedOutput h path ["--help"] with
   | (out, Some err) => Err (Wrapf err "slirp4netns %q" [AString out])
   | (out, None) =>
       Ok (mkFeatures
             (GoStrings.Contains out "--disable-host-loopback")
             (GoStrings.Contains out "--mtu")
             (GoStrings.Contains out "--enable-sandbox")
             (GoStrings.Contains out "--enable-seccomp")
             (GoStrings.Contains out "--cidr")
             (GoStrings.Contains out "--outbound-addr")
             (GoStrings.Contains out "--enable-ipv6"))
   end,
   [EvExec path ["--help"]]).

(** Calling a function that returns a value and an error. *)
Definition invokeR {A : Type} (r : result A * list event) : body (result A) :=
  mkBody r.2 [] (inl r.1).

(** [v, err := f(...); if err != nil { return err }] for a function without
    effects. *)
Definition fromResult {A : Type} (r : result A) : body A :=
  match r with
  | Ok a => mret a
  | Err err => ret (Some err)
  end.

Definition setupSlirp4netns (h : Host) (r : Runtime) (ctr : Container) : waited * list event :=
  func (
    path ←
      (let path := NetworkCmdPath (Engine r) in
       if String.eqb path "" then
         match os_LookPath h "slirp4netns" with
         | Err err =>
             call (logError "could not find slirp4netns, the network namespace won't be configured: %v" [AError err]);;
             ret None
         | Ok path => mret path
         end
       else mret path);
    call (EvPipe "syncR, syncW");;
    match os_Pipe h "syncR, syncW" with
    | Some err => ret (Some (Wrapf err "failed to open pipe" []))
    | None =>
        defer [EvClose "syncW"; EvClose "syncR"];;
        let havePortMapping := negb (bool_decide (PortMappings ctr = [])) in
        let logPath := GoPath.Join [TmpDir (Engine r); "slirp4netns-" +:+ ID ctr +:+ ".log"] in
        let ctrNetworkSlipOpts :=
          match NetworkOptions ctr with
          | Some m => default [] (m !! "slirp4netns")
          | None => []
          end in
        netOptions ← fromResult (parseSlirp4netnsNetworkOptions h r ctrNetworkSlipOpts);
        probed ← invokeR (checkSlirpFlags h path);
        slirpFeatures ←
          match probed with
          | Err err =>
              ret (Some (Wrapf err "error checking slirp4netns binary %s: %q"
                           [AString path; AError err]))
          | Ok features => mret features
          end;
        cmdArgs ← fromResult (createBasicSlirp4netnsCmdArgs netOptions slirpFeatures);
        let cmdArgs := cmdArgs ++ ["-c"; "-e"; "3"; "-r"; "4"] in
        let useSocket := havePortMapping && isSlirpHostForward netOptions in
        let apiSocket :=
          if useSocket then GoPath.Join [TmpDir (Engine r); ID ctr +:+ ".net"] else "" in
        let cmdArgs := if useSocket then cmdArgs ++ ["--api-socket"; apiSocket] else cmdArgs in
        '(netnsPath, cmdArgs) ←
          (if negb (PostConfigureNetNS ctr) then
             call (EvPipe "rootlessSlirpSyncR, rootlessSlirpSyncW");;
             match os_Pipe h "rootlessSlirpSyncR, rootlessSlirpSyncW" with
             | Some err => ret (Some (Wrapf err "failed to create rootless network sync pipe" []))
             | None =>
                 let netnsPath := NetNSPath ctr in
                 mret (netnsPath, cmdArgs ++ ["--netns-type=path"; netnsPath; "tap0"])
             end
           else
             defer [EvClose "rootlessSlirpSyncW"; EvClose "rootlessSlirpSyncR"];;
             mret ("/proc/" +:+ GoStrings.Itoa (PID ctr) +:+ "/ns/net",
                   cmdArgs ++ [GoStrings.Itoa (PID ctr); "tap0"]));
        let cmd := Command h path cmdArgs in
        call (logDebug "slirp4netns command: %s" [AString (GoPath.joinWith " " (CmdArgs cmd))]);;
        let cmd := mkExecCmd (Path cmd) (CmdArgs cmd) ["rootlessSlirpSyncR"; "syncW"] None true
                     (negb (noPivotRoot netOptions) && HasEnableSandbox slirpFeatures) in
        call (EvCreate logPath);;
        match os_Create h logPath with
        | Some err => ret (Some (Wrapf err "failed to open slirp4netns log file %s" [AString logPath]))
        | None =>
            defer [EvClose "logFile"];;
            call (EvRemove logPath);;
            match os_Remove h logPath with
            | Some err => ret (Some (Wrapf err "delete file %s" [AString logPath]))
            | None =>
                call (EvStart cmd);;
                match os_Start h cmd with
                | Err err => ret (Some (Wrapf err "failed to start slirp4netns process" []))
                | Ok p =>
                    defer (releaseProcess "command" p);;
                    err ← invoke (waitForSync (proc_sync p) cmd (Pid p) (proc_log p) (1 * second));
                    match err with
                    | Some err => ret (Some err)
                    | None =>
                        if havePortMapping then
                          if isSlirpHostForward netOptions then
                            err ← invoke (setupRootlessPortMappingViaSlirp h ctr cmd apiSocket);
                            ret err
                          else
                            err ← invoke (setupRootlessPortMappingViaRLK h r ctr netnsPath (cidr netOptions));
                            ret err
                        else ret None
                    end
                end
            end
        end
    end).

End Slirp4netns.

(** ** Vocabulary of the properties *)

(** The options of [options] that ask for a capability [features] lacks,
    among those the command line cannot do without, in the order the builder
    looks at them. *)
Definition requestedUnsupported (options : slirp4netnsNetworkOptions)
  (features : slirpFeatures) : list string :=
  (if negb (String.eqb (cidr options) "") && negb (HasCIDR features) then ["cidr"] else [])
  ++ (if enableIPv6 options && negb (HasIPv6 features) then ["enable_ipv6"] else [])
  ++ (if negb (String.eqb (outboundAddr options) "") && negb (HasOutboundAddr features)
      then ["outbound_addr"] else [])
  ++ (if negb (String.eqb (outboundAddr6 options) "")
         && (negb (HasOutboundAddr features) || negb (HasIPv6 features))
      then ["outbound_addr6"] else []).

(** The character [c] occurs in [s]. *)
Fixpoint occurs (c : ascii) (s : string) : bool :=
  match s with
  | EmptyString => false
  | String c' s' => Ascii.eqb c c' || occurs c s'
  end.

(** [opts] with its outbound IPv6 address set. *)
Definition withOutboundAddr6 (opts : slirp4netnsNetworkOptions) (value : string)
  : slirp4netnsNetworkOptions :=
  mkOptions (cidr opts) (disableHostLoopback opts) (enableIPv6 opts) (isSlirpHostForward opts)
    (noPivotRoot opts) (mtu opts) (outboundAddr opts) value.

(** A turn of the loop of [waitForSync], by what the parent observes in it:
    the read timed out; it timed out and the child is found still running
    (another pid is reported, or a status that is neither an exit nor a
    signal); the read succeeded; the child is found exited or killed; the
    read failed otherwise; arming the deadline failed; asking for the child's
    status failed. *)
Definition timedOut (o : observation) : bool :=
  isNil (obs_setDeadline o)
  && match obs_read o with
     | Err e => IsTimeout e
     | Ok _ => false
     end.

Definition stillRunning (pid : Z) (o : observation) : bool :=
  timedOut o
  && match obs_wait4 o with
     | Ok (pid', status) => negb (pid' =? pid)%Z || (negb (Exited status) && negb (Signaled status))
     | Err _ => false
     end.

Definition ready (o : observation) : bool :=
  isNil (obs_setDeadline o)
  && match obs_read o with
     | Ok _ => true
     | Err _ => false
     end.

Definition childEnded (pid : Z) (o : observation) : bool :=
  timedOut o
  && match obs_wait4 o with
     | Ok (pid', status) => (pid' =? pid)%Z && (Exited status || Signaled status)
     | Err _ => false
     end.

Definition readFailed (o : observation) : bool :=
  isNil (obs_setDeadline o)
  && match obs_read o with
     | Err e => negb (IsTimeout e)
     | Ok _ => false
     end.

Definition deadlineFailed (o : observation) : bool := negb (isNil (obs_setDeadline o)).

Definition statusFailed (o : observation) : bool :=
  timedOut o
  && match obs_wait4 o with
     | Err _ => true
     | Ok _ => false
     end.

(** What the loop does in the turns [pre] in which the child is still
    running: it arms the deadline, reads, and asks for the child's status. *)
Definition retried (pid timeout : Z) (pre : list observation) : list event :=
  flat_map (fun _ => [EvSetDeadline timeout; EvRead; EvWait4 pid]) pre.

(** The request sent for a port mapping: the wildcard address stands for an
    empty host address. *)
Definition requestOf (i : PortMapping) : slirp4netnsCmd :=
  mkCmd "add_hostfwd"
    (mkCmdArg (Protocol i) (if String.eqb (HostIP i) "" then "0.0.0.0" else HostIP i)
       (HostPort i) "" (ContainerPort i)).

(** The calls of one round trip, on the [n]-th connection. *)
Definition exchange (apiSocket : string) (n : nat) (i : PortMapping) : list event :=
  [EvDial n apiSocket;
   EvWrite n (marshalCmd (requestOf i) +:+ String (ascii_of_nat 10) EmptyString);
   EvCloseWrite n;
   EvConnRead n].

(** The round trips for the mappings [l], one connection each, from the
    [n]-th connection on. *)
Fixpoint exchanges (apiSocket : string) (n : nat) (l : list PortMapping) : list event :=
  match l with
  | [] => []
  | i :: rest => exchange apiSocket n i ++ exchanges apiSocket (S n) rest
  end.

(** The answer of the helper on the [n]-th connection, decoded, when the
    connection opens and the write, the shutdown and the read work. *)
Definition response (h : Host) (apiSocket : string) (n : nat) : option (gmap string json) :=
  match os_Dial h n apiSocket with
  | Ok conn =>
      match conn_write conn, conn_closeWrite conn, conn_read conn with
      | None, None, Ok sent =>
          match GoJSON.Unmarshal (GoStrings.upto 2048 sent) with
          | Ok y => Some y
          | Err _ => None
          end
      | _, _, _ => None
      end
  | Err _ => None
  end.

(** Closing the connections [n], ..., [n + count - 1], the last one first. *)
Fixpoint closes (h : Host) (apiSocket : string) (n count : nat) : list event :=
  match count with
  | O => []
  | S count' =>
      closes h apiSocket (S n) count'
      ++ match os_Dial h n apiSocket with
         | Ok conn => closeConn n conn
         | Err _ => []
         end
  end.

(** The address [k] places after [ip], as a number written in bytes, the
    most significant first: the bytes are added from the last one, with
    carry (the sum is truncated to the length of [ip]). *)
Fixpoint addFromLast (reversed : list Z) (k : Z) : list Z :=
  match reversed with
  | [] => []
  | b :: rest => ((b + k) mod 256)%Z :: addFromLast rest ((b + k) / 256)%Z
  end.

Definition addressPlus (ip : GoNet.IP) (k : Z) : GoNet.IP := rev (addFromLast (rev ip) k).

(** The hundredth address of a CIDR, in the words of the specification: the
    address 100 places after the network address. *)
Definition hundredthAddress (slirp4CIDR : string) : option string :=
  match GoNet.ParseCIDR slirp4CIDR with
  | Ok (_, cidr) => Some (GoNet.IP_String (addressPlus (GoNet.net_IP cidr) 100))
  | Err _ => None
  end.

(** ** Vocabulary of the further properties *)

(** The keys the option parser knows. *)
Definition recognised : list string :=
  ["cidr"; "port_handler"; "allow_host_loopback"; "enable_ipv6"; "outbound_addr";
   "outbound_addr6"; "mtu"].

(** [value] is the text of an IPv4 address, of an IPv6 address. *)
Definition isIPv4Literal (value : string) : bool :=
  match GoNet.ParseIP value with
  | Some ip => negb (isNil (GoNet.To4 ip))
  | None => false
  end.

Definition isIPv6Literal (value : string) : bool :=
  match GoNet.ParseIP value with
  | Some ip => isNil (GoNet.To4 ip)
  | None => false
  end.

(** [value] is the text of an IPv4 network. *)
Definition isIPv4CIDR (value : string) : bool :=
  match GoNet.ParseCIDR value with
  | Ok (ip, _) => negb (isNil (GoNet.To4 ip))
  | Err _ => false
  end.

(** What holds of the options the parser hands out: the CIDR, when set, is
    an IPv4 network; the MTU is the default or at least 68; an outbound
    address, when set, is a literal of its family or the name of an interface
    of the host; the pivot-root flag is the engine's. *)
Definition validOptions (defaultMTU : Z) (h : Host) (r : Runtime)
  (o : slirp4netnsNetworkOptions) : bool :=
  (String.eqb (cidr o) "" || isIPv4CIDR (cidr o))
  && ((mtu o =? defaultMTU)%Z || (68 <=? mtu o)%Z)
  && (String.eqb (outboundAddr o) "" || isIPv4Literal (outboundAddr o)
      || isNil (InterfaceByName h (outboundAddr o)))
  && (String.eqb (outboundAddr6 o) "" || isIPv6Literal (outboundAddr6 o)
      || isNil (InterfaceByName h (outboundAddr6 o)))
  && Bool.eqb (noPivotRoot o) (NoPivotRoot (Engine r)).

(** [opts] with its MTU set. *)
Definition withMTU (opts : slirp4netnsNetworkOptions) (n : Z) : slirp4netnsNetworkOptions :=
  mkOptions (cidr opts) (disableHostLoopback opts) (enableIPv6 opts) (isSlirpHostForward opts)
    (noPivotRoot opts) n (outboundAddr opts) (outboundAddr6 opts).

(** The key of a raw option: its text before the first [=]. *)
Definition keyOf (o : string) : string :=
  match GoStrings.SplitN o "=" 2 with
  | k :: _ => k
  | [] => ""
  end.

(** What an accepted option does: the field it sets, and to what. *)
Inductive setting : Type :=
| SetCIDR (value : string)
| SetHostForward (b : bool)
| SetDisableHostLoopback (b : bool)
| SetEnableIPv6 (b : bool)
| SetOutboundAddr (value : string)
| SetOutboundAddr6 (value : string)
| SetMTU (n : Z).

Definition applySetting (st : setting) (opts : slirp4netnsNetworkOptions)
  : slirp4netnsNetworkOptions :=
  match st with
  | SetCIDR value =>
      mkOptions value (disableHostLoopback opts) (enableIPv6 opts) (isSlirpHostForward opts)
        (noPivotRoot opts) (mtu opts) (outboundAddr opts) (outboundAddr6 opts)
  | SetHostForward b =>
      mkOptions (cidr opts) (disableHostLoopback opts) (enableIPv6 opts) b
        (noPivotRoot opts) (mtu opts) (outboundAddr opts) (outboundAddr6 opts)
  | SetDisableHostLoopback b =>
      mkOptions (cidr opts) b (enableIPv6 opts) (isSlirpHostForward opts)
        (noPivotRoot opts) (mtu opts) (outboundAddr opts) (outboundAddr6 opts)
  | SetEnableIPv6 b =>
      mkOptions (cidr opts) (disableHostLoopback opts) b (isSlirpHostForward opts)
        (noPivotRoot opts) (mtu opts) (outboundAddr opts) (outboundAddr6 opts)
  | SetOutboundAddr value =>
      mkOptions (cidr opts) (disableHostLoopback opts) (enableIPv6 opts) (isSlirpHostForward opts)
        (noPivotRoot opts) (mtu opts) value (outboundAddr6 opts)
  | SetOutboundAddr6 value => withOutboundAddr6 opts value
  | SetMTU n => withMTU opts n
  end.

(** The field a setting writes. *)
Definition fieldOf (st : setting) : nat :=
  match st with
  | SetCIDR _ => 0
  | SetHostForward _ => 1
  | SetDisableHostLoopback _ => 2
  | SetEnableIPv6 _ => 3
  | SetOutboundAddr _ => 4
  | SetOutboundAddr6 _ => 5
  | SetMTU _ => 6
  end.

(** The field written for a key. *)
Definition fieldOfKey (k : string) : option nat :=
  if String.eqb k "cidr" then Some 0
  else if String.eqb k "port_handler" then Some 1
  else if String.eqb k "allow_host_loopback" then Some 2
  else if String.eqb k "enable_ipv6" then Some 3
  else if String.eqb k "outbound_addr" then Some 4
  else if String.eqb k "outbound_addr6" then Some 5
  else if String.eqb k "mtu" then Some 6
  else None.

(** The capability of slirp4netns an argument of the command line needs. *)
Definition switchAllowed (features : slirpFeatures) (arg : string) : bool :=
  if String.eqb arg "--disable-host-loopback" then HasDisableHostLoopback features
  else if String.prefix "--mtu=" arg then HasMTU features
  else if String.eqb arg "--enable-sandbox" then HasEnableSandbox features
  else if String.eqb arg "--enable-seccomp" then HasEnableSeccomp features
  else if String.prefix "--cidr=" arg then HasCIDR features
  else if String.eqb arg "--enable-ipv6" then HasIPv6 features
  else if String.prefix "--outbound-addr=" arg then HasOutboundAddr features
  else if String.prefix "--outbound-addr6=" arg
       then HasOutboundAddr features && HasIPv6 features
  else false.

(** The value of a raw option: its text after the first [=]. *)
Definition valueOf (o : string) : string :=
  match GoStrings.SplitN o "=" 2 with
  | _ :: v :: _ => v
  | _ => ""
  end.

(** The port handler a list of options asks for: what its last
    [port_handler] option says, [rootlesskit] when it has none; [true] stands
    for [slirp4netns]. *)
Definition portHandler (slirpOptions : list string) : bool :=
  match last (List.filter (fun o => String.eqb (keyOf o) "port_handler") slirpOptions) with
  | Some o => String.eqb (valueOf o) "slirp4netns"
  | None => false
  end.


(** The connections a trace dials, and the connections it closes, in order. *)
Definition dialled (tr : list event) : list nat :=
  flat_map (fun ev => match ev with EvDial n _ => [n] | _ => [] end) tr.

Definition closedConns (tr : list event) : list nat :=
  flat_map (fun ev => match ev with EvConnClose n => [n] | _ => [] end) tr.

(** The connections of a trace that carry a write, a shutdown or a read. *)
Definition usedConns (tr : list event) : list nat :=
  flat_map (fun ev => match ev with
                      | EvWrite n _ => [n]
                      | EvCloseWrite n => [n]
                      | EvConnRead n => [n]
                      | _ => []
                      end) tr.

(** The [n]-th dial of the control socket gives a connection. *)
Definition opens (h : Host) (apiSocket : string) (n : nat) : bool :=
  match os_Dial h n apiSocket with
  | Ok _ => true
  | Err _ => false
  end.

(** Counting the events of a trace. *)
Fixpoint count (P : event -> bool) (tr : list event) : nat :=
  match tr with
  | [] => 0
  | ev :: tr => (if P ev then 1 else 0) + count P tr
  end.

(** A log file was created; a file or pipe end is closed. *)
Definition isCreated (h : Host) (ev : event) : bool :=
  match ev with
  | EvCreate path => isNil (os_Create h path)
  | _ => false
  end.

Definition isClose (name : string) (ev : event) : bool :=
  match ev with
  | EvClose name' => String.eqb name name'
  | _ => false
  end.

(** A process was started; a process handle is released. *)
Definition isStarted (h : Host) (ev : event) : bool :=
  match ev with
  | EvStart c => match os_Start h c with Ok _ => true | Err _ => false end
  | _ => false
  end.

Definition isRelease (ev : event) : bool :=
  match ev with
  | EvRelease _ => true
  | _ => false
  end.

(** The sync pipe of a call was made. *)
Definition isSyncPipe (h : Host) (ev : event) : bool :=
  match ev with
  | EvPipe name => String.eqb name "syncR, syncW" && isNil (os_Pipe h name)
  | _ => false
  end.

(** The events of the readiness wait: the deadline, the read, the status
    query, the log file and the log. *)
Definition isWaitEvent (ev : event) : bool :=
  match ev with
  | EvSetDeadline _ | EvRead | EvWait4 _ | EvSeek | EvReadAll | EvLog _ _ _ => true
  | _ => false
  end.

(** The calls on the control socket, and with the log the events of the
    registration of port mappings over it. *)
Definition isSocketCall (ev : event) : bool :=
  match ev with
  | EvWaitForFile _ | EvDial _ _ | EvWrite _ _ | EvCloseWrite _ | EvConnRead _
  | EvConnClose _ => true
  | _ => false
  end.

Definition isSocketEvent (ev : event) : bool :=
  match ev with
  | EvLog _ _ _ => true
  | _ => isSocketCall ev
  end.

(** An attempt to start a process, to create a file. *)
Definition isStartCall (ev : event) : bool :=
  match ev with
  | EvStart _ => true
  | _ => false
  end.

Definition isCreateCall (ev : event) : bool :=
  match ev with
  | EvCreate _ => true
  | _ => false
  end.

(** What a function that returned has closed of its own: every log file it
    created is closed, every process it started is released, and both ends
    of its sync pipe ([syncR], [syncW]) are closed.  The pipes of the
    container ([rootlessSlirpSync], [rootlessPortSync]) are not counted
    here. *)
Definition settled (h : Host) (tr : list event) : Prop :=
  count (isCreated h) tr = count (isClose "logFile") tr
  /\ count (isStarted h) tr = count isRelease tr
  /\ count (isSyncPipe h) tr = count (isClose "syncR") tr
  /\ count (isSyncPipe h) tr = count (isClose "syncW") tr.

(** Whenever the function of body [b] returns, what it did satisfies [Q]. *)
Definition returns (b : body unit) (Q : list event -> Prop) : Prop :=
  forall err tr, func b = (Returned err, tr) -> Q tr.

(** The [slirp4netns] options of a container (lines 260-263). *)
Definition slirpOptionsOf (ctr : Container) : list string :=
  match NetworkOptions ctr with
  | Some m => default [] (m !! "slirp4netns")
  | None => []
  end.

(** The probe of the capabilities: [exec.Command(path, "--help")] run to its
    end (line 95). *)
Definition isProbeCall (ev : event) : bool :=
  match ev with
  | EvExec _ _ => true
  | _ => false
  end.

(** A line of the log. *)
Definition isLogCall (ev : event) : bool :=
  match ev with
  | EvLog _ _ _ => true
  | _ => false
  end.

(** What [setupSlirp4netns] does before it creates its log file: it logs,
    makes pipes, runs the probe and closes ends of pipes. *)
Definition isPreparation (ev : event) : bool :=
  match ev with
  | EvLog _ _ _ | EvPipe _ | EvExec _ _ | EvClose _ => true
  | _ => false
  end.

(** [n.Contains(ip)] for a network and an address of the same length: the
    address masked is the network's address masked. *)
Definition inSubnet (n : GoNet.IPNet) (ip : GoNet.IP) : bool :=
  Nat.eqb (length ip) (length (GoNet.net_IP n))
  && bool_decide (GoNet.andBytes ip (GoNet.net_Mask n)
                  = GoNet.andBytes (GoNet.net_IP n) (GoNet.net_Mask n)).

(** ** The sync pipe as the callers hold it *)







(** Data for the examples: a host with one network interface [eth0] and
    slirp4netns on its search path, a runtime with the engine's defaults. *)
Module Fixture.

Definition noSuchInterface : error := OSError "no such network interface" false.
Definition notFound : error := OSError "executable file not found in $PATH" false.
Definition EOF : error := OSError "EOF" false.
Definition deadlineExceeded : error := OSError "i/o timeout" true.
Definition ECHILD : error := OSError "no child processes" false.

Definition allFeatures : slirpFeatures := mkFeatures true true true true true true true.
Definition noFeatures : slirpFeatures := mkFeatures false false false false false false false.

Definition idle : Process := mkProcess 42 [] (mkLogFile "" 0 None None) "" None.

Definition host : Host :=
  mkHost (fun name => if String.eqb name "eth0" then None else Some noSuchInterface)
    (fun file => if String.eqb file "slirp4netns" then Ok "/usr/bin/slirp4netns" else Err notFound)
    (fun _ => None)
    (fun _ _ => ("", None))
    (fun _ => None)
    (fun _ => None)
    (fun _ => Ok idle)
    1000
    (fun _ => None)
    (fun _ _ => Err notFound).

(** The same host without slirp4netns. *)
Definition bareHost : Host :=
  mkHost (InterfaceByName host) (fun _ => Err notFound) (os_Pipe host) (os_CombinedOutput host)
    (os_Create host) (os_Remove host) (os_Start host) (os_Getpid host) (os_WaitForFile host)
    (os_Dial host).

(** The same host with no network interface at all. *)
Definition otherHost : Host :=
  mkHost (fun _ => Some noSuchInterface) (os_LookPath host) (os_Pipe host)
    (os_CombinedOutput host) (os_Create host) (os_Remove host) (os_Start host) (os_Getpid host)
    (os_WaitForFile host) (os_Dial host).

Definition runtime : Runtime := mkRuntime (mkEngine [] false "" "/run/user/1000/libpod/tmp").

Definition defaults : slirp4netnsNetworkOptions := mkOptions "" true false false false 65520 "" "".

Definition container : Container :=
  mkContainer "c0" [] None false "/run/user/1000/netns/c0" 4242 [] false.

Definition slirp : Cmd :=
  mkExecCmd "/usr/bin/slirp4netns" ["/usr/bin/slirp4netns"; "-c"] [] None true false.

(** Turns of the wait on a child with pid 42: still running ([Wait4] with
    [WNOHANG] reports pid 0), the pipe at end of file, the child exited with
    status 1, the child killed by signal 9, the child's status lost. *)
Definition running : observation := mkObs None (Err deadlineExceeded) (Ok (0, 0)%Z).
Definition closed : observation := mkObs None (Err EOF) (Ok (0, 0)%Z).
Definition wrote : observation := mkObs None (Ok 1) (Ok (0, 0)%Z).
Definition exited1 : observation := mkObs None (Err deadlineExceeded) (Ok (42, 256)%Z).
Definition killed9 : observation := mkObs None (Err deadlineExceeded) (Ok (42, 9)%Z).
Definition lostChild : observation := mkObs None (Err deadlineExceeded) (Err ECHILD).

Definition logText : string := "fatal: tap0: no such device".
Definition log : LogFile := mkLogFile logText (String.length logText) None None.

(** Answers of the helper on its control socket: an empty object, and an
    object with an [error] member. *)
Definition accepted : string := "{}".
Definition refused : string :=
  "{" +:+ GoJSON.quote "error" +:+ ":" +:+ GoJSON.quote "bad port" +:+ "}".

Definition accepting : Conn := mkConn None None (Ok accepted) None.
Definition refusing : Conn := mkConn None None (Ok refused) None.

(** The host with a helper that accepts every mapping, and with a helper
    that refuses the second one. *)
Definition helperHost : Host :=
  mkHost (InterfaceByName host) (os_LookPath host) (os_Pipe host) (os_CombinedOutput host)
    (os_Create host) (os_Remove host) (os_Start host) (os_Getpid host) (os_WaitForFile host)
    (fun _ _ => Ok accepting).

Definition pickyHost : Host :=
  mkHost (InterfaceByName host) (os_LookPath host) (os_Pipe host) (os_CombinedOutput host)
    (os_Create host) (os_Remove host) (os_Start host) (os_Getpid host) (os_WaitForFile host)
    (fun n _ => if Nat.eqb n 1 then Ok refusing else Ok accepting).

Definition apiSocket : string := "/run/user/1000/libpod/tmp/c0.net".

(** A container publishing three ports. *)
Definition web : Container :=
  mkContainer "c0"
    [mkPortMapping 8080 80 "tcp" ""; mkPortMapping 8443 443 "tcp" "127.0.0.1";
     mkPortMapping 5353 53 "udp" ""]
    None false "/run/user/1000/netns/c0" 4242 [] false.

End Fixture.

(** Further examples: a helper that signals readiness at once, a helper that
    exits with the log above, hosts that start them, and the container
    [web] asking for the port handler of slirp4netns. *)
Module Scenario.

Definition readyHelper : Process :=
  mkProcess 42 [Fixture.wrote] (mkLogFile "" 0 None None) "" None.

Definition dyingHelper : Process :=
  mkProcess 42 [Fixture.running; Fixture.exited1] Fixture.log "" None.

Definition readyHost : Host :=
  mkHost (InterfaceByName Fixture.host) (os_LookPath Fixture.host) (os_Pipe Fixture.host)
    (fun _ _ => ("--disable-host-loopback --mtu --cidr --api-socket", None))
    (os_Create Fixture.host) (os_Remove Fixture.host) (fun _ => Ok readyHelper)
    (os_Getpid Fixture.host) (os_WaitForFile Fixture.host) (fun _ _ => Ok Fixture.accepting).

Definition dyingHost : Host :=
  mkHost (InterfaceByName Fixture.host) (os_LookPath Fixture.host) (os_Pipe Fixture.host)
    (os_CombinedOutput readyHost) (os_Create Fixture.host) (os_Remove Fixture.host)
    (fun _ => Ok dyingHelper) (os_Getpid Fixture.host) (os_WaitForFile Fixture.host)
    (os_Dial Fixture.host).

Definition forwarded : Container :=
  mkContainer "c0" (PortMappings Fixture.web)
    (Some {["slirp4netns" := ["port_handler=slirp4netns"]]})
    false "/run/user/1000/netns/c0" 4242 [] false.

(** A log file that cannot be read, and one that cannot be sought. *)
Definition unreadable : LogFile :=
  mkLogFile Fixture.logText 7 None (Some (OSError "input/output error" false)).

Definition unseekable : LogFile :=
  mkLogFile Fixture.logText 7 (Some (OSError "illegal seek" false)) None.

(** The container [web] asking for IPv6, which the helper of [readyHost]
    does not have. *)
Definition wantsIPv6 : Container :=
  mkContainer "c0" (PortMappings Fixture.web)
    (Some {["slirp4netns" := ["enable_ipv6=true"]]})
    false "/run/user/1000/netns/c0" 4242 [] false.

End Scenario.

(** ** Splitting and the option parser *)

Lemma Index_absent c s :
  occurs c s = false -> GoStrings.Index s (String c EmptyString) = None.
Proof.
  induction s as [| c' s IH]; simpl; intros H; [reflexivity |].
  apply orb_false_elim in H as [Hc Hs].
  destruct (ascii_dec c c') as [-> | _].
  - rewrite Ascii.eqb_refl in Hc. discriminate.
  - rewrite (IH Hs). reflexivity.
Qed.

Lemma Index_first c k v :
  occurs c k = false ->
  GoStrings.Index (k +:+ String c v) (String c EmptyString) = Some (String.length k).
Proof.
  induction k as [| c' k IH]; simpl; intros H.
  - destruct (ascii_dec c c); [| contradiction]. destruct v; reflexivity.
  - apply orb_false_elim in H as [Hc Hs].
    destruct (ascii_dec c c') as [-> | _].
    + rewrite Ascii.eqb_refl in Hc. discriminate.
    + rewrite (IH Hs). reflexivity.
Qed.

Lemma upto_app k v : GoStrings.upto (String.length k) (k +:+ v) = k.
Proof. induction k as [| c k IH]; simpl; [destruct v; reflexivity | now rewrite IH]. Qed.

Lemma from_app k v n :
  GoStrings.from (String.length k + n) (k +:+ v) = GoStrings.from n v.
Proof. induction k as [| c k IH]; simpl; [reflexivity | exact IH]. Qed.

Lemma SplitN_no_separator o :
  occurs "="%char o = false -> GoStrings.SplitN o "=" 2 = [o].
Proof. intros H. simpl. now rewrite (Index_absent _ _ H). Qed.

Lemma SplitN_first_separator k v :
  occurs "="%char k = false -> GoStrings.SplitN (k +:+ "=" +:+ v) "=" 2 = [k; v].
Proof.
  intros H. change (k +:+ "=" +:+ v) with (k +:+ String "="%char v).
  unfold GoStrings.SplitN. rewrite (Index_first _ _ _ H).
  rewrite upto_app, from_app. reflexivity.
Qed.

Lemma parseOptions_app h s pre l :
  parseOptions h s (pre ++ l) =
  match parseOptions h s pre with
  | Ok s' => parseOptions h s' l
  | Err e => Err e
  end.
Proof.
  revert s. induction pre as [| o pre IH]; intros s; simpl; [reflexivity |].
  destruct (parseOption h s o); [apply IH | reflexivity].
Qed.

Lemma parseOption_no_equals h opts o :
  occurs "="%char o = false ->
  parseOption h opts o = Err (Errorf "unknown option for slirp4netns: %q" [AString o]).
Proof. intros H. unfold parseOption. now rewrite (SplitN_no_separator _ H). Qed.

Lemma parseOption_key_value h opts k v :
  occurs "="%char k = false ->
  parseOption h opts (k +:+ "=" +:+ v) = setOption h opts (k +:+ "=" +:+ v) k v.
Proof. intros H. unfold parseOption. now rewrite (SplitN_first_separator _ _ H). Qed.

(** C10: a raw option is split at its first [=] only.  An option without any
    [=] is refused as an unknown option, whatever its text (a recognised key
    name included), by the loop body and by the whole parser once the options
    before it have been accepted; and for a key without [=], everything after
    the first [=], further [=] included, is handed to the switch as the
    value. *)
Theorem C10_split_at_first_equals (h : Host) (opts : slirp4netnsNetworkOptions) :
  (forall o, occurs "="%char o = false ->
     parseOption h opts o = Err (Errorf "unknown option for slirp4netns: %q" [AString o]))
  /\ (forall k v, occurs "="%char k = false ->
        parseOption h opts (k +:+ "=" +:+ v) = setOption h opts (k +:+ "=" +:+ v) k v)
  /\ (forall mtu0 r pre o post,
        occurs "="%char o = false ->
        (exists parsed, parseSlirp4netnsNetworkOptions mtu0 h r pre = Ok parsed) ->
        parseSlirp4netnsNetworkOptions mtu0 h r (pre ++ o :: post)
        = Err (Errorf "unknown option for slirp4netns: %q" [AString o])).
Proof.
  split; [| split].
  - intros o H. exact (parseOption_no_equals h opts o H).
  - intros k v H. exact (parseOption_key_value h opts k v H).
  - intros mtu0 r pre o post H [parsed Hpre].
    unfold parseSlirp4netnsNetworkOptions in *.
    rewrite app_assoc, parseOptions_app, Hpre. simpl.
    now rewrite (parseOption_no_equals h parsed o H).
Qed.

(** C10 on the fixture: the bare key [mtu], a CIDR value with a second [=],
    and a bare key in the middle of a list. *)
Lemma C10_witness :
  parseOption Fixture.host Fixture.defaults "mtu"
  = Err (Errorf "unknown option for slirp4netns: %q" [AString "mtu"])
  /\ parseOption Fixture.host Fixture.defaults "cidr=10.0.2.0/24=x"
     = Err (Errorf "invalid cidr %q" [AString "10.0.2.0/24=x"])
  /\ parseSlirp4netnsNetworkOptions 65520 Fixture.host Fixture.runtime
       (["mtu=1500"] ++ "enable_ipv6" :: ["cidr=10.0.2.0/24"])
     = Err (Errorf "unknown option for slirp4netns: %q" [AString "enable_ipv6"]).
Proof.
  destruct (C10_split_at_first_equals Fixture.host Fixture.defaults) as (Hno & Hkv & Hall).
  split; [| split].
  - apply Hno. reflexivity.
  - change "cidr=10.0.2.0/24=x" with ("cidr" +:+ "=" +:+ "10.0.2.0/24=x").
    rewrite (Hkv "cidr" "10.0.2.0/24=x" eq_refl). vm_compute. reflexivity.
  - apply Hall; [reflexivity |]. eexists. vm_compute. reflexivity.
Defined.

Lemma setOption_host_independent h1 h2 opts o k v a b :
  setOption h1 opts o k v = Ok a -> setOption h2 opts o k v = Ok b -> a = b.
Proof.
  unfold setOption. intros H1 H2.
  repeat case_match; simplify_eq; reflexivity.
Qed.

Lemma parseOptions_host_independent h1 h2 l :
  forall opts a b,
    parseOptions h1 opts l = Ok a -> parseOptions h2 opts l = Ok b -> a = b.
Proof.
  induction l as [| o l IH]; simpl; intros opts a b H1 H2.
  - congruence.
  - destruct (parseOption h1 opts o) as [s1 |] eqn:E1; [| discriminate].
    destruct (parseOption h2 opts o) as [s2 |] eqn:E2; [| discriminate].
    assert (s1 = s2) as ->.
    { unfold parseOption in E1, E2.
      destruct (GoStrings.SplitN o "=" 2) as [| k [| v [| ? ?]]]; try discriminate.
      eapply setOption_host_independent; eassumption. }
    eapply IH; eassumption.
Qed.

(** C9: parsing is a function of the defaults and the option list.  Two runs
    with the same defaults and the same list that both yield options yield
    the same options, even on hosts that differ (the host is consulted for
    interface names only, and decides acceptance, never the options). *)
Theorem C9_parse_deterministic (mtu0 : Z) (h1 h2 : Host) (r : Runtime)
  (extraOptions : list string) (o1 o2 : slirp4netnsNetworkOptions) :
  parseSlirp4netnsNetworkOptions mtu0 h1 r extraOptions = Ok o1 ->
  parseSlirp4netnsNetworkOptions mtu0 h2 r extraOptions = Ok o2 ->
  o1 = o2.
Proof.
  unfold parseSlirp4netnsNetworkOptions. apply parseOptions_host_independent.
Qed.

(** C9 on the fixture: a host with and a host without network interfaces. *)
Lemma C9_witness :
  parseSlirp4netnsNetworkOptions 65520 Fixture.host Fixture.runtime
    ["cidr=10.0.2.0/24"; "mtu=1500"; "outbound_addr=10.0.2.3"]
  = Ok (mkOptions "10.0.2.0/24" true false false false 1500 "10.0.2.3" "")
  /\ parseSlirp4netnsNetworkOptions 65520 Fixture.otherHost Fixture.runtime
       ["cidr=10.0.2.0/24"; "mtu=1500"; "outbound_addr=10.0.2.3"]
     = Ok (mkOptions "10.0.2.0/24" true false false false 1500 "10.0.2.3" "")
  /\ mkOptions "10.0.2.0/24" true false false false 1500 "10.0.2.3" ""
     = mkOptions "10.0.2.0/24" true false false false 1500 "10.0.2.3" "".
Proof.
  split; [vm_compute; reflexivity | split; [vm_compute; reflexivity |]].
  apply (C9_parse_deterministic 65520 Fixture.host Fixture.otherHost Fixture.runtime
           ["cidr=10.0.2.0/24"; "mtu=1500"; "outbound_addr=10.0.2.3"]);
    vm_compute; reflexivity.
Defined.

(** ** The command builder *)

Lemma setOption_outbound_addr6_literal h opts o A ip :
  GoNet.ParseIP A = Some ip -> GoNet.To4 ip = None ->
  setOption h opts o "outbound_addr6" A = Ok (withOutboundAddr6 opts A).
Proof.
  intros HA H4. unfold setOption. simpl. rewrite HA. simpl. rewrite H4. reflexivity.
Qed.

Lemma ParseIP_nonempty A ip : GoNet.ParseIP A = Some ip -> String.eqb A "" = false.
Proof. destruct A; [discriminate | reflexivity]. Qed.

(** C2, as amended: the parser does not look at [enable_ipv6] when it reads
    [outbound_addr6].  For every IPv6 literal [A], the list
    [enable_ipv6=false, outbound_addr6=A] parses, to options with IPv6 off and
    the outbound IPv6 address [A]; it is the command builder that refuses
    those options, when slirp4netns has the outbound-address and IPv6
    switches, with "enable_ipv6=true is required for outbound_addr6". *)
Theorem C2_outbound_addr6_checked_by_builder (mtu0 : Z) (h : Host) (r : Runtime)
  (A : string) (ip : GoNet.IP) :
  NetworkCmdOptions (Engine r) = [] ->
  GoNet.ParseIP A = Some ip ->
  GoNet.To4 ip = None ->
  let parsed := mkOptions "" true false false (NoPivotRoot (Engine r)) mtu0 "" A in
  parseSlirp4netnsNetworkOptions mtu0 h r ["enable_ipv6=false"; "outbound_addr6=" +:+ A]
  = Ok parsed
  /\ forall features,
       HasOutboundAddr features = true -> HasIPv6 features = true ->
       createBasicSlirp4netnsCmdArgs parsed features
       = Err (Errorf "enable_ipv6=true is required for outbound_addr6" []).
Proof.
  intros Hcfg HA H4 parsed. split.
  - unfold parseSlirp4netnsNetworkOptions. rewrite Hcfg.
    change ([] ++ ["enable_ipv6=false"; "outbound_addr6=" +:+ A])
      with ["enable_ipv6=false"; "outbound_addr6" +:+ "=" +:+ A].
    unfold parseOptions.
    change (parseOption h _ "enable_ipv6=false")
      with (Ok (mkOptions "" true false false (NoPivotRoot (Engine r)) mtu0 "" "")).
    cbv beta iota.
    rewrite (parseOption_key_value h _ "outbound_addr6" A eq_refl).
    rewrite (setOption_outbound_addr6_literal h _ _ A ip HA H4). reflexivity.
  - intros features Hout H6. unfold createBasicSlirp4netnsCmdArgs, parsed. simpl.
    rewrite (ParseIP_nonempty A ip HA), Hout, H6. reflexivity.
Qed.

(** C2 as stated fails: [enable_ipv6=false] followed by [outbound_addr6=::1]
    is accepted by the parser. *)
Lemma C2_counterexample :
  parseSlirp4netnsNetworkOptions 65520 Fixture.host Fixture.runtime
    ["enable_ipv6=false"; "outbound_addr6=::1"]
  = Ok (mkOptions "" true false false false 65520 "" "::1").
Proof. vm_compute. reflexivity. Qed.

(** C2 as amended, on the literal [fe80::1]. *)
Lemma C2_witness :
  GoNet.ParseIP "fe80::1" = Some [254; 128; 0; 0; 0; 0; 0; 0; 0; 0; 0; 0; 0; 0; 0; 1]%Z
  /\ parseSlirp4netnsNetworkOptions 65520 Fixture.host Fixture.runtime
       ["enable_ipv6=false"; "outbound_addr6=fe80::1"]
     = Ok (mkOptions "" true false false false 65520 "" "fe80::1")
  /\ createBasicSlirp4netnsCmdArgs (mkOptions "" true false false false 65520 "" "fe80::1")
       Fixture.allFeatures
     = Err (Errorf "enable_ipv6=true is required for outbound_addr6" []).
Proof.
  pose proof (C2_outbound_addr6_checked_by_builder 65520 Fixture.host Fixture.runtime
                "fe80::1" [254; 128; 0; 0; 0; 0; 0; 0; 0; 0; 0; 0; 0; 0; 0; 1]%Z
                eq_refl eq_refl eq_refl) as [Hparse Hbuild].
  split; [reflexivity | split].
  - exact Hparse.
  - exact (Hbuild Fixture.allFeatures eq_refl eq_refl).
Defined.

Lemma not_elem_appendIf (x : string) (c : bool) (l : list string) (a : string) :
  x ∉ l -> (c = true -> x <> a) -> x ∉ appendIf c l a.
Proof.
  intros Hl Ha. unfold appendIf. destruct c; [| exact Hl].
  rewrite elem_of_app, list_elem_of_singleton. intros [H | H]; [exact (Hl H) |].
  exact (Ha eq_refl H).
Qed.

(** C1, as amended: a requested CIDR, IPv6, outbound address or outbound IPv6
    address whose capability slirp4netns lacks makes the builder fail with
    "<option> not supported", naming the first such option in the builder's
    order.  When there is none (and an outbound IPv6 address comes with IPv6
    enabled) the builder succeeds, and the switches for host-loopback
    disabling, the MTU, the sandbox and seccomp are left out when their
    capability is absent. *)
Theorem C1_unsupported_option (options : slirp4netnsNetworkOptions) (features : slirpFeatures) :
  (forall name rest,
     requestedUnsupported options features = name :: rest ->
     createBasicSlirp4netnsCmdArgs options features
     = Err (Errorf (name +:+ " not supported") []))
  /\ (requestedUnsupported options features = [] ->
      outboundAddr6 options = "" \/ enableIPv6 options = true ->
      exists cmdArgs,
        createBasicSlirp4netnsCmdArgs options features = Ok cmdArgs
        /\ (HasDisableHostLoopback features = false -> "--disable-host-loopback" ∉ cmdArgs)
        /\ (HasMTU features = false -> "--mtu=" +:+ GoStrings.Itoa (mtu options) ∉ cmdArgs)
        /\ (HasEnableSandbox features = false -> "--enable-sandbox" ∉ cmdArgs)
        /\ (HasEnableSeccomp features = false -> "--enable-seccomp" ∉ cmdArgs)).
Proof.
  destruct options as [c dl v6 fw npr m oa oa6].
  destruct features as [fdl fmtu fsb fsc fcidr foa fv6].
  unfold requestedUnsupported, createBasicSlirp4netnsCmdArgs.
  cbn [cidr disableHostLoopback enableIPv6 isSlirpHostForward noPivotRoot mtu outboundAddr
       outboundAddr6 HasDisableHostLoopback HasMTU HasEnableSandbox HasEnableSeccomp HasCIDR
       HasOutboundAddr HasIPv6].
  split.
  - intros name rest.
    destruct (String.eqb c ""), (String.eqb oa ""), (String.eqb oa6 ""),
      v6, fcidr, foa, fv6; simpl; intros H; simplify_eq; reflexivity.
  - intros Hnone Hv6.
    assert (String.eqb oa6 "" = false -> v6 = true) as Hv6'.
    { intros E. destruct Hv6 as [-> | ->]; [discriminate | reflexivity]. }
    destruct (String.eqb c "") eqn:Ec, (String.eqb oa "") eqn:Eoa,
      (String.eqb oa6 "") eqn:Eoa6, v6, fcidr, foa, fv6;
      simpl in Hnone; try discriminate Hnone;
      try (specialize (Hv6' eq_refl); discriminate Hv6');
      cbn [negb andb orb];
      (eexists; split; [reflexivity |]);
      (split; [| split; [| split]]); intros ->;
      repeat first
        [ apply not_elem_of_nil
        | apply not_elem_appendIf
        | rewrite not_elem_of_app; split
        | rewrite list_elem_of_singleton ];
      try (intros _; simpl; discriminate);
      try (intros H; simpl in H; discriminate H);
      try (simpl; discriminate);
      try (rewrite andb_false_r; discriminate).
Qed.

(** C1 as stated fails: with host-loopback disabling, an MTU and the sandbox
    requested and no capability at all, the builder returns an empty argument
    list and no error. *)
Lemma C1_counterexample :
  createBasicSlirp4netnsCmdArgs (mkOptions "" true false false false 1500 "" "")
    Fixture.noFeatures
  = Ok [].
Proof. reflexivity. Qed.

(** C1 as amended, on options asking for IPv6 and an outbound IPv6 address
    without the capabilities, and on the defaults without any capability. *)
Lemma C1_witness :
  requestedUnsupported (mkOptions "10.0.2.0/24" true true false false 1500 "" "::1")
    (mkFeatures true true true true true false false)
  = ["enable_ipv6"; "outbound_addr6"]
  /\ createBasicSlirp4netnsCmdArgs (mkOptions "10.0.2.0/24" true true false false 1500 "" "::1")
       (mkFeatures true true true true true false false)
     = Err (Errorf "enable_ipv6 not supported" [])
  /\ requestedUnsupported Fixture.defaults Fixture.noFeatures = []
  /\ exists cmdArgs,
       createBasicSlirp4netnsCmdArgs Fixture.defaults Fixture.noFeatures = Ok cmdArgs
       /\ "--disable-host-loopback" ∉ cmdArgs.
Proof.
  split; [reflexivity | split; [| split; [reflexivity |]]].
  - exact (proj1 (C1_unsupported_option
                    (mkOptions "10.0.2.0/24" true true false false 1500 "" "::1")
                    (mkFeatures true true true true true false false))
             "enable_ipv6" ["outbound_addr6"] eq_refl).
  - destruct (proj2 (C1_unsupported_option Fixture.defaults Fixture.noFeatures)
                eq_refl (or_introl eq_refl)) as (cmdArgs & Hok & Hdl & _).
    exists cmdArgs. split; [exact Hok | exact (Hdl eq_refl)].
Defined.

(** ** The readiness wait *)

Lemma bind_call {A : Type} (ev : event) (k : unit -> body A) :
  call ev ≫= k = mkBody (ev :: did (k ())) (deferred (k ())) (next (k ())).
Proof. unfold mbind, body_bind, call. simpl. now rewrite app_nil_r. Qed.

(** Turns that find the child still running only add their calls. *)
Lemma loop_retries prog pid pre rest lf t :
  forallb (stillRunning pid) pre = true ->
  waitForSync_loop prog pid (pre ++ rest) lf t
  = let k := waitForSync_loop prog pid rest lf t in
    mkBody (retried pid t pre ++ did k) (deferred k) (next k).
Proof.
  induction pre as [| o pre IH]; intros Hpre.
  - simpl. destruct (waitForSync_loop prog pid rest lf t); reflexivity.
  - simpl in Hpre. apply andb_prop in Hpre as [Ho Hpre]. specialize (IH Hpre).
    destruct o as [sd rd w4]. unfold stillRunning, timedOut in Ho. simpl in Ho.
    destruct sd; [discriminate |]. destruct rd as [| e]; [discriminate |]. simpl in Ho.
    destruct (IsTimeout e) eqn:Et; [| discriminate].
    destruct w4 as [[pid' status] | ]; [| discriminate]. simpl in Ho.
    rewrite <- app_comm_cons. cbn [waitForSync_loop obs_setDeadline obs_read obs_wait4].
    rewrite Et, !bind_call.
    assert ((if negb (pid' =? pid)%Z
             then waitForSync_loop prog pid (pre ++ rest) lf t
             else if Exited status then _
                  else if Signaled status then _
                       else waitForSync_loop prog pid (pre ++ rest) lf t)
            = waitForSync_loop prog pid (pre ++ rest) lf t) as ->.
    { destruct (pid' =? pid)%Z; simpl in Ho |- *; [| reflexivity].
      apply andb_prop in Ho as [Hx Hs].
      apply negb_true_iff in Hx. apply negb_true_iff in Hs. now rewrite Hx, Hs. }
    rewrite IH. reflexivity.
Qed.

Lemma waitForSync_retries script cmd pid lf t :
  forallb (stillRunning pid) script = true ->
  waitForSync script cmd pid lf t = (Blocked, retried pid t script).
Proof.
  intros H. unfold waitForSync.
  rewrite <- (app_nil_r script) at 1. rewrite (loop_retries _ _ _ [] _ _ H).
  simpl. unfold func, mbind, body_bind. simpl. now rewrite app_nil_r.
Qed.

(** The wait on a script whose first turns find the child still running is
    the wait on the rest, after the retries. *)
Lemma waitForSync_after_retries pre rest cmd pid lf t :
  forallb (stillRunning pid) pre = true ->
  waitForSync (pre ++ rest) cmd pid lf t
  = ((waitForSync rest cmd pid lf t).1, retried pid t pre ++ (waitForSync rest cmd pid lf t).2).
Proof.
  intros H. unfold waitForSync. rewrite (loop_retries _ _ _ rest _ _ H).
  unfold func, mbind, body_bind. cbn zeta.
  destruct (waitForSync_loop (progOf cmd) pid rest lf t) as [d f [[] | [err | |]]]; simpl;
    rewrite ?app_nil_r, <- ?app_assoc; reflexivity.
Qed.



(** C7: when a deadline expires and [Wait4] reports the child itself, after
    any number of turns that found it still running and no write on the pipe:
    if the child exited, [waitForSync] seeks the log file to its start, reads
    it whole and returns "<prog> failed" with the log text (the seek and the
    read of the log working); if it was killed by a signal, it returns
    "<prog> killed by signal". *)
Theorem C7_child_exit_reports_log (pre : list observation) (o : observation)
  (post : list observation) (cmd : Cmd) (pid : Z) (logFile : LogFile) (timeout status : Z) :
  forallb (stillRunning pid) pre = true ->
  timedOut o = true ->
  obs_wait4 o = Ok (pid, status) ->
  (Exited status = true ->
   log_seekErr logFile = None -> log_readErr logFile = None ->
   waitForSync (pre ++ o :: post) cmd pid logFile timeout
   = (Returned (Some (Errorf "%s failed: %q" [AString (progOf cmd); AString (log_content logFile)])),
      retried pid timeout pre
      ++ [EvSetDeadline timeout; EvRead; EvWait4 pid; EvSeek; EvReadAll]))
  /\ (Signaled status = true ->
      waitForSync (pre ++ o :: post) cmd pid logFile timeout
      = (Returned (Some (Errorf "%s killed by signal" [AString (progOf cmd)])),
         retried pid timeout pre ++ [EvSetDeadline timeout; EvRead; EvWait4 pid])).
Proof.
  intros Hpre Hto Hw4.
  unfold timedOut in Hto. apply andb_prop in Hto as [Hsd Hrd].
  destruct (obs_setDeadline o) eqn:Esd; [discriminate |].
  destruct (obs_read o) as [| e] eqn:Erd; [discriminate |].
  rewrite (waitForSync_after_retries _ _ _ _ _ _ Hpre).
  unfold waitForSync. cbn [waitForSync_loop]. rewrite Esd, Erd, Hrd, Hw4, Z.eqb_refl, !bind_call.
  cbn [negb]. split.
  - intros Hex Hseek Hread. rewrite Hex. unfold Seek0, ReadAll.
    rewrite Hseek. cbn [log_readErr log_offset log_content]. rewrite Hread.
    reflexivity.
  - intros Hsig. assert (Exited status = false) as ->.
    { unfold Signaled in Hsig. apply andb_prop in Hsig as [_ H]. now apply negb_true_iff in H. }
    rewrite Hsig. reflexivity.
Qed.

Lemma terminal_turn pid o :
  stillRunning pid o = false ->
  ready o || childEnded pid o || readFailed o || deadlineFailed o || statusFailed o = true.
Proof.
  unfold stillRunning, ready, childEnded, readFailed, deadlineFailed, statusFailed, timedOut.
  destruct (obs_setDeadline o); [reflexivity |]. simpl.
  destruct (obs_read o) as [| e]; [reflexivity |].
  destruct (IsTimeout e); simpl; [| reflexivity].
  destruct (obs_wait4 o) as [[pid' status] |]; [| intros _; now rewrite !orb_true_r].
  destruct (pid' =? pid)%Z; simpl; [| discriminate].
  destruct (Exited status), (Signaled status); simpl; intros; congruence.
Qed.

(** A script either finds the child still running in every turn, or has a
    first turn that does not. *)
Lemma first_terminal_turn pid script :
  forallb (stillRunning pid) script = true
  \/ exists pre o post,
       script = pre ++ o :: post
       /\ forallb (stillRunning pid) pre = true
       /\ stillRunning pid o = false.
Proof.
  induction script as [| o script IH]; [left; reflexivity |].
  destruct (stillRunning pid o) eqn:Ho.
  - destruct IH as [IH | (pre & o' & post & -> & Hpre & Ho')].
    + left. simpl. now rewrite Ho, IH.
    + right. exists (o :: pre), o', post. simpl. now rewrite Ho, Hpre.
  - right. exists [], o, script. auto.
Qed.

Lemma waitForSync_ready (o : observation) post cmd pid lf t :
  ready o = true -> waitForSync (o :: post) cmd pid lf t = (Returned None, [EvSetDeadline t; EvRead]).
Proof.
  unfold ready. intros H. apply andb_prop in H as [Hsd Hrd].
  destruct (obs_setDeadline o) eqn:Esd; [discriminate |].
  destruct (obs_read o) eqn:Erd; [| discriminate].
  unfold waitForSync. cbn [waitForSync_loop]. rewrite Esd, Erd. reflexivity.
Qed.

Lemma waitForSync_not_ready (o : observation) post cmd pid lf t err tr :
  ready o = false -> stillRunning pid o = false ->
  waitForSync (o :: post) cmd pid lf t = (Returned err, tr) -> err <> None.
Proof.
  unfold ready, stillRunning, timedOut, waitForSync. cbn [waitForSync_loop].
  destruct (obs_setDeadline o); [intros _ _ H; inversion H; discriminate |]. simpl.
  destruct (obs_read o) as [| e]; [discriminate |]. intros _.
  destruct (IsTimeout e); simpl; [| intros _ H; inversion H; discriminate].
  destruct (obs_wait4 o) as [[pid' status] |]; [| intros _ H; inversion H; discriminate].
  destruct (pid' =? pid)%Z; simpl; [| discriminate].
  destruct (Exited status); simpl.
  - intros _. unfold Seek0, ReadAll.
    destruct (log_seekErr lf); simpl; destruct (log_readErr lf); simpl;
      intros H; inversion H; discriminate.
  - destruct (Signaled status); simpl; [| discriminate].
    intros _ H; inversion H; discriminate.
Qed.

(** C5, as amended: as long as every expiry of the deadline finds the child
    still running, [waitForSync] arms the deadline again and goes on, however
    many turns there are: it has no ceiling of its own.  It returns only in
    a turn that is one of: the read succeeded, the child exited or was
    killed, the read failed with an error that is no timeout, arming the
    deadline failed, or asking for the child's status failed; and it returns
    no error exactly when the read succeeded. *)
Theorem C5_wait_ends_only_on_terminal_turn (script : list observation) (cmd : Cmd) (pid : Z)
  (logFile : LogFile) (timeout : Z) :
  (forallb (stillRunning pid) script = true ->
   waitForSync script cmd pid logFile timeout = (Blocked, retried pid timeout script))
  /\ (forall err tr,
        waitForSync script cmd pid logFile timeout = (Returned err, tr) ->
        exists pre o post,
          script = pre ++ o :: post
          /\ forallb (stillRunning pid) pre = true
          /\ ready o || childEnded pid o || readFailed o || deadlineFailed o || statusFailed o
             = true
          /\ (err = None <-> ready o = true)).
Proof.
  split; [apply waitForSync_retries |].
  intros err tr Hret.
  destruct (first_terminal_turn pid script) as [Hall | (pre & o & post & -> & Hpre & Ho)].
  - rewrite (waitForSync_retries _ _ _ _ _ Hall) in Hret. discriminate.
  - exists pre, o, post. split; [reflexivity | split; [exact Hpre | split]].
    + exact (terminal_turn pid o Ho).
    + rewrite (waitForSync_after_retries _ _ _ _ _ _ Hpre) in Hret.
      destruct (waitForSync (o :: post) cmd pid logFile timeout) as [w tr'] eqn:Ew.
      simpl in Hret. injection Hret as -> _.
      destruct (ready o) eqn:Hr.
      * rewrite (waitForSync_ready o post cmd pid logFile timeout Hr) in Ew.
        injection Ew as <- _. split; reflexivity || auto.
      * split; [| discriminate]. intros ->.
        exfalso. exact (waitForSync_not_ready o post cmd pid logFile timeout None tr' Hr Ho Ew eq_refl).
Qed.



(** C5 as stated fails: the wait also returns when the child's status cannot
    be read, in a turn that is neither readiness, nor the child's end, nor a
    failed read. *)
Lemma C5_counterexample :
  waitForSync [Fixture.lostChild] Fixture.slirp 42 Fixture.log second
  = (Returned (Some (Wrapf Fixture.ECHILD "failed to read %s process status"
                       [AString "/usr/bin/slirp4netns"])),
     [EvSetDeadline second; EvRead; EvWait4 42])
  /\ ready Fixture.lostChild || childEnded 42 Fixture.lostChild || readFailed Fixture.lostChild
     = false.
Proof. split; reflexivity. Qed.

(** C5 as amended: a thousand expiries with the child running leave the wait
    blocked, and a write ends it. *)
Lemma C5_witness :
  waitForSync (replicate 1000 Fixture.running) Fixture.slirp 42 Fixture.log second
  = (Blocked, retried 42 second (replicate 1000 Fixture.running))
  /\ exists pre o post,
       [Fixture.running; Fixture.wrote] = pre ++ o :: post
       /\ forallb (stillRunning 42) pre = true
       /\ ready o || childEnded 42 o || readFailed o || deadlineFailed o || statusFailed o = true
       /\ (@None error = None <-> ready o = true).
Proof.
  split.
  - apply (proj1 (C5_wait_ends_only_on_terminal_turn (replicate 1000 Fixture.running)
                    Fixture.slirp 42 Fixture.log second)).
    vm_compute. reflexivity.
  - apply (proj2 (C5_wait_ends_only_on_terminal_turn [Fixture.running; Fixture.wrote]
                    Fixture.slirp 42 Fixture.log second)
             None
             [EvSetDeadline second; EvRead; EvWait4 42; EvSetDeadline second; EvRead]).
    reflexivity.
Defined.

(** C7 on the fixture: the child exits with status 1, or is killed by signal
    9, after one turn in which it was still running. *)
Lemma C7_witness :
  waitForSync ([Fixture.running] ++ Fixture.exited1 :: []) Fixture.slirp 42 Fixture.log second
  = (Returned (Some (Errorf "%s failed: %q"
                       [AString (progOf Fixture.slirp); AString (log_content Fixture.log)])),
     retried 42 second [Fixture.running]
     ++ [EvSetDeadline second; EvRead; EvWait4 42; EvSeek; EvReadAll])
  /\ waitForSync ([Fixture.running] ++ Fixture.killed9 :: []) Fixture.slirp 42 Fixture.log second
     = (Returned (Some (Errorf "%s killed by signal" [AString (progOf Fixture.slirp)])),
        retried 42 second [Fixture.running] ++ [EvSetDeadline second; EvRead; EvWait4 42]).
Proof.
  split.
  - apply (proj1 (C7_child_exit_reports_log [Fixture.running] Fixture.exited1 [] Fixture.slirp
                    42 Fixture.log second 256 eq_refl eq_refl eq_refl));
      reflexivity.
  - apply (proj2 (C7_child_exit_reports_log [Fixture.running] Fixture.killed9 [] Fixture.slirp
                    42 Fixture.log second 9 eq_refl eq_refl eq_refl));
      reflexivity.
Defined.

(** ** Registering the port mappings *)

Lemma response_inv h sock n y :
  response h sock n = Some y ->
  exists conn sent,
    os_Dial h n sock = Ok conn /\ conn_write conn = None /\ conn_closeWrite conn = None
    /\ conn_read conn = Ok sent /\ GoJSON.Unmarshal (GoStrings.upto 2048 sent) = Ok y.
Proof.
  unfold response. intros H.
  destruct (os_Dial h n sock) as [conn |]; [| discriminate].
  destruct (conn_write conn) eqn:Ew; [discriminate |].
  destruct (conn_closeWrite conn) eqn:Ec; [discriminate |].
  destruct (conn_read conn) as [sent |] eqn:Er; [| discriminate].
  destruct (GoJSON.Unmarshal (GoStrings.upto 2048 sent)) eqn:Eu; [| discriminate].
  injection H as <-. exists conn, sent. auto.
Qed.

(** One mapping accepted: the round trip, the deferred close, then the rest
    of the loop on the next connection. *)
Lemma addHostFwd_accepted h sock n i rest y :
  response h sock n = Some y -> y !! "error" = None ->
  addHostFwd h sock n (i :: rest)
  = let k := addHostFwd h sock (S n) rest in
    mkBody (exchange sock n i ++ did k)
      (deferred k ++ closes h sock n 1) (next k).
Proof.
  intros Hr Hy. destruct (response_inv _ _ _ _ Hr) as (conn & sent & Hd & Hw & Hc & Hrd & Hu).
  cbn [addHostFwd closes]. rewrite Hd, Hw, Hc, Hrd, Hu, Hy.
  destruct (addHostFwd h sock (S n) rest) as [d f nx].
  unfold mbind, body_bind, call, defer, exchange, requestOf.
  cbn [did deferred next app]. rewrite ?app_nil_r.
  destruct nx; cbn [did deferred next app]; rewrite ?app_nil_r; reflexivity.
Qed.

(** One mapping refused: the round trip, the deferred close, the error. *)
Lemma addHostFwd_refused h sock n i rest y e :
  response h sock n = Some y -> y !! "error" = Some e ->
  addHostFwd h sock n (i :: rest)
  = mkBody (exchange sock n i) (closes h sock n 1)
      (inr (Return (Some (Errorf "error from slirp4netns while setting up port redirection: %v"
                            [AJson e])))).
Proof.
  intros Hr Hy. destruct (response_inv _ _ _ _ Hr) as (conn & sent & Hd & Hw & Hc & Hrd & Hu).
  cbn [addHostFwd closes]. rewrite Hd, Hw, Hc, Hrd, Hu, Hy.
  unfold mbind, body_bind, call, defer, ret, exchange, requestOf.
  cbn [did deferred next app]. rewrite ?app_nil_r. reflexivity.
Qed.

Lemma closes_snoc h sock n count :
  closes h sock n (S count) = closes h sock (n + count) 1 ++ closes h sock n count.
Proof.
  revert n. induction count as [| count IH]; intros n.
  - rewrite Nat.add_0_r. cbn [closes]. now rewrite app_nil_r.
  - change (closes h sock n (S (S count)))
      with (closes h sock (S n) (S count) ++ closes h sock n 1).
    rewrite IH. replace (S n + count) with (n + S count) by lia.
    rewrite <- app_assoc. reflexivity.
Qed.

Lemma exchanges_app sock n l1 l2 :
  exchanges sock n (l1 ++ l2) = exchanges sock n l1 ++ exchanges sock (n + length l1) l2.
Proof.
  revert n. induction l1 as [| i l1 IH]; intros n; simpl.
  - now rewrite Nat.add_0_r.
  - rewrite IH. replace (S n + length l1) with (n + S (length l1)) by lia.
    reflexivity.
Qed.

(** The loop over mappings that are all accepted, then the rest of the loop. *)
Lemma addHostFwd_prefix h sock l1 :
  forall n l2,
    (forall j, j < length l1 ->
       exists y, response h sock (n + j) = Some y /\ y !! "error" = None) ->
    addHostFwd h sock n (l1 ++ l2)
    = let k := addHostFwd h sock (n + length l1) l2 in
      mkBody (exchanges sock n l1 ++ did k)
        (deferred k ++ closes h sock n (length l1)) (next k).
Proof.
  induction l1 as [| i l1 IH]; intros n l2 Hall.
  - simpl. rewrite Nat.add_0_r, app_nil_r. destruct (addHostFwd h sock n l2); reflexivity.
  - destruct (Hall 0 ltac:(simpl; lia)) as (y & Hr & Hy). rewrite Nat.add_0_r in Hr.
    rewrite <- app_comm_cons, (addHostFwd_accepted _ _ _ _ _ _ Hr Hy).
    rewrite IH.
    2:{ intros j Hj. destruct (Hall (S j) ltac:(simpl; lia)) as (y' & Hr' & Hy').
        exists y'. replace (S n + j) with (n + S j) by lia. auto. }
    cbn zeta. cbn [did deferred next length exchanges].
    replace (S n + length l1) with (n + S (length l1)) by lia.
    change (closes h sock n (S (length l1)))
      with (closes h sock (S n) (length l1) ++ closes h sock n 1).
    rewrite <- !app_assoc. reflexivity.
Qed.

(** C8: once the control socket is there, the port mappings are registered
    in order, each over a connection of its own.  When the helper accepts the
    first [k] mappings and answers the next one with an object that has an
    [error] member, the function returns that error at once: the trace holds
    the round trips of the first [k + 1] mappings and the closing of their
    connections, nothing for the mappings after, and no request that would
    undo the [k] accepted ones.  When it accepts all of them the function
    returns no error. *)
Theorem C8_first_rejection_aborts (h : Host) (ctr : Container) (cmd : Cmd) (apiSocket : string)
  (k : nat) :
  os_WaitForFile h apiSocket = None ->
  (forall n, n < k -> exists y, response h apiSocket n = Some y /\ y !! "error" = None) ->
  (k = length (PortMappings ctr) ->
   setupRootlessPortMappingViaSlirp h ctr cmd apiSocket
   = (Returned None,
      EvWaitForFile apiSocket :: exchanges apiSocket 0 (PortMappings ctr)
      ++ [logDebug "slirp4netns port-forwarding setup via add_hostfwd is ready" []]
      ++ closes h apiSocket 0 k))
  /\ (forall y e,
        k < length (PortMappings ctr) ->
        response h apiSocket k = Some y -> y !! "error" = Some e ->
        setupRootlessPortMappingViaSlirp h ctr cmd apiSocket
        = (Returned (Some (Errorf "error from slirp4netns while setting up port redirection: %v"
                             [AJson e])),
           EvWaitForFile apiSocket :: exchanges apiSocket 0 (take (S k) (PortMappings ctr))
           ++ closes h apiSocket 0 (S k))).
Proof.
  intros Hwait Hacc. unfold setupRootlessPortMappingViaSlirp. rewrite Hwait. split.
  - intros ->.
    pose proof (addHostFwd_prefix h apiSocket (PortMappings ctr) 0 [] Hacc) as Hloop.
    rewrite app_nil_r in Hloop. rewrite Hloop.
    cbn. rewrite ?app_nil_r, <- ?app_assoc. reflexivity.
  - intros y e Hk Hr Hy.
    destruct (lookup_lt_is_Some_2 (PortMappings ctr) k Hk) as [i Hi].
    assert (length (take k (PortMappings ctr)) = k) as Hlen
      by (rewrite length_take; lia).
    pose proof (addHostFwd_prefix h apiSocket (take k (PortMappings ctr)) 0
                  (i :: drop (S k) (PortMappings ctr))) as Hloop.
    rewrite (take_drop_middle _ _ _ Hi), Hlen in Hloop.
    rewrite (Hloop Hacc). cbn [Nat.add].
    rewrite (addHostFwd_refused _ _ _ _ _ _ _ Hr Hy).
    rewrite (take_S_r _ _ _ Hi), exchanges_app, Hlen, (closes_snoc h apiSocket 0 k).
    cbn [Nat.add exchanges].
    unfold func, mbind, body_bind, call. cbn [did deferred next app].
    rewrite ?app_nil_r, <- ?app_assoc. reflexivity.
Qed.

(** C8 on the fixture: three mappings, all accepted by one helper, the second
    refused by the other. *)
Lemma C8_witness :
  setupRootlessPortMappingViaSlirp Fixture.helperHost Fixture.web Fixture.slirp Fixture.apiSocket
  = (Returned None,
     EvWaitForFile Fixture.apiSocket
     :: exchanges Fixture.apiSocket 0 (PortMappings Fixture.web)
     ++ [logDebug "slirp4netns port-forwarding setup via add_hostfwd is ready" []]
     ++ closes Fixture.helperHost Fixture.apiSocket 0 3)
  /\ setupRootlessPortMappingViaSlirp Fixture.pickyHost Fixture.web Fixture.slirp
       Fixture.apiSocket
     = (Returned (Some (Errorf "error from slirp4netns while setting up port redirection: %v"
                          [AJson (JString "bad port")])),
        EvWaitForFile Fixture.apiSocket
        :: exchanges Fixture.apiSocket 0 (take 2 (PortMappings Fixture.web))
        ++ closes Fixture.pickyHost Fixture.apiSocket 0 2).
Proof.
  split.
  - apply (proj1 (C8_first_rejection_aborts Fixture.helperHost Fixture.web Fixture.slirp
                    Fixture.apiSocket 3 eq_refl
                    (fun n _ => ex_intro _ ∅ (conj eq_refl eq_refl)))).
    reflexivity.
  - assert (forall n, n < 1 ->
              exists y, response Fixture.pickyHost Fixture.apiSocket n = Some y
                        /\ y !! "error" = None) as Hacc.
    { intros [| n] Hn; [| lia]. exists ∅. split; reflexivity. }
    apply (proj2 (C8_first_rejection_aborts Fixture.pickyHost Fixture.web Fixture.slirp
                    Fixture.apiSocket 1 eq_refl Hacc)
             {["error" := JString "bad port"]} (JString "bad port")).
    + simpl. lia.
    + vm_compute. reflexivity.
    + vm_compute. reflexivity.
Defined.

(** ** Starting the helper, the child address *)

(** C6: with no helper path configured and no slirp4netns on the search path,
    [setupSlirp4netns] returns nil; all it does is log the advice that the
    network namespace won't be configured: no pipe, no probe, no process. *)
Theorem C6_missing_helper_degrades (slirp4netnsMTU : Z) (slirp4netnsIP ReexecKey : string)
  (marshalConfig : rootlessportConfig -> result string)
  (h : Host) (r : Runtime) (ctr : Container) (err : error) :
  NetworkCmdPath (Engine r) = "" ->
  os_LookPath h "slirp4netns" = Err err ->
  setupSlirp4netns slirp4netnsMTU slirp4netnsIP ReexecKey marshalConfig h r ctr
  = (Returned None,
     [logError "could not find slirp4netns, the network namespace won't be configured: %v"
        [AError err]]).
Proof.
  intros Hpath Hlook. unfold setupSlirp4netns. rewrite Hpath, Hlook. reflexivity.
Qed.

(** C6 on the host without slirp4netns. *)
Lemma C6_witness :
  setupSlirp4netns 65520 "10.0.2.100" "containers-rootlessport" (fun _ => Ok "{}")
    Fixture.bareHost Fixture.runtime Fixture.container
  = (Returned None,
     [logError "could not find slirp4netns, the network namespace won't be configured: %v"
        [AError Fixture.notFound]]).
Proof.
  apply (C6_missing_helper_degrades 65520 "10.0.2.100" "containers-rootlessport"
           (fun _ => Ok "{}") Fixture.bareHost Fixture.runtime Fixture.container
           Fixture.notFound);
    reflexivity.
Defined.

Lemma addFromLast_zero l :
  Forall (fun x => 0 <= x < 256)%Z l -> addFromLast l 0 = l.
Proof.
  induction 1 as [| x l Hx _ IH]; simpl; [reflexivity |].
  rewrite Z.add_0_r, Z.mod_small, Z.div_small, IH by lia. reflexivity.
Qed.

Lemma addressPlus_last init b k :
  Forall (fun x => 0 <= x < 256)%Z init -> (0 <= b)%Z -> (0 <= k)%Z -> (b + k < 256)%Z ->
  addressPlus (init ++ [b]) k = init ++ [((b + k) mod 256)%Z].
Proof.
  intros Hinit Hb Hk Hsum. unfold addressPlus.
  rewrite rev_app_distr. simpl. rewrite (Z.div_small (b + k) 256) by lia.
  rewrite addFromLast_zero by (apply Forall_rev; exact Hinit).
  rewrite rev_involutive. reflexivity.
Qed.

Lemma addToLastByte_last init b k :
  addToLastByte (init ++ [b]) k = Some (init ++ [((b + k) mod 256)%Z]).
Proof.
  unfold addToLastByte. rewrite last_snoc, length_app. cbn [length].
  replace (Init.Nat.pred (length init + 1)) with (length init + 0) by lia.
  rewrite (insert_app_r init [b] 0). reflexivity.
Qed.

(** X1: when no IPv4 address is known from the network status and the last
    byte of the network address of the CIDR is at most 155, the child address
    is the hundredth address of the CIDR: the byte addition does not wrap. *)
Theorem X1_child_ip_hundredth_without_wrap (slirp4netnsIP slirp4CIDR : string)
  (ip : GoNet.IP) (cidr : GoNet.IPNet) (b : Z) (status : list (list GoNet.IP)) :
  GoNet.ParseCIDR slirp4CIDR = Ok (ip, cidr) ->
  Forall (fun x => 0 <= x < 256)%Z (GoNet.net_IP cidr) ->
  last (GoNet.net_IP cidr) = Some b ->
  (b <= 155)%Z ->
  firstIPv4 status = None ->
  next (rlkChildIP slirp4netnsIP slirp4CIDR status)
  = inl (GoNet.IP_String (addressPlus (GoNet.net_IP cidr) 100))
  /\ hundredthAddress slirp4CIDR
     = Some (GoNet.IP_String (addressPlus (GoNet.net_IP cidr) 100)).
Proof.
  intros Hparse Hrange Hlast Hb Hstatus.
  assert (String.eqb slirp4CIDR "" = false) as Hne
    by (destruct slirp4CIDR; [discriminate Hparse | reflexivity]).
  apply last_Some in Hlast as [init Hip].
  rewrite Hip in Hrange. apply Forall_app in Hrange as [Hinit Hb0].
  apply Forall_inv in Hb0. cbv beta in Hb0.
  split.
  - unfold rlkChildIP. rewrite Hne, Hparse, Hip, addToLastByte_last, Hstatus.
    rewrite addressPlus_last by (assumption || lia). reflexivity.
  - unfold hundredthAddress. rewrite Hparse. reflexivity.
Qed.

(** X1 on 10.0.2.128/25, with only an IPv6 address known, and with none. *)
Lemma X1_witness :
  next (rlkChildIP "10.0.2.100" "10.0.2.128/25" [[[254; 128; 0; 0; 0; 0; 0; 0; 0; 0; 0; 0; 0; 0; 0; 1]%Z]])
  = inl (GoNet.IP_String (addressPlus [10; 0; 2; 128]%Z 100))
  /\ hundredthAddress "10.0.2.128/25" = Some (GoNet.IP_String (addressPlus [10; 0; 2; 128]%Z 100))
  /\ GoNet.IP_String (addressPlus [10; 0; 2; 128]%Z 100) = "10.0.2.228".
Proof.
  split; [| split; [| vm_compute; reflexivity]].
  - apply (X1_child_ip_hundredth_without_wrap "10.0.2.100" "10.0.2.128/25"
             (GoNet.IPv4 10 0 2 128) (GoNet.mkIPNet [10; 0; 2; 128]%Z [255; 255; 255; 128]%Z)
             128 _ eq_refl).
    + repeat constructor; lia.
    + reflexivity.
    + lia.
    + reflexivity.
  - apply (X1_child_ip_hundredth_without_wrap "10.0.2.100" "10.0.2.128/25"
             (GoNet.IPv4 10 0 2 128) (GoNet.mkIPNet [10; 0; 2; 128]%Z [255; 255; 255; 128]%Z)
             128 [] eq_refl).
    + repeat constructor; lia.
    + reflexivity.
    + lia.
    + reflexivity.
Defined.

(** ** Further properties of the option parser *)

(** An option is accepted or refused whatever was parsed before it, and an
    accepted one sets one field. *)
Lemma setOption_setting h o k v :
  (exists e, forall opts0, setOption h opts0 o k v = Err e)
  \/ (exists st, fieldOfKey k = Some (fieldOf st)
                 /\ forall opts0, setOption h opts0 o k v = Ok (applySetting st opts0)).
Proof.
  unfold setOption, fieldOfKey.
  destruct (String.eqb k "cidr").
  { destruct (GoNet.ParseCIDR v) as [[ip n] | e]; [| left; eauto].
    destruct (isNil (GoNet.To4 ip)); [left; eauto |].
    right. exists (SetCIDR v). split; reflexivity. }
  destruct (String.eqb k "port_handler").
  { destruct (String.eqb v "slirp4netns"); [right; exists (SetHostForward true); split; reflexivity |].
    destruct (String.eqb v "rootlesskit"); [right; exists (SetHostForward false); split; reflexivity |].
    left; eauto. }
  destruct (String.eqb k "allow_host_loopback").
  { destruct (String.eqb v "true");
      [right; exists (SetDisableHostLoopback false); split; reflexivity |].
    destruct (String.eqb v "false");
      [right; exists (SetDisableHostLoopback true); split; reflexivity |].
    left; eauto. }
  destruct (String.eqb k "enable_ipv6").
  { destruct (String.eqb v "true"); [right; exists (SetEnableIPv6 true); split; reflexivity |].
    destruct (String.eqb v "false"); [right; exists (SetEnableIPv6 false); split; reflexivity |].
    left; eauto. }
  destruct (String.eqb k "outbound_addr").
  { destruct ((isNil (GoNet.ParseIP v) || isNil (GoNet.ParseIP v ≫= GoNet.To4))
              && negb (isNil (InterfaceByName h v))); [left; eauto |].
    right. exists (SetOutboundAddr v). split; reflexivity. }
  destruct (String.eqb k "outbound_addr6").
  { destruct ((isNil (GoNet.ParseIP v) || negb (isNil (GoNet.ParseIP v ≫= GoNet.To4)))
              && negb (isNil (InterfaceByName h v))); [left; eauto |].
    right. exists (SetOutboundAddr6 v). split; reflexivity. }
  destruct (String.eqb k "mtu").
  { destruct (GoStrings.Atoi v) as [n err].
    destruct ((n <? 68)%Z || negb (isNil err)); [left; eauto |].
    right. exists (SetMTU n). split; reflexivity. }
  left; eauto.
Qed.

Lemma parseOption_setting h o :
  (exists e, forall opts0, parseOption h opts0 o = Err e)
  \/ (exists st, fieldOfKey (keyOf o) = Some (fieldOf st)
                 /\ forall opts0, parseOption h opts0 o = Ok (applySetting st opts0)).
Proof.
  unfold parseOption, keyOf.
  destruct (GoStrings.SplitN o "=" 2) as [| k [| v [| ? ?]]]; try (left; eauto; fail).
  apply setOption_setting.
Qed.

Lemma applySetting_same st1 st2 opts :
  fieldOf st1 = fieldOf st2 -> applySetting st2 (applySetting st1 opts) = applySetting st2 opts.
Proof. destruct st1, st2; try discriminate; reflexivity. Qed.

Lemma applySetting_comm st1 st2 opts :
  fieldOf st1 <> fieldOf st2 ->
  applySetting st2 (applySetting st1 opts) = applySetting st1 (applySetting st2 opts).
Proof. destruct st1, st2; simpl; intros H; try reflexivity; contradiction. Qed.

Lemma fieldOf_inj_key k st1 st2 :
  fieldOfKey k = Some (fieldOf st1) -> fieldOfKey k = Some (fieldOf st2) ->
  fieldOf st1 = fieldOf st2.
Proof. intros H1 H2. rewrite H1 in H2. now injection H2. Qed.

(** An accepted option is forgotten when its field is written again. *)
Lemma parseOptions_shadowed h o1 st1 o2 l3 :
  (forall opts0, parseOption h opts0 o1 = Ok (applySetting st1 opts0)) ->
  fieldOfKey (keyOf o2) = Some (fieldOf st1) ->
  forall l2 opts,
    parseOptions h opts (o1 :: l2 ++ o2 :: l3) = parseOptions h opts (l2 ++ o2 :: l3).
Proof.
  intros Hs1 Hf2. induction l2 as [| o l2 IH]; intros opts.
  - cbn [app parseOptions]. rewrite Hs1.
    destruct (parseOption_setting h o2) as [[e He] | (st2 & Hf & Hs2)].
    + now rewrite !He.
    + rewrite !Hs2, applySetting_same; [reflexivity |].
      exact (fieldOf_inj_key _ _ _ Hf2 Hf).
  - cbn [app parseOptions]. rewrite Hs1.
    destruct (parseOption_setting h o) as [[e He] | (st & Hf & Hs)].
    + now rewrite !He.
    + rewrite !Hs. destruct (Nat.eq_dec (fieldOf st1) (fieldOf st)) as [Heq | Hne].
      * now rewrite applySetting_same.
      * rewrite applySetting_comm by exact Hne.
        rewrite <- (IH (applySetting st opts)). cbn [parseOptions]. now rewrite Hs1.
Qed.

(** X2: an accepted option has no effect when an option with the same key
    comes anywhere after it: the list parses as the list without it does.
    The options of the engine are parsed before those of the container, so
    the container's option overrides the engine's. *)
Theorem X2_last_option_wins (h : Host) (opts opts1 : slirp4netnsNetworkOptions)
  (l1 l2 l3 : list string) (o1 o2 : string) :
  keyOf o1 = keyOf o2 ->
  parseOption h opts o1 = Ok opts1 ->
  parseOptions h opts (l1 ++ o1 :: l2 ++ o2 :: l3)
  = parseOptions h opts (l1 ++ l2 ++ o2 :: l3).
Proof.
  intros Hkey H1.
  destruct (parseOption_setting h o1) as [[e He] | (st1 & Hf1 & Hs1)];
    [rewrite He in H1; discriminate |].
  rewrite !(parseOptions_app h opts l1).
  destruct (parseOptions h opts l1) as [opts' | e]; [| reflexivity].
  apply (parseOptions_shadowed h o1 st1 o2 l3 Hs1). now rewrite <- Hkey.
Qed.

(** X2 on an engine that sets the MTU and a container that sets it again. *)
Lemma X2_witness :
  parseSlirp4netnsNetworkOptions 65520 Fixture.host
    (mkRuntime (mkEngine ["mtu=1500"; "enable_ipv6=true"] false "" "/tmp")) ["mtu=9000"]
  = Ok (mkOptions "" true true false false 9000 "" "")
  /\ parseOptions Fixture.host Fixture.defaults
       ([] ++ "mtu=1500" :: ["enable_ipv6=true"] ++ "mtu=9000" :: [])
     = parseOptions Fixture.host Fixture.defaults ([] ++ ["enable_ipv6=true"] ++ "mtu=9000" :: []).
Proof.
  split; [vm_compute; reflexivity |].
  apply (X2_last_option_wins Fixture.host Fixture.defaults (withMTU Fixture.defaults 1500)
           [] ["enable_ipv6=true"] [] "mtu=1500" "mtu=9000").
  - reflexivity.
  - vm_compute. reflexivity.
Defined.

(** X3: two options with different keys can be given in either order: when
    the pair parses, the swapped pair parses to the same options. *)
Theorem X3_distinct_keys_commute (h : Host) (opts parsed : slirp4netnsNetworkOptions)
  (o1 o2 : string) :
  keyOf o1 <> keyOf o2 ->
  parseOptions h opts [o1; o2] = Ok parsed ->
  parseOptions h opts [o2; o1] = Ok parsed.
Proof.
  intros Hkey. simpl.
  destruct (parseOption_setting h o1) as [[e He] | (st1 & Hf1 & Hs1)];
    [rewrite He; discriminate |].
  destruct (parseOption_setting h o2) as [[e He] | (st2 & Hf2 & Hs2)];
    [rewrite Hs1, He; discriminate |].
  rewrite !Hs1, !Hs2, !Hs1. intros H. injection H as <-.
  rewrite applySetting_comm; [reflexivity |].
  intros Hf. apply Hkey. 
  unfold fieldOfKey in Hf1, Hf2.
  repeat match type of Hf1 with
         | context [String.eqb ?a ?b] => destruct (String.eqb_spec a b)
         end;
  repeat match type of Hf2 with
         | context [String.eqb ?a ?b] => destruct (String.eqb_spec a b)
         end; simplify_eq; congruence.
Qed.

(** X3 on an MTU and a CIDR. *)
Lemma X3_witness :
  parseOptions Fixture.host Fixture.defaults ["cidr=10.0.2.0/24"; "mtu=1500"]
  = Ok (mkOptions "10.0.2.0/24" true false false false 1500 "" "").
Proof.
  apply (X3_distinct_keys_commute Fixture.host Fixture.defaults
           (mkOptions "10.0.2.0/24" true false false false 1500 "" "")
           "mtu=1500" "cidr=10.0.2.0/24").
  - vm_compute. discriminate.
  - vm_compute. reflexivity.
Defined.

Lemma setOption_keeps_valid mtu0 h r opts o k v opts' :
  validOptions mtu0 h r opts = true ->
  setOption h opts o k v = Ok opts' ->
  validOptions mtu0 h r opts' = true.
Proof.
  unfold validOptions, setOption, isIPv4CIDR, isIPv4Literal, isIPv6Literal.
  destruct opts as [c dl v6 fw npr m oa oa6].
  cbn [cidr disableHostLoopback enableIPv6 isSlirpHostForward noPivotRoot mtu outboundAddr
       outboundAddr6].
  intros Hv.
  apply andb_prop in Hv as [Hv Hnpr]. apply andb_prop in Hv as [Hv Hoa6].
  apply andb_prop in Hv as [Hv Hoa]. apply andb_prop in Hv as [Hc Hm].
  destruct (String.eqb k "cidr").
  { destruct (GoNet.ParseCIDR v) as [[ip n] | e] eqn:Ep; [| discriminate].
    destruct (isNil (GoNet.To4 ip)) eqn:E4; [discriminate |].
    intros H. injection H as <-. simpl. rewrite Ep, E4, Hm, Hoa, Hoa6, Hnpr.
    now rewrite orb_true_r. }
  destruct (String.eqb k "port_handler").
  { destruct (String.eqb v "slirp4netns"); [| destruct (String.eqb v "rootlesskit")];
      intros H; simplify_eq; simpl; now rewrite Hc, Hm, Hoa, Hoa6, Hnpr. }
  destruct (String.eqb k "allow_host_loopback").
  { destruct (String.eqb v "true"); [| destruct (String.eqb v "false")];
      intros H; simplify_eq; simpl; now rewrite Hc, Hm, Hoa, Hoa6, Hnpr. }
  destruct (String.eqb k "enable_ipv6").
  { destruct (String.eqb v "true"); [| destruct (String.eqb v "false")];
      intros H; simplify_eq; simpl; now rewrite Hc, Hm, Hoa, Hoa6, Hnpr. }
  destruct (String.eqb k "outbound_addr").
  { destruct (GoNet.ParseIP v) as [ip |] eqn:Ep; simpl;
      [destruct (GoNet.To4 ip) eqn:E4; simpl |];
      destruct (isNil (InterfaceByName h v)) eqn:Ei; simpl;
      intros H; simplify_eq; simpl;
      rewrite Hc, Hm, Hoa6, Hnpr, Ep, ?E4, Ei, ?orb_true_r; reflexivity. }
  destruct (String.eqb k "outbound_addr6").
  { destruct (GoNet.ParseIP v) as [ip |] eqn:Ep; simpl;
      [destruct (GoNet.To4 ip) eqn:E4; simpl |];
      destruct (isNil (InterfaceByName h v)) eqn:Ei; simpl;
      intros H; simplify_eq; simpl;
      rewrite Hc, Hm, Hoa, Hnpr, Ep, ?E4, Ei, ?orb_true_r; reflexivity. }
  destruct (String.eqb k "mtu").
  { destruct (GoStrings.Atoi v) as [n err].
    destruct (n <? 68)%Z eqn:En; [discriminate |]. simpl.
    destruct (isNil err); [| discriminate]. simpl.
    intros H. injection H as <-. simpl.
    apply Z.ltb_ge in En. apply Z.leb_le in En.
    rewrite Hc, En, Hoa, Hoa6, Hnpr, ?orb_true_r. reflexivity. }
  discriminate.
Qed.

Lemma parseOptions_keeps_valid mtu0 h r l :
  forall opts parsed,
    validOptions mtu0 h r opts = true ->
    parseOptions h opts l = Ok parsed ->
    validOptions mtu0 h r parsed = true.
Proof.
  induction l as [| o l IH]; simpl; intros opts parsed Hv H.
  - now injection H as <-.
  - destruct (parseOption h opts o) as [opts' |] eqn:Eo; [| discriminate].
    apply (IH opts' parsed); [| exact H].
    unfold parseOption in Eo.
    destruct (GoStrings.SplitN o "=" 2) as [| k [| v [| ? ?]]]; try discriminate.
    exact (setOption_keeps_valid _ _ _ _ _ _ _ _ Hv Eo).
Qed.

(** X4: the options [parseSlirp4netnsNetworkOptions] hands out are valid.
    The CIDR is empty or an IPv4 network, the MTU is the default or at least
    68, each outbound address is empty, a literal of its family or the name of
    an interface of the host, and the pivot-root flag is the engine's. *)
Theorem X4_parsed_options_are_valid (slirp4netnsMTU : Z) (h : Host) (r : Runtime)
  (extraOptions : list string) (parsed : slirp4netnsNetworkOptions) :
  parseSlirp4netnsNetworkOptions slirp4netnsMTU h r extraOptions = Ok parsed ->
  validOptions slirp4netnsMTU h r parsed = true.
Proof.
  unfold parseSlirp4netnsNetworkOptions. apply parseOptions_keeps_valid.
  unfold validOptions. simpl. rewrite Z.eqb_refl, Bool.eqb_reflx. reflexivity.
Qed.

(** X4 on a CIDR, an MTU and an outbound address. *)
Lemma X4_witness :
  validOptions 65520 Fixture.host Fixture.runtime
    (mkOptions "10.0.2.0/24" true false false false 1500 "10.0.2.3" "") = true.
Proof.
  apply (X4_parsed_options_are_valid 65520 Fixture.host Fixture.runtime
           ["cidr=10.0.2.0/24"; "mtu=1500"; "outbound_addr=10.0.2.3"]).
  vm_compute. reflexivity.
Defined.

Lemma fieldOfKey_None_unknown h opts o k v :
  fieldOfKey k = None ->
  setOption h opts o k v = Err (Errorf "unknown option for slirp4netns: %q" [AString o]).
Proof.
  unfold fieldOfKey, setOption.
  repeat match goal with
         | |- context [String.eqb k ?b] => destruct (String.eqb k b); [discriminate |]
         end.
  reflexivity.
Qed.

Lemma not_recognised k : k ∉ recognised -> fieldOfKey k = None.
Proof.
  unfold recognised, fieldOfKey. intros H.
  repeat match goal with
         | |- context [String.eqb k ?b] =>
             destruct (String.eqb_spec k b);
             [exfalso; apply H; subst; repeat constructor |]
         end.
  reflexivity.
Qed.

(** X5: an option whose key the parser does not know is refused, whatever
    its value, with the whole option quoted in the error. *)
Theorem X5_unknown_key_refused (h : Host) (opts : slirp4netnsNetworkOptions) (k v : string) :
  occurs "="%char k = false ->
  k ∉ recognised ->
  parseOption h opts (k +:+ "=" +:+ v)
  = Err (Errorf "unknown option for slirp4netns: %q" [AString (k +:+ "=" +:+ v)]).
Proof.
  intros Hk Hnot. rewrite (parseOption_key_value h opts k v Hk).
  apply fieldOfKey_None_unknown, not_recognised, Hnot.
Qed.

(** X5 on a misspelt key. *)
Lemma X5_witness :
  parseOption Fixture.host Fixture.defaults "mtuu=1500"
  = Err (Errorf "unknown option for slirp4netns: %q" [AString "mtuu=1500"]).
Proof.
  apply (X5_unknown_key_refused Fixture.host Fixture.defaults "mtuu" "1500").
  - reflexivity.
  - apply (bool_decide_unpack ("mtuu" ∉ recognised)). vm_compute. exact I.
Defined.

(** An accepted option leaves the port handler alone unless its key is
    [port_handler]. *)
Lemma parseOption_port_handler h opts o opts' :
  parseOption h opts o = Ok opts' ->
  isSlirpHostForward opts'
  = if String.eqb (keyOf o) "port_handler" then String.eqb (valueOf o) "slirp4netns"
    else isSlirpHostForward opts.
Proof.
  unfold parseOption, keyOf, valueOf.
  destruct (GoStrings.SplitN o "=" 2) as [| k [| v [| ? ?]]]; try discriminate.
  unfold setOption.
  destruct (String.eqb_spec k "cidr") as [-> | _].
  { destruct (GoNet.ParseCIDR v) as [[ip n] | e]; [| discriminate].
    destruct (isNil (GoNet.To4 ip)); [discriminate |]. intros H. now injection H as <-. }
  destruct (String.eqb k "port_handler").
  { destruct (String.eqb v "slirp4netns"); [intros H; now injection H as <- |].
    destruct (String.eqb v "rootlesskit"); [intros H; now injection H as <- | discriminate]. }
  destruct (String.eqb k "allow_host_loopback").
  { destruct (String.eqb v "true"); [intros H; now injection H as <- |].
    destruct (String.eqb v "false"); [intros H; now injection H as <- | discriminate]. }
  destruct (String.eqb k "enable_ipv6").
  { destruct (String.eqb v "true"); [intros H; now injection H as <- |].
    destruct (String.eqb v "false"); [intros H; now injection H as <- | discriminate]. }
  destruct (String.eqb k "outbound_addr").
  { destruct (_ && _); [discriminate |]. intros H. now injection H as <-. }
  destruct (String.eqb k "outbound_addr6").
  { destruct (_ && _); [discriminate |]. intros H. now injection H as <-. }
  destruct (String.eqb k "mtu"); [| discriminate].
  destruct (GoStrings.Atoi v) as [n err].
  destruct (_ || _); [discriminate |]. intros H. now injection H as <-.
Qed.

Lemma parseOptions_port_handler h l : forall opts parsed,
  parseOptions h opts l = Ok parsed ->
  isSlirpHostForward parsed
  = match last (List.filter (fun o => String.eqb (keyOf o) "port_handler") l) with
    | Some o => String.eqb (valueOf o) "slirp4netns"
    | None => isSlirpHostForward opts
    end.
Proof.
  induction l as [| o l IH]; intros opts parsed; cbn [parseOptions List.filter].
  - intros H. now injection H as <-.
  - destruct (parseOption h opts o) as [opts' |] eqn:Eo; [| discriminate].
    intros H. rewrite (IH _ _ H), (parseOption_port_handler _ _ _ _ Eo).
    destruct (String.eqb (keyOf o) "port_handler"); [| reflexivity].
    destruct (List.filter _ l) as [| o' l']; [reflexivity |].
    change (last (o :: o' :: l')) with (last (o' :: l')).
    destruct (last (o' :: l')) eqn:E; [reflexivity | apply last_None in E; discriminate].
Qed.

(** X18: the port forwarder is chosen by the last [port_handler] option,
    of the engine's options followed by the container's, and is rootlesskit
    when there is none: the options parsed ask for the port handler of
    slirp4netns exactly when that option says [slirp4netns]. *)
Theorem X18_last_port_handler_decides (slirp4netnsMTU : Z) (h : Host) (r : Runtime)
  (extraOptions : list string) (parsed : slirp4netnsNetworkOptions) :
  parseSlirp4netnsNetworkOptions slirp4netnsMTU h r extraOptions = Ok parsed ->
  isSlirpHostForward parsed = portHandler (NetworkCmdOptions (Engine r) ++ extraOptions).
Proof.
  unfold parseSlirp4netnsNetworkOptions, portHandler. intros H.
  rewrite (parseOptions_port_handler _ _ _ _ H). cbn [isSlirpHostForward].
  destruct (last _); reflexivity.
Qed.

(** X18 on an engine that asks for slirp4netns and a container that asks for
    rootlesskit. *)
Lemma X18_witness :
  isSlirpHostForward (mkOptions "" true false false false 1500 "" "")
  = portHandler
      (NetworkCmdOptions (Engine (mkRuntime (mkEngine ["port_handler=slirp4netns"] false ""
                                               "/tmp")))
       ++ ["mtu=1500"; "port_handler=rootlesskit"])
  /\ portHandler (["port_handler=slirp4netns"] ++ ["mtu=1500"; "port_handler=rootlesskit"])
     = false.
Proof.
  split; [| reflexivity].
  apply (X18_last_port_handler_decides 65520 Fixture.host
           (mkRuntime (mkEngine ["port_handler=slirp4netns"] false "" "/tmp"))
           ["mtu=1500"; "port_handler=rootlesskit"]).
  vm_compute. reflexivity.
Defined.

Lemma byteOf_digitChar d :
  (0 <= d <= 9)%Z -> GoStrings.byteOf (GoStrings.digitChar d) = (48 + d)%Z.
Proof.
  intros Hd. unfold GoStrings.byteOf, GoStrings.digitChar.
  rewrite N_ascii_embedding by lia. lia.
Qed.

Lemma scanDigits_uitoa_aux fuel :
  forall n acc,
    (0 <= n <= 2 ^ 64 - 1)%Z -> (n < 2 ^ Z.of_nat fuel)%Z ->
    GoStrings.scanDigits (GoStrings.uitoa_aux fuel n acc) 0 = GoStrings.scanDigits acc n.
Proof.
  induction fuel as [| fuel IH]; intros n acc Hn Hfuel.
  - simpl in *. assert (n = 0%Z) as -> by lia. reflexivity.
  - cbn [GoStrings.uitoa_aux]. destruct (n <? 10)%Z eqn:E10.
    + apply Z.ltb_lt in E10. cbn [GoStrings.scanDigits].
      rewrite byteOf_digitChar by lia.
      replace (48 + n - 48)%Z with n by lia.
      replace (0 * 10 + n)%Z with n by lia.
      destruct (n <? 0)%Z eqn:E0; [apply Z.ltb_lt in E0; lia |].
      destruct (9 <? n)%Z eqn:E9; [apply Z.ltb_lt in E9; lia |].
      destruct (2 ^ 64 - 1 <? n)%Z eqn:Em; [apply Z.ltb_lt in Em; lia |].
      reflexivity.
    + apply Z.ltb_ge in E10.
      assert (0 <= n mod 10 < 10)%Z as Hmod by (apply Z.mod_pos_bound; lia).
      assert (0 <= n / 10)%Z as Hdiv by (apply Z.div_pos; lia).
      assert (n = 10 * (n / 10) + n mod 10)%Z as Hsplit by (apply Z.div_mod; lia).
      rewrite IH.
      * cbn [GoStrings.scanDigits]. rewrite byteOf_digitChar by lia.
        replace (48 + n mod 10 - 48)%Z with (n mod 10)%Z by lia.
        replace (n / 10 * 10 + n mod 10)%Z with n by lia.
        destruct (n mod 10 <? 0)%Z eqn:E0; [apply Z.ltb_lt in E0; lia |].
        destruct (9 <? n mod 10)%Z eqn:E9; [apply Z.ltb_lt in E9; lia |].
        destruct (2 ^ 64 - 1 <? n)%Z eqn:Em; [apply Z.ltb_lt in Em; lia |].
        reflexivity.
      * lia.
      * rewrite Nat2Z.inj_succ, Z.pow_succ_r in Hfuel by lia. lia.
Qed.

Lemma scanDigits_uitoa n :
  (0 <= n <= 2 ^ 64 - 1)%Z -> GoStrings.scanDigits (GoStrings.uitoa n) 0 = GoStrings.ScanVal n.
Proof.
  intros Hn. unfold GoStrings.uitoa. rewrite scanDigits_uitoa_aux; [reflexivity | exact Hn |].
  rewrite Nat2Z.inj_succ, Z2Nat.id by apply Z.log2_nonneg.
  destruct (Z.eq_dec n 0) as [-> | Hne]; [reflexivity |].
  apply Z.log2_spec. lia.
Qed.

Lemma uitoa_aux_head fuel :
  forall n acc, (0 <= n)%Z ->
    exists m rest, (0 <= m <= 9)%Z
                   /\ GoStrings.uitoa_aux (S fuel) n acc = String (GoStrings.digitChar m) rest.
Proof.
  induction fuel as [| fuel IH]; intros n acc Hn; cbn [GoStrings.uitoa_aux];
    destruct (n <? 10)%Z eqn:E10.
  - apply Z.ltb_lt in E10. exists n, acc. split; [lia | reflexivity].
  - exists (n mod 10)%Z, acc. split; [| reflexivity].
    pose proof (Z.mod_pos_bound n 10). lia.
  - apply Z.ltb_lt in E10. exists n, acc. split; [lia | reflexivity].
  - apply Z.ltb_ge in E10. apply IH. apply Z.div_pos; lia.
Qed.

Lemma uitoa_head n :
  (0 <= n)%Z ->
  exists m rest, (0 <= m <= 9)%Z /\ GoStrings.uitoa n = String (GoStrings.digitChar m) rest.
Proof. intros Hn. apply uitoa_aux_head, Hn. Qed.

Lemma digit_cases m : (0 <= m <= 9)%Z ->
  m = 0%Z \/ m = 1%Z \/ m = 2%Z \/ m = 3%Z \/ m = 4%Z \/ m = 5%Z \/ m = 6%Z \/ m = 7%Z
  \/ m = 8%Z \/ m = 9%Z.
Proof. lia. Qed.

(** Reading back the decimal text of an [int]. *)
Lemma Atoi_Itoa n :
  (- 2 ^ 63 <= n < 2 ^ 63)%Z -> GoStrings.Atoi (GoStrings.Itoa n) = (n, None).
Proof.
  intros Hn. unfold GoStrings.Itoa. destruct (n <? 0)%Z eqn:Eneg.
  - apply Z.ltb_lt in Eneg. unfold GoStrings.Atoi.
    destruct (uitoa_head (- n)) as (m & rest & Hm & Hu); [lia |].
    pose proof (scanDigits_uitoa (- n) ltac:(lia)) as Hscan.
    rewrite Hu in *. rewrite Hscan.
    destruct (2 ^ 63 <? - n)%Z eqn:E; [apply Z.ltb_lt in E; lia |].
    cbn [negb andb]. f_equal. lia.
  - apply Z.ltb_ge in Eneg. unfold GoStrings.Atoi.
    destruct (uitoa_head n) as (m & rest & Hm & Hu); [lia |].
    pose proof (scanDigits_uitoa n ltac:(lia)) as Hscan.
    rewrite Hu in *.
    assert ((let '(neg, body) :=
               match String (GoStrings.digitChar m) rest with
               | String "-"%char s' => (true, s')
               | String "+"%char s' => (false, s')
               | _ => (false, String (GoStrings.digitChar m) rest)
               end in (neg, body)) = (false, String (GoStrings.digitChar m) rest)) as Hsign.
    { destruct (digit_cases m Hm) as [-> | [-> | [-> | [-> | [-> | [-> | [-> | [-> | [-> | ->]]]]]]]]];
        reflexivity. }
    destruct (match String (GoStrings.digitChar m) rest with
              | String "-"%char s' => (true, s')
              | String "+"%char s' => (false, s')
              | _ => (false, String (GoStrings.digitChar m) rest)
              end) as [neg body].
    injection Hsign as -> ->. rewrite Hscan.
    destruct (2 ^ 63 <=? n)%Z eqn:E; [apply Z.leb_le in E; lia |].
    reflexivity.
Qed.

(** X6: the [mtu] option reads back the decimal text of any 64-bit integer:
    a number below 68 is refused as an invalid mtu, any other becomes the
    MTU. *)
Theorem X6_mtu_bound (h : Host) (opts : slirp4netnsNetworkOptions) (n : Z) :
  (- 2 ^ 63 <= n < 2 ^ 63)%Z ->
  parseOption h opts ("mtu=" +:+ GoStrings.Itoa n)
  = if (n <? 68)%Z then Err (Errorf "invalid mtu %q" [AString (GoStrings.Itoa n)])
    else Ok (withMTU opts n).
Proof.
  intros Hn.
  change ("mtu=" +:+ GoStrings.Itoa n) with ("mtu" +:+ "=" +:+ GoStrings.Itoa n).
  rewrite (parseOption_key_value h opts "mtu" _ eq_refl).
  unfold setOption. cbn [String.eqb Ascii.eqb Bool.eqb].
  rewrite (Atoi_Itoa n Hn). destruct (n <? 68)%Z; reflexivity.
Qed.

(** X6 on 1500 and on 67. *)
Lemma X6_witness :
  parseOption Fixture.host Fixture.defaults "mtu=1500" = Ok (withMTU Fixture.defaults 1500)
  /\ parseOption Fixture.host Fixture.defaults "mtu=67"
     = Err (Errorf "invalid mtu %q" [AString "67"]).
Proof.
  split.
  - apply (X6_mtu_bound Fixture.host Fixture.defaults 1500). lia.
  - apply (X6_mtu_bound Fixture.host Fixture.defaults 67). lia.
Defined.

(** X7: [outbound_addr] takes an IPv4 literal and [outbound_addr6] an IPv6
    literal; both take the name of an interface of the host; a value that is
    neither a literal of the family nor such a name is refused. *)
Theorem X7_outbound_address_family (h : Host) (opts : slirp4netnsNetworkOptions)
  (value : string) :
  (isIPv4Literal value = true ->
   parseOption h opts ("outbound_addr=" +:+ value)
   = Ok (applySetting (SetOutboundAddr value) opts))
  /\ (isIPv6Literal value = true ->
      parseOption h opts ("outbound_addr6=" +:+ value)
      = Ok (applySetting (SetOutboundAddr6 value) opts))
  /\ (InterfaceByName h value = None ->
      parseOption h opts ("outbound_addr=" +:+ value)
      = Ok (applySetting (SetOutboundAddr value) opts)
      /\ parseOption h opts ("outbound_addr6=" +:+ value)
         = Ok (applySetting (SetOutboundAddr6 value) opts))
  /\ (forall err, InterfaceByName h value = Some err ->
      (isIPv4Literal value = false ->
       parseOption h opts ("outbound_addr=" +:+ value)
       = Err (Errorf "invalid outbound_addr %q" [AString value]))
      /\ (isIPv6Literal value = false ->
          parseOption h opts ("outbound_addr6=" +:+ value)
          = Err (Errorf "invalid outbound_addr6: %q" [AString value]))).
Proof.
  change ("outbound_addr=" +:+ value) with ("outbound_addr" +:+ "=" +:+ value).
  change ("outbound_addr6=" +:+ value) with ("outbound_addr6" +:+ "=" +:+ value).
  rewrite (parseOption_key_value h opts "outbound_addr" value eq_refl).
  rewrite (parseOption_key_value h opts "outbound_addr6" value eq_refl).
  unfold setOption, isIPv4Literal, isIPv6Literal.
  cbn [String.eqb Ascii.eqb Bool.eqb].
  destruct (InterfaceByName h value) as [err0 |];
    (destruct (GoNet.ParseIP value) as [ip |]; cbn [mbind option_bind isNil orb negb andb];
     [destruct (GoNet.To4 ip); cbn [isNil orb negb andb] |]);
    repeat split; intros; simplify_eq; try discriminate; reflexivity.
Qed.

(** ** Further properties of the command builder *)

Lemma forallb_appendIf (P : string -> bool) (c : bool) (l : list string) (a : string) :
  forallb P (appendIf c l a) = forallb P l && (negb c || P a).
Proof.
  unfold appendIf. destruct c; simpl; [| now rewrite andb_true_r].
  rewrite forallb_app. simpl. now rewrite andb_true_r.
Qed.

Lemma prefix_empty s : String.prefix "" s = true.
Proof. destruct s; reflexivity. Qed.

(** X8: the builder never passes a switch that slirp4netns lacks: every
    argument of a command line it builds is allowed by the capabilities
    probed. *)
Theorem X8_no_switch_without_capability (options : slirp4netnsNetworkOptions)
  (features : slirpFeatures) (cmdArgs : list string) :
  createBasicSlirp4netnsCmdArgs options features = Ok cmdArgs ->
  forallb (switchAllowed features) cmdArgs = true.
Proof.
  destruct options as [c dl v6 fw npr m oa oa6].
  destruct features as [fdl fmtu fsb fsc fcidr foa fv6].
  unfold createBasicSlirp4netnsCmdArgs.
  cbn [cidr disableHostLoopback enableIPv6 isSlirpHostForward noPivotRoot mtu outboundAddr
       outboundAddr6 HasDisableHostLoopback HasMTU HasEnableSandbox HasEnableSeccomp HasCIDR
       HasOutboundAddr HasIPv6].
  destruct (String.eqb c ""), (String.eqb oa ""), (String.eqb oa6 ""),
    v6, fcidr, foa, fv6; cbn [negb andb orb]; try discriminate;
    intros H; injection H as <-;
    rewrite ?forallb_app, ?forallb_appendIf; cbn [forallb];
    unfold switchAllowed; simpl; rewrite ?prefix_empty;
    destruct dl, fdl, fmtu, npr, fsb, fsc, (-1 <? m)%Z; reflexivity.
Qed.

(** X8 on options that need five capabilities. *)
Lemma X8_witness :
  exists cmdArgs,
    createBasicSlirp4netnsCmdArgs
      (mkOptions "10.0.2.0/24" true true false false 1500 "10.0.2.3" "") Fixture.allFeatures
    = Ok cmdArgs
    /\ forallb (switchAllowed Fixture.allFeatures) cmdArgs = true.
Proof.
  eexists. split; [vm_compute; reflexivity |].
  apply (X8_no_switch_without_capability
           (mkOptions "10.0.2.0/24" true true false false 1500 "10.0.2.3" "")
           Fixture.allFeatures).
  vm_compute. reflexivity.
Defined.

(** ** Further properties of the readiness wait *)



(** X9: when the child writes to the sync pipe after turns that found it
    still running, the wait returns nil; beyond the retries all it does is
    set the deadline and read: the log file is neither sought nor read, and
    the status of the child is not queried again. *)
Theorem X9_ready_leaves_log_alone (pre : list observation) (o : observation)
  (post : list observation) (cmd : Cmd) (pid : Z) (logFile : LogFile) (timeout : Z) :
  forallb (stillRunning pid) pre = true ->
  ready o = true ->
  waitForSync (pre ++ o :: post) cmd pid logFile timeout
  = (Returned None, retried pid timeout pre ++ [EvSetDeadline timeout; EvRead]).
Proof.
  intros Hpre Hr. rewrite (waitForSync_after_retries _ _ _ _ _ _ Hpre).
  rewrite (waitForSync_ready o post cmd pid logFile timeout Hr). reflexivity.
Qed.

(** X9 on a child that writes at the second turn. *)
Lemma X9_witness :
  waitForSync ([Fixture.running] ++ Fixture.wrote :: [Fixture.exited1]) Fixture.slirp 42
    Fixture.log second
  = (Returned None, retried 42 second [Fixture.running] ++ [EvSetDeadline second; EvRead]).
Proof.
  apply (X9_ready_leaves_log_alone [Fixture.running] Fixture.wrote [Fixture.exited1]
           Fixture.slirp 42 Fixture.log second); reflexivity.
Defined.

Lemma waitForSync_terminal_turn o post post' cmd pid lf t :
  stillRunning pid o = false ->
  waitForSync (o :: post) cmd pid lf t = waitForSync (o :: post') cmd pid lf t.
Proof.
  unfold stillRunning, timedOut, waitForSync. cbn [waitForSync_loop].
  destruct (obs_setDeadline o); [reflexivity |].
  destruct (obs_read o) as [| e]; [reflexivity |].
  destruct (IsTimeout e); [| reflexivity].
  destruct (obs_wait4 o) as [[pid' status] |]; [| reflexivity].
  cbn [isNil andb]. destruct (pid' =? pid)%Z; cbn [negb orb]; [| discriminate].
  destruct (Exited status); [reflexivity |].
  destruct (Signaled status); [reflexivity | discriminate].
Qed.

(** X10: the wait ends at the first turn that does not find the child still
    running: it returns there, and what it returns and does is the same
    whatever would have been observed afterwards. *)
Theorem X10_wait_stops_at_first_terminal_turn (pre : list observation) (o : observation)
  (post post' : list observation) (cmd : Cmd) (pid : Z) (logFile : LogFile) (timeout : Z) :
  forallb (stillRunning pid) pre = true ->
  stillRunning pid o = false ->
  waitForSync (pre ++ o :: post) cmd pid logFile timeout
  = waitForSync (pre ++ o :: post') cmd pid logFile timeout
  /\ exists err tr, waitForSync (pre ++ o :: post) cmd pid logFile timeout = (Returned err, tr).
Proof.
  intros Hpre Ho. rewrite !(waitForSync_after_retries _ _ _ _ _ _ Hpre).
  rewrite (waitForSync_terminal_turn o post post' cmd pid logFile timeout Ho).
  split; [reflexivity |].
  revert Ho. unfold stillRunning, timedOut, waitForSync. cbn [waitForSync_loop].
  destruct (obs_setDeadline o); [intros _; eexists _, _; reflexivity |].
  destruct (obs_read o) as [| e]; [intros _; eexists _, _; reflexivity |].
  destruct (IsTimeout e); [| intros _; eexists _, _; reflexivity].
  destruct (obs_wait4 o) as [[pid' status] |]; [| intros _; eexists _, _; reflexivity].
  cbn [isNil andb]. destruct (pid' =? pid)%Z; cbn [negb orb]; [| discriminate].
  destruct (Exited status).
  - intros _. unfold Seek0, ReadAll.
    destruct (log_seekErr logFile); cbn; destruct (log_readErr logFile);
      eexists _, _; reflexivity.
  - destruct (Signaled status); [intros _; eexists _, _; reflexivity | discriminate].
Qed.

(** X10 on a child killed at the second turn. *)
Lemma X10_witness :
  waitForSync ([Fixture.running] ++ Fixture.killed9 :: [Fixture.wrote]) Fixture.slirp 42
    Fixture.log second
  = waitForSync ([Fixture.running] ++ Fixture.killed9 :: []) Fixture.slirp 42 Fixture.log second
  /\ exists err tr,
       waitForSync ([Fixture.running] ++ Fixture.killed9 :: [Fixture.wrote]) Fixture.slirp 42
         Fixture.log second
       = (Returned err, tr).
Proof.
  apply (X10_wait_stops_at_first_terminal_turn [Fixture.running] Fixture.killed9
           [Fixture.wrote] [] Fixture.slirp 42 Fixture.log second); reflexivity.
Defined.

(** X11: when the child has exited, a failure to read the log file is
    returned, wrapped as "<prog> failed"; a failure to seek is only logged,
    and the error then quotes the log from the current offset on. *)
Theorem X11_log_failures_on_exit (pre : list observation) (o : observation)
  (post : list observation) (cmd : Cmd) (pid : Z) (logFile : LogFile) (timeout status : Z) :
  forallb (stillRunning pid) pre = true ->
  timedOut o = true ->
  obs_wait4 o = Ok (pid, status) ->
  Exited status = true ->
  (forall err, log_readErr logFile = Some err ->
     (waitForSync (pre ++ o :: post) cmd pid logFile timeout).1
     = Returned (Some (Wrapf err "%s failed" [AString (progOf cmd)])))
  /\ (forall err, log_seekErr logFile = Some err -> log_readErr logFile = None ->
        waitForSync (pre ++ o :: post) cmd pid logFile timeout
        = (Returned (Some (Errorf "%s failed: %q"
                             [AString (progOf cmd);
                              AString (GoStrings.from (log_offset logFile)
                                         (log_content logFile))])),
           retried pid timeout pre
           ++ [EvSetDeadline timeout; EvRead; EvWait4 pid; EvSeek;
               logError "could not seek log file: %q" [AError err]; EvReadAll])).
Proof.
  intros Hpre Hto Hw4 Hex.
  unfold timedOut in Hto. apply andb_prop in Hto as [Hsd Hrd].
  destruct (obs_setDeadline o) eqn:Esd; [discriminate |].
  destruct (obs_read o) as [| e] eqn:Erd; [discriminate |].
  rewrite (waitForSync_after_retries _ _ _ _ _ _ Hpre).
  unfold waitForSync. cbn [waitForSync_loop].
  rewrite Esd, Erd, Hrd, Hw4, Z.eqb_refl, Hex. cbn [negb].
  unfold Seek0, ReadAll. split.
  - intros err Hread. destruct (log_seekErr logFile); cbn; rewrite Hread; reflexivity.
  - intros err Hseek Hread. rewrite Hseek. cbn. rewrite Hread. reflexivity.
Qed.

(** X11 on a log file that cannot be read, and on one that cannot be
    sought. *)
Lemma X11_witness :
  (waitForSync ([Fixture.running] ++ Fixture.exited1 :: []) Fixture.slirp 42
     Scenario.unreadable second).1
  = Returned (Some (Wrapf (OSError "input/output error" false) "%s failed"
                      [AString (progOf Fixture.slirp)]))
  /\ (waitForSync ([Fixture.running] ++ Fixture.exited1 :: []) Fixture.slirp 42
        Scenario.unseekable second).1
     = Returned (Some (Errorf "%s failed: %q"
                         [AString (progOf Fixture.slirp); AString "tap0: no such device"])).
Proof.
  split.
  - apply (proj1 (X11_log_failures_on_exit [Fixture.running] Fixture.exited1 [] Fixture.slirp
                    42 Scenario.unreadable second 256 eq_refl eq_refl eq_refl eq_refl));
      reflexivity.
  - rewrite (proj2 (X11_log_failures_on_exit [Fixture.running] Fixture.exited1 []
                      Fixture.slirp 42 Scenario.unseekable second 256 eq_refl eq_refl eq_refl
                      eq_refl) (OSError "illegal seek" false) eq_refl eq_refl).
    reflexivity.
Defined.

(** ** The connections of the control socket *)

Lemma closedConns_app a b : closedConns (a ++ b) = closedConns a ++ closedConns b.
Proof. apply flat_map_app. Qed.

Lemma dialled_app a b : dialled (a ++ b) = dialled a ++ dialled b.
Proof. apply flat_map_app. Qed.

Lemma closedConns_closeConn n conn : closedConns (closeConn n conn) = [n].
Proof. unfold closeConn. destruct (conn_close conn); reflexivity. Qed.

Lemma dialled_closeConn n conn : dialled (closeConn n conn) = [].
Proof. unfold closeConn. destruct (conn_close conn); reflexivity. Qed.

Lemma usedConns_app a b : usedConns (a ++ b) = usedConns a ++ usedConns b.
Proof. apply flat_map_app. Qed.

Lemma usedConns_closeConn n conn : usedConns (closeConn n conn) = [].
Proof. unfold closeConn. destruct (conn_close conn); reflexivity. Qed.

Lemma bind_defer {A : Type} (evs : list event) (k : unit -> body A) :
  defer evs ≫= k = mkBody (did (k ())) (deferred (k ()) ++ evs) (next (k ())).
Proof. unfold mbind, body_bind, defer. reflexivity. Qed.

(** The loop dials and never closes; what it defers closes and never dials:
    the connections that opened, the last one first.  And the loop ends. *)
Lemma addHostFwd_connections h sock l :
  forall n,
    let b := addHostFwd h sock n l in
    closedConns (did b) = []
    /\ dialled (deferred b) = []
    /\ usedConns (deferred b) = []
    /\ closedConns (deferred b) = rev (List.filter (opens h sock) (dialled (did b)))
    /\ (next b = inl () \/ exists err, next b = inr (Return (Some err))).
Proof.
  induction l as [| i l IH]; intros n; cbn zeta.
  - cbn. repeat split; auto.
  - cbn [addHostFwd]. rewrite bind_call. cbn [did deferred next].
    destruct (os_Dial h n sock) as [conn |] eqn:Ed.
    2:{ cbn. unfold opens. rewrite Ed. cbn. repeat split; eauto. }
    assert (opens h sock n = true) as Eo by (unfold opens; now rewrite Ed).
    rewrite bind_defer, bind_call. cbn [did deferred next].
    destruct (conn_write conn).
    { cbn [ret did deferred next app closedConns dialled flat_map List.filter].
      rewrite Eo, closedConns_closeConn, dialled_closeConn, usedConns_closeConn. cbn. repeat split; eauto. }
    rewrite bind_call. cbn [did deferred next].
    destruct (conn_closeWrite conn).
    { cbn [ret did deferred next app closedConns dialled flat_map List.filter].
      rewrite Eo, closedConns_closeConn, dialled_closeConn, usedConns_closeConn. cbn. repeat split; eauto. }
    rewrite bind_call. cbn [did deferred next].
    destruct (conn_read conn) as [sent |].
    2:{ cbn [ret did deferred next app closedConns dialled flat_map List.filter].
        rewrite Eo, closedConns_closeConn, dialled_closeConn, usedConns_closeConn. cbn. repeat split; eauto. }
    destruct (GoJSON.Unmarshal (GoStrings.upto 2048 sent)) as [y |].
    2:{ cbn [ret did deferred next app closedConns dialled flat_map List.filter].
        rewrite Eo, closedConns_closeConn, dialled_closeConn, usedConns_closeConn. cbn. repeat split; eauto. }
    destruct (y !! "error").
    { cbn [ret did deferred next app closedConns dialled flat_map List.filter].
      rewrite Eo, closedConns_closeConn, dialled_closeConn, usedConns_closeConn. cbn. repeat split; eauto. }
    destruct (IH (S n)) as (Hc & Hd & Hu & Hcd & Hn).
    cbn [closedConns dialled flat_map app List.filter].
    fold (closedConns (did (addHostFwd h sock (S n) l))).
    fold (dialled (did (addHostFwd h sock (S n) l))).
    rewrite Eo, closedConns_app, dialled_app, usedConns_app, closedConns_closeConn,
      dialled_closeConn, usedConns_closeConn, Hc, Hd, Hu, Hcd. cbn [rev app]. repeat split; auto.
Qed.

(** The registration returns, and what it did splits into the use of the
    socket and the closes. *)
Lemma setupRootlessPortMappingViaSlirp_connections (h : Host) (ctr : Container) (cmd : Cmd)
  (apiSocket : string) :
  exists err before after,
    setupRootlessPortMappingViaSlirp h ctr cmd apiSocket = (Returned err, before ++ after)
    /\ closedConns before = []
    /\ dialled after = [] /\ usedConns after = []
    /\ closedConns after = rev (List.filter (opens h apiSocket) (dialled before)).
Proof.
  unfold setupRootlessPortMappingViaSlirp. rewrite bind_call. cbn [did deferred next].
  destruct (os_WaitForFile h apiSocket) as [err |].
  { eexists _, [EvWaitForFile apiSocket], []. cbn. auto. }
  destruct (addHostFwd_connections h apiSocket (PortMappings ctr) 0)
    as (Hc & Hd & Hu & Hcd & Hn).
  destruct (addHostFwd h apiSocket 0 (PortMappings ctr)) as [d f nx].
  cbn [did deferred next] in *.
  destruct Hn as [-> | [err ->]].
  - exists None, (EvWaitForFile apiSocket :: d
                  ++ [logDebug "slirp4netns port-forwarding setup via add_hostfwd is ready" []]), f.
    unfold func, mbind, body_bind, call, ret. cbn [did deferred next app].
    rewrite ?app_nil_r. split; [now rewrite <- app_assoc |].
    cbn [closedConns dialled flat_map app]. fold (closedConns (d ++ [logDebug "slirp4netns port-forwarding setup via add_hostfwd is ready" []])).
    fold (dialled (d ++ [logDebug "slirp4netns port-forwarding setup via add_hostfwd is ready" []])).
    rewrite closedConns_app, dialled_app, Hc, Hcd. cbn. rewrite app_nil_r. auto.
  - exists (Some err), (EvWaitForFile apiSocket :: d), f.
    unfold func, mbind, body_bind, call, ret. cbn [did deferred next app].
    split; [reflexivity |].
    cbn [closedConns dialled flat_map app]. fold (closedConns d). fold (dialled d).
    rewrite Hc, Hcd. auto.
Qed.

(** X12: when [setupRootlessPortMappingViaSlirp] returns, with an error or
    without, it has closed every connection it opened: once each, after all
    other use of the socket, the last opened first. *)
Theorem X12_connections_closed_on_return (h : Host) (ctr : Container) (cmd : Cmd)
  (apiSocket : string) (err : option error) (tr : list event) :
  setupRootlessPortMappingViaSlirp h ctr cmd apiSocket = (Returned err, tr) ->
  exists before after,
    tr = before ++ after
    /\ closedConns before = []
    /\ dialled after = [] /\ usedConns after = []
    /\ closedConns after = rev (List.filter (opens h apiSocket) (dialled before)).
Proof.
  intros Hret.
  destruct (setupRootlessPortMappingViaSlirp_connections h ctr cmd apiSocket)
    as (err' & before & after & Heq & Hclosed & Hdial & Hused & Hrev).
  rewrite Heq in Hret. injection Hret as _ <-.
  exists before, after. repeat split; assumption.
Qed.

(** X12 on the helper that accepts three mappings. *)
Lemma X12_witness :
  exists before after,
    (setupRootlessPortMappingViaSlirp Fixture.helperHost Fixture.web Fixture.slirp
       Fixture.apiSocket).2 = before ++ after
    /\ closedConns before = []
    /\ dialled after = [] /\ usedConns after = []
    /\ closedConns after
       = rev (List.filter (opens Fixture.helperHost Fixture.apiSocket) (dialled before)).
Proof.
  apply (X12_connections_closed_on_return Fixture.helperHost Fixture.web Fixture.slirp
           Fixture.apiSocket None).
  vm_compute. reflexivity.
Defined.

(** ** What a call leaves behind *)

Lemma count_app P a b : count P (a ++ b) = count P a + count P b.
Proof. induction a as [| ev a IH]; cbn [count app]; lia. Qed.

Lemma count_none P Q tr :
  forallb P tr = true -> (forall ev, P ev = true -> Q ev = false) -> count Q tr = 0.
Proof.
  intros Hall Hpq. induction tr as [| ev tr IH]; [reflexivity |].
  simpl in Hall. apply andb_prop in Hall as [Hev Htr].
  cbn [count]. rewrite (Hpq ev Hev), (IH Htr). reflexivity.
Qed.

Lemma count_release P what p :
  count P (releaseProcess what p)
  = (if P (EvRelease (Pid p)) then 1 else 0)
    + match proc_release p with
      | Some err => if P (logError ("unable to release " +:+ what +:+ " process: %q") [AError err])
                    then 1 else 0
      | None => 0
      end.
Proof. unfold releaseProcess. destruct (proc_release p); cbn [count]; lia. Qed.

Lemma bind_mret_body {A B : Type} (a : A) (k : A -> body B) :
  mret a ≫= k = k a.
Proof.
  unfold mbind, body_bind, mret, body_ret. cbn [next did deferred].
  destruct (k a) as [d f nx]. cbn. now rewrite app_nil_r.
Qed.

Lemma bind_ret_body {A B : Type} (err : option error) (k : A -> body B) :
  ret err ≫= k = ret err.
Proof. reflexivity. Qed.

Lemma bind_panic_body {A B : Type} (k : A -> body B) : panic ≫= k = panic.
Proof. reflexivity. Qed.

(** *** Rules for [returns] *)

Lemma returns_ret err (Q : list event -> Prop) : Q [] -> returns (ret err) Q.
Proof. intros HQ e tr H. injection H as <- <-. exact HQ. Qed.

Lemma returns_bind {A : Type} (m : body A) (k : A -> body unit) (Q : list event -> Prop) :
  match next m with
  | inl a => returns (k a) (fun tr => Q (did m ++ tr ++ deferred m))
  | inr (Return err) => Q (did m ++ deferred m)
  | inr _ => True
  end ->
  returns (m ≫= k) Q.
Proof.
  unfold returns, func, mbind, body_bind. destruct m as [d f [a | [e | |]]]; cbn [did deferred next].
  - intros Hk err tr. specialize (Hk err).
    destruct (next (k a)) as [[] | [e | |]]; intros H; try discriminate; injection H as <- <-.
    + specialize (Hk (did (k a) ++ deferred (k a)) eq_refl). now rewrite <- !app_assoc in *.
    + specialize (Hk (did (k a) ++ deferred (k a)) eq_refl). now rewrite <- !app_assoc in *.
  - intros HQ err tr H. injection H as <- <-. exact HQ.
  - discriminate.
  - discriminate.
Qed.

Lemma returns_call ev (k : unit -> body unit) (Q : list event -> Prop) :
  returns (k ()) (fun tr => Q (ev :: tr)) -> returns (call ev ≫= k) Q.
Proof.
  intros H. apply returns_bind. cbn [call next did deferred].
  intros err tr Hr. specialize (H err tr Hr). cbn. now rewrite app_nil_r.
Qed.

Lemma returns_defer evs (k : unit -> body unit) (Q : list event -> Prop) :
  returns (k ()) (fun tr => Q (tr ++ evs)) -> returns (defer evs ≫= k) Q.
Proof. intros H. apply returns_bind. exact H. Qed.

Lemma returns_mret {A : Type} (a : A) (k : A -> body unit) (Q : list event -> Prop) :
  returns (k a) Q -> returns (mret a ≫= k) Q.
Proof. rewrite bind_mret_body. auto. Qed.

Lemma returns_stop {A : Type} err (k : A -> body unit) (Q : list event -> Prop) :
  Q [] -> returns (ret err ≫= k) Q.
Proof. intros HQ. apply returns_bind. exact HQ. Qed.

Lemma returns_fromResult {A : Type} (r : result A) (k : A -> body unit)
  (Q : list event -> Prop) :
  match r with
  | Ok a => returns (k a) Q
  | Err _ => Q []
  end ->
  returns (fromResult r ≫= k) Q.
Proof. destruct r; [apply returns_mret | apply returns_stop]. Qed.

Lemma returns_invoke (r : waited * list event) (k : option error -> body unit)
  (Q : list event -> Prop) :
  (forall err, r.1 = Returned err -> returns (k err) (fun tr => Q (r.2 ++ tr))) ->
  returns (invoke r ≫= k) Q.
Proof.
  intros H. apply returns_bind. unfold invoke. cbn [next did deferred].
  destruct r.1 as [e | |]; [| exact I | exact I].
  intros err tr Hr. specialize (H e eq_refl err tr Hr). cbn beta in H. now rewrite app_nil_r.
Qed.

Lemma returns_invokeR {A : Type} (r : result A * list event) (k : result A -> body unit)
  (Q : list event -> Prop) :
  returns (k r.1) (fun tr => Q (r.2 ++ tr)) -> returns (invokeR r ≫= k) Q.
Proof.
  intros H. apply returns_bind. unfold invokeR. cbn [next did deferred].
  intros err tr Hr. specialize (H err tr Hr). cbn beta in H. now rewrite app_nil_r.
Qed.

(** *** The events of the functions called *)

(** The loop of the wait makes calls of the wait only, and defers none. *)
Lemma waitForSync_loop_events prog pid script lf t :
  forallb isWaitEvent (did (waitForSync_loop prog pid script lf t)) = true
  /\ deferred (waitForSync_loop prog pid script lf t) = [].
Proof.
  induction script as [| o script IH]; [split; reflexivity |].
  cbn [waitForSync_loop]. rewrite bind_call. cbn [did deferred next].
  destruct (obs_setDeadline o); [split; reflexivity |].
  rewrite bind_call. cbn [did deferred next].
  destruct (obs_read o) as [| e]; [split; reflexivity |].
  destruct (IsTimeout e); [| split; reflexivity].
  rewrite bind_call. cbn [did deferred next].
  destruct (obs_wait4 o) as [[pid' status] |]; [| split; reflexivity].
  destruct (negb (pid' =? pid)%Z); [exact IH |].
  destruct (Exited status).
  - unfold Seek0, ReadAll.
    destruct (log_seekErr lf); cbn; destruct (log_readErr lf); split; reflexivity.
  - destruct (Signaled status); [split; reflexivity | exact IH].
Qed.

Lemma waitForSync_events script cmd pid lf t :
  forallb isWaitEvent (waitForSync script cmd pid lf t).2 = true.
Proof.
  unfold waitForSync.
  destruct (waitForSync_loop_events (progOf cmd) pid script lf t) as [Hd Hf].
  destruct (waitForSync_loop (progOf cmd) pid script lf t) as [d f nx].
  cbn [did deferred] in *. subst f.
  unfold func, mbind, body_bind, ret. cbn [did deferred next].
  destruct nx as [[] | [e | |]]; cbn [did deferred next fst snd]; rewrite ?app_nil_r; exact Hd.
Qed.

(** The registration over the control socket makes calls on the socket
    only. *)
Lemma addHostFwd_events h apiSocket mappings n :
  forallb isSocketEvent (did (addHostFwd h apiSocket n mappings)) = true
  /\ forallb isSocketEvent (deferred (addHostFwd h apiSocket n mappings)) = true.
Proof.
  revert n. induction mappings as [| i rest IH]; intros n; [split; reflexivity |].
  cbn [addHostFwd]. rewrite bind_call.
  destruct (os_Dial h n apiSocket) as [conn | e]; [| split; reflexivity].
  rewrite bind_defer, bind_call.
  set (buf := GoStrings.upto 2048). clearbody buf.
  set (data := marshalCmd _). clearbody data.
  assert (Hclose : forallb isSocketEvent (closeConn n conn) = true)
    by (unfold closeConn; destruct (conn_close conn); reflexivity).
  destruct (IH (S n)) as [Hd Hf].
  destruct (conn_write conn);
    [| rewrite bind_call; destruct (conn_closeWrite conn);
       [| rewrite bind_call; destruct (conn_read conn) as [sent | e];
          [destruct (GoJSON.Unmarshal _) as [y | e]; [destruct (y !! "error") |] |]]];
    cbn [did deferred next ret forallb isSocketEvent isSocketCall andb app];
    rewrite ?forallb_app, ?Hclose, ?Hd, ?Hf; split; reflexivity.
Qed.

Lemma setupRootlessPortMappingViaSlirp_events h ctr cmd apiSocket :
  forallb isSocketEvent (setupRootlessPortMappingViaSlirp h ctr cmd apiSocket).2 = true.
Proof.
  unfold setupRootlessPortMappingViaSlirp. rewrite bind_call.
  destruct (os_WaitForFile h apiSocket); [reflexivity |].
  destruct (addHostFwd_events h apiSocket (PortMappings ctr) 0) as [Hd Hf].
  destruct (addHostFwd h apiSocket 0 (PortMappings ctr)) as [d f [[] | [e | |]]];
    cbn [did deferred next] in *; unfold func, mbind, body_bind, call, ret;
    cbn [did deferred next app snd forallb isSocketEvent isSocketCall andb];
    rewrite ?forallb_app, ?Hd, ?Hf; reflexivity.
Qed.

Lemma checkSlirpFlags_events h path : (checkSlirpFlags h path).2 = [EvExec path ["--help"]].
Proof. reflexivity. Qed.

Lemma rlkChildIP_quiet ip0 cidr status :
  did (rlkChildIP ip0 cidr status) = [] /\ deferred (rlkChildIP ip0 cidr status) = [].
Proof.
  unfold rlkChildIP.
  destruct (String.eqb cidr ""); [| destruct (GoNet.ParseCIDR cidr) as [[ip n] |];
                                    [destruct (addToLastByte (GoNet.net_IP n) 100) |]];
    rewrite ?bind_mret_body, ?bind_ret_body, ?bind_panic_body;
    destruct (firstIPv4 status); split; reflexivity.
Qed.

(** The counts of a trace whose calls are known, up to the traces of the
    functions called, of which the kind of events is known. *)
Ltac tally :=
  cbv beta;
  repeat (progress cbn [app count] || rewrite count_app || rewrite count_release);
  repeat match goal with
    | H : forallb ?K ?t = true |- context [count ?P ?t] =>
        rewrite (count_none K P t H)
          by (intros [] Hev;
              first [discriminate Hev | reflexivity
                    | apply String.eqb_eq in Hev; subst; reflexivity])
    end;
  cbn [isCreated isClose isStarted isRelease isSyncPipe isStartCall isCreateCall isSocketCall
       isProbeCall isNil
       logError logDebug String.eqb Ascii.eqb Bool.eqb andb];
  repeat match goal with
    | H : os_Pipe _ _ = _ |- _ => rewrite H
    | H : os_Create _ _ = _ |- _ => rewrite H
    | H : os_Start _ _ = _ |- _ => rewrite H
    end;
  repeat match goal with
    | |- context [proc_release ?p] => destruct (proc_release p)
    end;
  cbn [isNil andb].

Ltac settle := unfold settled; tally; lia.

Lemma forallb_weaken (P Q : event -> bool) (tr : list event) :
  (forall ev, P ev = true -> Q ev = true) -> forallb P tr = true -> forallb Q tr = true.
Proof.
  intros Hpq. induction tr as [| ev tr IH]; [reflexivity |].
  cbn [forallb]. intros H. apply andb_prop in H as [Hev Htr].
  now rewrite (Hpq ev Hev), (IH Htr).
Qed.

(** The rootlessport helper: what it leaves open, how many processes it
    starts, that it runs no probe and leaves the control socket alone, and
    that of the pipes of the container it closes no end but
    [rootlessPortSyncR]. *)
Lemma setupRootlessPortMappingViaRLK_returns (slirp4netnsIP ReexecKey : string)
  (marshalConfig : rootlessportConfig -> result string)
  (h : Host) (r : Runtime) (ctr : Container) (netnsPath slirp4CIDR : string)
  (err : option error) (tr : list event) :
  setupRootlessPortMappingViaRLK slirp4netnsIP ReexecKey marshalConfig h r ctr netnsPath
    slirp4CIDR = (Returned err, tr) ->
  settled h tr /\ count isStartCall tr <= 1 /\ count isSocketCall tr = 0
  /\ count isProbeCall tr = 0
  /\ count (isClose "rootlessPortSyncW") tr = 0
  /\ count (isClose "rootlessSlirpSyncR") tr = 0
  /\ count (isClose "rootlessSlirpSyncW") tr = 0.
Proof.
  revert err tr. unfold setupRootlessPortMappingViaRLK.
  match goal with
  | |- forall err tr, func ?b = _ -> @?Q tr => change (returns b Q)
  end.
  set (logPath := GoPath.Join _). clearbody logPath.
  apply returns_call.
  destruct (os_Pipe h "syncR, syncW") as [e |] eqn:E1; [apply returns_ret; settle |].
  apply returns_defer, returns_call.
  destruct (os_Create h logPath) as [e |] eqn:E2; [apply returns_ret; settle |].
  apply returns_defer, returns_call.
  destruct (os_Remove h logPath) as [e |] eqn:E3; [apply returns_ret; settle |].
  apply returns_bind.
  match goal with |- match next ?b with _ => _ end => set (portPipe := b) end.
  assert (Hsecond : match next portPipe with inr Block | inr Panic => False | _ => True end
    /\ forallb (fun ev => match ev with
                          | EvPipe name => String.eqb name "rootlessPortSyncR, rootlessPortSyncW"
                          | _ => false
                          end) (did portPipe) = true
    /\ deferred portPipe = []).
  { subst portPipe. destruct (PostConfigureNetNS ctr); [repeat split; auto |].
    rewrite bind_call. destruct (os_Pipe h "rootlessPortSyncR, rootlessPortSyncW");
      repeat split; auto. }
  destruct Hsecond as (Hnx & Hevs & ->). clearbody portPipe.
  destruct (next portPipe) as [[] | [e | |]]; [| settle | contradiction | contradiction].
  clear Hnx. apply returns_bind.
  destruct (rlkChildIP_quiet slirp4netnsIP slirp4CIDR (NetworkStatus ctr)) as [Hd Hf].
  destruct (rlkChildIP slirp4netnsIP slirp4CIDR (NetworkStatus ctr)) as [d f nx].
  cbn [did deferred next] in *. subst d f.
  destruct nx as [childIP | [e | |]]; [| settle | exact I | exact I].
  destruct (marshalConfig _) as [cfgJSON | e]; [| apply returns_ret; settle].
  apply returns_bind.
  destruct (negb _ || rootlessPortSyncR ctr); cbn [next did deferred defer mret body_ret].
  all: apply returns_call.
  all: match goal with |- context [os_Start _ ?c] => set (cmd := c) end; clearbody cmd.
  all: destruct (os_Start h cmd) as [p | e] eqn:E5; [| apply returns_ret; settle].
  all: apply returns_defer, returns_invoke.
  all: pose proof (waitForSync_events (proc_sync p) cmd (Pid p) (proc_log p) (3 * second)) as Hw.
  all: destruct (waitForSync (proc_sync p) cmd (Pid p) (proc_log p) (3 * second)) as [w trw].
  all: cbn [fst snd] in *.
  all: intros [e |] _; [destruct (negb _); [apply returns_call |] |].
  all: try apply returns_call; apply returns_ret; settle.
Qed.

(** X13: whenever [setupSlirp4netns] returns, with an error or without, it
    has closed what is its own: every log file created is closed, every
    process started is released and both ends of its sync pipe ([syncR],
    [syncW]) are closed, those of the port forwarder it called included.
    The pipes of the container are not its own: [rootlessPortSyncW] is never
    closed here, and no end of [rootlessSlirpSync] is closed when the pipe is
    made here ([PostConfigureNetNS] unset, line 291); they stay open in the
    container. *)
Theorem X13_setup_closes_its_own (slirp4netnsMTU : Z) (slirp4netnsIP ReexecKey : string)
  (marshalConfig : rootlessportConfig -> result string)
  (h : Host) (r : Runtime) (ctr : Container) (err : option error) (tr : list event) :
  setupSlirp4netns slirp4netnsMTU slirp4netnsIP ReexecKey marshalConfig h r ctr
  = (Returned err, tr) ->
  settled h tr
  /\ count (isClose "rootlessPortSyncW") tr = 0
  /\ (PostConfigureNetNS ctr = false ->
      count (isClose "rootlessSlirpSyncR") tr = 0
      /\ count (isClose "rootlessSlirpSyncW") tr = 0).
Proof.
  revert err tr. unfold setupSlirp4netns.
  match goal with
  | |- forall err tr, func ?b = _ -> @?Q tr => change (returns b Q)
  end.
  set (logPath := GoPath.Join [_; "slirp4netns-" +:+ _]). clearbody logPath.
  set (apiSocket := GoPath.Join _). clearbody apiSocket.
  apply returns_bind.
  match goal with |- match next ?b with _ => _ end => set (found := b) end.
  assert (Hfound : match next found with inr Block | inr Panic => False | _ => True end
    /\ forallb isLogCall (did found) = true /\ deferred found = []).
  { subst found. destruct (String.eqb _ ""); [| repeat split; auto].
    destruct (os_LookPath h "slirp4netns"); repeat split; auto. }
  destruct Hfound as (Hnx & Hlog & ->). clearbody found.
  destruct (PostConfigureNetNS ctr) eqn:Epost; cbn [negb].
  all: destruct (next found) as [path | [e | |]];
         [| unfold settled; tally; (split; [lia | split; [lia | intros Hp; first [discriminate Hp | lia]]])
          | contradiction | contradiction].
  all: clear Hnx; apply returns_call.
  all: destruct (os_Pipe h "syncR, syncW") as [e |] eqn:E1;
         [apply returns_ret; unfold settled; tally; (split; [lia | split; [lia | intros Hp; first [discriminate Hp | lia]]]) |].
  all: apply returns_defer, returns_fromResult.
  all: destruct (parseSlirp4netnsNetworkOptions _ _ _ _) as [netOptions | e];
         [| unfold settled; tally; (split; [lia | split; [lia | intros Hp; first [discriminate Hp | lia]]])].
  all: apply returns_invokeR; rewrite checkSlirpFlags_events.
  all: apply returns_bind.
  all: destruct (checkSlirpFlags h path).1 as [slirpFeatures | e];
         cbn [next did deferred mret body_ret ret];
         [| unfold settled; tally; (split; [lia | split; [lia | intros Hp; first [discriminate Hp | lia]]])].
  all: apply returns_fromResult.
  all: destruct (createBasicSlirp4netnsCmdArgs netOptions slirpFeatures) as [cmdArgs | e];
         [| unfold settled; tally; (split; [lia | split; [lia | intros Hp; first [discriminate Hp | lia]]])].
  all: apply returns_bind.
  all: try rewrite bind_defer.
  all: try (rewrite bind_call; destruct (os_Pipe h "rootlessSlirpSyncR, rootlessSlirpSyncW")).
  all: cbn [next did deferred mret body_ret ret app].
  all: try (unfold settled; tally; (split; [lia | split; [lia | intros Hp; first [discriminate Hp | lia]]]); fail).
  all: apply returns_call, returns_call.
  all: destruct (os_Create h logPath) as [e |] eqn:E2;
         [apply returns_ret; unfold settled; tally; (split; [lia | split; [lia | intros Hp; first [discriminate Hp | lia]]]) |].
  all: apply returns_defer, returns_call.
  all: destruct (os_Remove h logPath) as [e |] eqn:E3;
         [apply returns_ret; unfold settled; tally; (split; [lia | split; [lia | intros Hp; first [discriminate Hp | lia]]]) |].
  all: apply returns_call.
  all: match goal with |- context [os_Start _ ?c] => set (cmd := c) end; clearbody cmd.
  all: destruct (os_Start h cmd) as [p | e] eqn:E5;
         [| apply returns_ret; unfold settled; tally; (split; [lia | split; [lia | intros Hp; first [discriminate Hp | lia]]])].
  all: apply returns_defer, returns_invoke.
  all: pose proof (waitForSync_events (proc_sync p) cmd (Pid p) (proc_log p) (1 * second)) as Hw.
  all: destruct (waitForSync (proc_sync p) cmd (Pid p) (proc_log p) (1 * second)) as [w trw].
  all: cbn [fst snd] in *.
  all: intros [e |] _;
         [apply returns_ret; unfold settled; tally; (split; [lia | split; [lia | intros Hp; first [discriminate Hp | lia]]]) |].
  all: destruct (negb (bool_decide (PortMappings ctr = [])));
         [| apply returns_ret; unfold settled; tally; (split; [lia | split; [lia | intros Hp; first [discriminate Hp | lia]]])].
  all: destruct (isSlirpHostForward netOptions); apply returns_invoke.
  all: try (match goal with |- context [setupRootlessPortMappingViaSlirp ?a ?b ?c ?d] =>
              pose proof (setupRootlessPortMappingViaSlirp_events a b c d) as Hs;
              destruct (setupRootlessPortMappingViaSlirp a b c d) as [ws trs]
            end;
            cbn [fst snd] in *; intros e _; apply returns_ret; unfold settled; tally;
            (split; [lia | split; [lia | intros Hp; first [discriminate Hp | lia]]])).
  all: match goal with |- context [setupRootlessPortMappingViaRLK ?a ?b ?c ?d ?e ?f ?g ?i] =>
         destruct (setupRootlessPortMappingViaRLK a b c d e f g i) as [wr trr] eqn:ER
       end.
  all: cbn [fst snd]; intros e ->.
  all: apply setupRootlessPortMappingViaRLK_returns in ER.
  all: destruct ER as ((R1 & R2 & R3 & R4) & _ & _ & _ & R5 & R6 & R7).
  all: apply returns_ret; unfold settled; tally;
         (split; [lia | split; [lia | intros Hp; first [discriminate Hp | lia]]]).
Qed.

(** X13 on a container with port mappings, where slirp4netns and rootlessport
    are started and both pipes of the container are made: of their four ends
    one, [rootlessPortSyncR], is closed. *)
Lemma X13_witness :
  (settled Scenario.readyHost
     (setupSlirp4netns 65520 "10.0.2.100" "containers-rootlessport" (fun _ => Ok "{}")
        Scenario.readyHost Fixture.runtime Fixture.web).2
   /\ count (isClose "rootlessPortSyncW")
        (setupSlirp4netns 65520 "10.0.2.100" "containers-rootlessport" (fun _ => Ok "{}")
           Scenario.readyHost Fixture.runtime Fixture.web).2 = 0
   /\ (PostConfigureNetNS Fixture.web = false ->
       count (isClose "rootlessSlirpSyncR")
         (setupSlirp4netns 65520 "10.0.2.100" "containers-rootlessport" (fun _ => Ok "{}")
            Scenario.readyHost Fixture.runtime Fixture.web).2 = 0
       /\ count (isClose "rootlessSlirpSyncW")
            (setupSlirp4netns 65520 "10.0.2.100" "containers-rootlessport" (fun _ => Ok "{}")
               Scenario.readyHost Fixture.runtime Fixture.web).2 = 0))
  /\ count (isStarted Scenario.readyHost)
       (setupSlirp4netns 65520 "10.0.2.100" "containers-rootlessport" (fun _ => Ok "{}")
          Scenario.readyHost Fixture.runtime Fixture.web).2 = 2
  /\ In (EvPipe "rootlessSlirpSyncR, rootlessSlirpSyncW")
       (setupSlirp4netns 65520 "10.0.2.100" "containers-rootlessport" (fun _ => Ok "{}")
          Scenario.readyHost Fixture.runtime Fixture.web).2
  /\ In (EvPipe "rootlessPortSyncR, rootlessPortSyncW")
       (setupSlirp4netns 65520 "10.0.2.100" "containers-rootlessport" (fun _ => Ok "{}")
          Scenario.readyHost Fixture.runtime Fixture.web).2
  /\ count (isClose "rootlessPortSyncR")
       (setupSlirp4netns 65520 "10.0.2.100" "containers-rootlessport" (fun _ => Ok "{}")
          Scenario.readyHost Fixture.runtime Fixture.web).2 = 1.
Proof.
  split; [| split; [vm_compute; reflexivity
                   | split; [vm_compute; tauto | split; [vm_compute; tauto | vm_compute; reflexivity]]]].
  apply (X13_setup_closes_its_own 65520 "10.0.2.100" "containers-rootlessport"
           (fun _ => Ok "{}") Scenario.readyHost Fixture.runtime Fixture.web None).
  vm_compute. reflexivity.
Defined.

(** X14: [setupSlirp4netns] runs at most three processes: the probe of the
    capabilities ([slirp4netns --help], run to its end) at most once, and at
    most two children started with [cmd.Start].  It calls on the control
    socket only for a container that has port mappings and asks for the port
    handler of slirp4netns, and then it has run the probe and started one
    child; it starts a second child, the rootlessport helper, only for a
    container that has port mappings and does not ask for that port
    handler. *)
Theorem X14_one_forwarder_at_most (slirp4netnsMTU : Z) (slirp4netnsIP ReexecKey : string)
  (marshalConfig : rootlessportConfig -> result string)
  (h : Host) (r : Runtime) (ctr : Container) (err : option error) (tr : list event) :
  setupSlirp4netns slirp4netnsMTU slirp4netnsIP ReexecKey marshalConfig h r ctr
  = (Returned err, tr) ->
  count isProbeCall tr <= 1
  /\ count isStartCall tr <= 2
  /\ (0 < count isStartCall tr -> count isProbeCall tr = 1)
  /\ (0 < count isSocketCall tr ->
      count isStartCall tr = 1 /\ PortMappings ctr <> []
      /\ exists parsed,
           parseSlirp4netnsNetworkOptions slirp4netnsMTU h r (slirpOptionsOf ctr) = Ok parsed
           /\ isSlirpHostForward parsed = true)
  /\ (count isStartCall tr = 2 ->
      PortMappings ctr <> []
      /\ exists parsed,
           parseSlirp4netnsNetworkOptions slirp4netnsMTU h r (slirpOptionsOf ctr) = Ok parsed
           /\ isSlirpHostForward parsed = false).
Proof.
  revert err tr. unfold setupSlirp4netns.
  match goal with
  | |- forall err tr, func ?b = _ -> @?Q tr => change (returns b Q)
  end.
  set (logPath := GoPath.Join [_; "slirp4netns-" +:+ _]). clearbody logPath.
  set (apiSocket := GoPath.Join _). clearbody apiSocket.
  fold (slirpOptionsOf ctr).
  apply returns_bind.
  match goal with |- match next ?b with _ => _ end => set (found := b) end.
  assert (Hfound : match next found with inr Block | inr Panic => False | _ => True end
    /\ forallb isLogCall (did found) = true /\ deferred found = []).
  { subst found. destruct (String.eqb _ ""); [| repeat split; auto].
    destruct (os_LookPath h "slirp4netns"); repeat split; auto. }
  destruct Hfound as (Hnx & Hlog & ->). clearbody found.
  destruct (next found) as [path | [e | |]];
    [| tally; (split; [lia | split; [lia | split; [lia | split; intros Hc; exfalso; lia]]])
     | contradiction | contradiction].
  clear Hnx. apply returns_call.
  destruct (os_Pipe h "syncR, syncW") as [e |] eqn:E1;
    [apply returns_ret; tally;
     (split; [lia | split; [lia | split; [lia | split; intros Hc; exfalso; lia]]]) |].
  apply returns_defer, returns_fromResult.
  destruct (parseSlirp4netnsNetworkOptions _ _ _ _) as [netOptions | e] eqn:Eparse;
    [| tally; (split; [lia | split; [lia | split; [lia | split; intros Hc; exfalso; lia]]])].
  apply returns_invokeR. rewrite checkSlirpFlags_events.
  apply returns_bind.
  destruct (checkSlirpFlags h path).1 as [slirpFeatures | e];
    cbn [next did deferred mret body_ret ret];
    [| tally; (split; [lia | split; [lia | split; [lia | split; intros Hc; exfalso; lia]]])].
  apply returns_fromResult.
  destruct (createBasicSlirp4netnsCmdArgs netOptions slirpFeatures) as [cmdArgs | e];
    [| tally; (split; [lia | split; [lia | split; [lia | split; intros Hc; exfalso; lia]]])].
  apply returns_bind.
  destruct (negb (PostConfigureNetNS ctr));
    [rewrite bind_call; destruct (os_Pipe h "rootlessSlirpSyncR, rootlessSlirpSyncW")
    | rewrite bind_defer];
    cbn [next did deferred mret body_ret ret app];
    [tally; (split; [lia | split; [lia | split; [lia | split; intros Hc; exfalso; lia]]]) | |].
  all: apply returns_call, returns_call.
  all: destruct (os_Create h logPath) as [e |];
         [apply returns_ret; tally;
          (split; [lia | split; [lia | split; [lia | split; intros Hc; exfalso; lia]]]) |].
  all: apply returns_defer, returns_call.
  all: destruct (os_Remove h logPath) as [e |];
         [apply returns_ret; tally;
          (split; [lia | split; [lia | split; [lia | split; intros Hc; exfalso; lia]]]) |].
  all: apply returns_call.
  all: match goal with |- context [os_Start _ ?c] => set (cmd := c) end; clearbody cmd.
  all: destruct (os_Start h cmd) as [p | e];
         [| apply returns_ret; tally;
            (split; [lia | split; [lia | split; [lia | split; intros Hc; exfalso; lia]]])].
  all: apply returns_defer, returns_invoke.
  all: pose proof (waitForSync_events (proc_sync p) cmd (Pid p) (proc_log p) (1 * second)) as Hw.
  all: destruct (waitForSync (proc_sync p) cmd (Pid p) (proc_log p) (1 * second)) as [w trw].
  all: cbn [fst snd] in *.
  all: intros [e |] _;
         [apply returns_ret; tally;
          (split; [lia | split; [lia | split; [lia | split; intros Hc; exfalso; lia]]]) |].
  all: destruct (negb (bool_decide (PortMappings ctr = []))) eqn:Ehave;
         [| apply returns_ret; tally;
            (split; [lia | split; [lia | split; [lia | split; intros Hc; exfalso; lia]]])].
  all: apply negb_true_iff, bool_decide_eq_false in Ehave.
  all: destruct (isSlirpHostForward netOptions) eqn:Efwd; apply returns_invoke.
  all: try (match goal with |- context [setupRootlessPortMappingViaSlirp ?a ?b ?c ?d] =>
              pose proof (setupRootlessPortMappingViaSlirp_events a b c d) as Hs;
              destruct (setupRootlessPortMappingViaSlirp a b c d) as [ws trs]
            end;
            cbn [fst snd] in *; intros e _; apply returns_ret; tally;
            (split; [lia | split; [lia | split; [lia | split; intros Hc; [| exfalso; lia]]]]);
            (split; [lia | split; [assumption | eexists; split; [reflexivity | assumption]]])).
  all: match goal with |- context [setupRootlessPortMappingViaRLK ?a ?b ?c ?d ?e ?f ?g ?i] =>
         destruct (setupRootlessPortMappingViaRLK a b c d e f g i) as [wr trr] eqn:ER
       end.
  all: cbn [fst snd]; intros e ->.
  all: apply setupRootlessPortMappingViaRLK_returns in ER.
  all: destruct ER as (_ & R1 & R2 & R3 & _).
  all: apply returns_ret; tally;
         (split; [lia | split; [lia | split; [lia | split; intros Hc; [exfalso; lia |]]]]).
  all: split; [assumption | eexists; split; [reflexivity | assumption]].
Qed.

(** X14 on the container that asks for the port handler of slirp4netns. *)
Lemma X14_witness :
  count isProbeCall
    (setupSlirp4netns 65520 "10.0.2.100" "containers-rootlessport" (fun _ => Ok "{}")
       Scenario.readyHost Fixture.runtime Scenario.forwarded).2 = 1
  /\ count isStartCall
       (setupSlirp4netns 65520 "10.0.2.100" "containers-rootlessport" (fun _ => Ok "{}")
          Scenario.readyHost Fixture.runtime Scenario.forwarded).2 = 1
  /\ PortMappings Scenario.forwarded <> []
  /\ exists parsed,
       parseSlirp4netnsNetworkOptions 65520 Scenario.readyHost Fixture.runtime
         (slirpOptionsOf Scenario.forwarded) = Ok parsed
       /\ isSlirpHostForward parsed = true.
Proof.
  split.
  - refine (proj1 (proj2 (proj2 (X14_one_forwarder_at_most 65520 "10.0.2.100"
                                   "containers-rootlessport" (fun _ => Ok "{}")
                                   Scenario.readyHost Fixture.runtime Scenario.forwarded
                                   None _ _))) _).
    + vm_compute. reflexivity.
    + vm_compute. lia.
  - refine (proj1 (proj2 (proj2 (proj2 (X14_one_forwarder_at_most 65520 "10.0.2.100"
                                          "containers-rootlessport" (fun _ => Ok "{}")
                                          Scenario.readyHost Fixture.runtime Scenario.forwarded
                                          None _ _)))) _).
    + vm_compute. reflexivity.
    + vm_compute. lia.
Defined.

(** X17: [setupSlirp4netns] creates no log file and starts no child unless
    the options parse, the probe of the helper succeeds and the builder
    accepts the options for the capabilities probed.  When it returns without
    having created the log file, as it does on every error of the
    configuration, all it has done is to log, to make pipes, to run the
    probe, at most once, and to close ends of pipes: the sync pipe, and for
    an error of the probe or of the builder the probe too, come before the
    error. *)
Theorem X17_nothing_started_on_bad_options (slirp4netnsMTU : Z)
  (slirp4netnsIP ReexecKey : string) (marshalConfig : rootlessportConfig -> result string)
  (h : Host) (r : Runtime) (ctr : Container) (err : option error) (tr : list event) :
  setupSlirp4netns slirp4netnsMTU slirp4netnsIP ReexecKey marshalConfig h r ctr
  = (Returned err, tr) ->
  (0 < count isCreateCall tr + count isStartCall tr ->
   exists path parsed features cmdArgs,
     In (EvExec path ["--help"]) tr
     /\ parseSlirp4netnsNetworkOptions slirp4netnsMTU h r (slirpOptionsOf ctr) = Ok parsed
     /\ (checkSlirpFlags h path).1 = Ok features
     /\ createBasicSlirp4netnsCmdArgs parsed features = Ok cmdArgs)
  /\ (count isCreateCall tr = 0 ->
      forallb isPreparation tr = true /\ count isProbeCall tr <= 1
      /\ count isStartCall tr = 0).
Proof.
  revert err tr. unfold setupSlirp4netns.
  match goal with
  | |- forall err tr, func ?b = _ -> @?Q tr => change (returns b Q)
  end.
  set (logPath := GoPath.Join [_; "slirp4netns-" +:+ _]). clearbody logPath.
  set (apiSocket := GoPath.Join _). clearbody apiSocket.
  fold (slirpOptionsOf ctr).
  apply returns_bind.
  match goal with |- match next ?b with _ => _ end => set (found := b) end.
  assert (Hfound : match next found with inr Block | inr Panic => False | _ => True end
    /\ forallb isLogCall (did found) = true /\ deferred found = []).
  { subst found. destruct (String.eqb _ ""); [| repeat split; auto].
    destruct (os_LookPath h "slirp4netns"); repeat split; auto. }
  destruct Hfound as (Hnx & Hlog & ->). clearbody found.
  assert (Hprep : forallb isPreparation (did found) = true).
  { revert Hlog. apply forallb_weaken. intros []; (discriminate || reflexivity). }
  destruct (next found) as [path | [e | |]];
    [| split; [tally; intros Hc; exfalso; lia
              | intros _; rewrite ?forallb_app; cbn [forallb isPreparation andb app];
                rewrite ?Hprep; split; [reflexivity | tally; lia]]
     | contradiction | contradiction].
  clear Hnx. apply returns_call.
  destruct (os_Pipe h "syncR, syncW") as [e |] eqn:E1;
    [apply returns_ret;
     (split; [tally; intros Hc; exfalso; lia
             | intros _; rewrite ?forallb_app; cbn [forallb isPreparation andb app];
               rewrite ?Hprep; split; [reflexivity | tally; lia]]) |].
  apply returns_defer, returns_fromResult.
  destruct (parseSlirp4netnsNetworkOptions _ _ _ _) as [netOptions | e] eqn:Eparse;
    [| split; [tally; intros Hc; exfalso; lia
              | intros _; rewrite ?forallb_app; cbn [forallb isPreparation andb app];
                rewrite ?Hprep; split; [reflexivity | tally; lia]]].
  apply returns_invokeR. rewrite checkSlirpFlags_events.
  apply returns_bind.
  destruct (checkSlirpFlags h path).1 as [slirpFeatures | e] eqn:Eprobe;
    cbn [next did deferred mret body_ret ret];
    [| split; [tally; intros Hc; exfalso; lia
              | intros _; rewrite ?forallb_app; cbn [forallb isPreparation andb app];
                rewrite ?Hprep; split; [reflexivity | tally; lia]]].
  apply returns_fromResult.
  destruct (createBasicSlirp4netnsCmdArgs netOptions slirpFeatures) as [cmdArgs | e] eqn:Ebuild;
    [| split; [tally; intros Hc; exfalso; lia
              | intros _; rewrite ?forallb_app; cbn [forallb isPreparation andb app];
                rewrite ?Hprep; split; [reflexivity | tally; lia]]].
  apply returns_bind.
  destruct (negb (PostConfigureNetNS ctr));
    [rewrite bind_call; destruct (os_Pipe h "rootlessSlirpSyncR, rootlessSlirpSyncW")
    | rewrite bind_defer];
    cbn [next did deferred mret body_ret ret app];
    [split; [tally; intros Hc; exfalso; lia
            | intros _; rewrite ?forallb_app; cbn [forallb isPreparation andb app];
              rewrite ?Hprep; split; [reflexivity | tally; lia]] | |].
  all: apply returns_call, returns_call.
  all: intros err tr _; cbv beta.
  all: split;
         [intros _; exists path, netOptions, slirpFeatures, cmdArgs;
          split; [rewrite !in_app_iff; cbn [In]; tauto
                 | repeat split; first [reflexivity | assumption]]
         | tally; intros Hc; exfalso; lia].
Qed.

(** X17 on the container with port mappings, and on the container that asks
    for IPv6 of a helper without it: the sync pipe is made and the probe run
    before the error. *)
Lemma X17_witness :
  (exists path parsed features cmdArgs,
     In (EvExec path ["--help"])
       (setupSlirp4netns 65520 "10.0.2.100" "containers-rootlessport" (fun _ => Ok "{}")
          Scenario.readyHost Fixture.runtime Fixture.web).2
     /\ parseSlirp4netnsNetworkOptions 65520 Scenario.readyHost Fixture.runtime
          (slirpOptionsOf Fixture.web) = Ok parsed
     /\ (checkSlirpFlags Scenario.readyHost path).1 = Ok features
     /\ createBasicSlirp4netnsCmdArgs parsed features = Ok cmdArgs)
  /\ (forallb isPreparation
        (setupSlirp4netns 65520 "10.0.2.100" "containers-rootlessport" (fun _ => Ok "{}")
           Scenario.readyHost Fixture.runtime Scenario.wantsIPv6).2 = true
      /\ count isProbeCall
           (setupSlirp4netns 65520 "10.0.2.100" "containers-rootlessport" (fun _ => Ok "{}")
              Scenario.readyHost Fixture.runtime Scenario.wantsIPv6).2 <= 1
      /\ count isStartCall
           (setupSlirp4netns 65520 "10.0.2.100" "containers-rootlessport" (fun _ => Ok "{}")
              Scenario.readyHost Fixture.runtime Scenario.wantsIPv6).2 = 0)
  /\ setupSlirp4netns 65520 "10.0.2.100" "containers-rootlessport" (fun _ => Ok "{}")
       Scenario.readyHost Fixture.runtime Scenario.wantsIPv6
     = (Returned (Some (Errorf "enable_ipv6 not supported" [])),
        [EvPipe "syncR, syncW"; EvExec "/usr/bin/slirp4netns" ["--help"];
         EvClose "syncW"; EvClose "syncR"]).
Proof.
  split; [| split; [| vm_compute; reflexivity]].
  - refine (proj1 (X17_nothing_started_on_bad_options 65520 "10.0.2.100"
                     "containers-rootlessport" (fun _ => Ok "{}") Scenario.readyHost
                     Fixture.runtime Fixture.web None _ _) _).
    + vm_compute. reflexivity.
    + vm_compute. lia.
  - refine (proj2 (X17_nothing_started_on_bad_options 65520 "10.0.2.100"
                     "containers-rootlessport" (fun _ => Ok "{}") Scenario.readyHost
                     Fixture.runtime Scenario.wantsIPv6
                     (Some (Errorf "enable_ipv6 not supported" [])) _ _) _).
    + vm_compute. reflexivity.
    + vm_compute. reflexivity.
Defined.

(** ** The addresses of the parsers have 4 or 16 bytes *)

Lemma parseIPv4_length s ip : GoNet.parseIPv4 s = Some ip -> length ip = 16.
Proof.
  unfold GoNet.parseIPv4.
  destruct (GoNet.parseIPv4_fields 4 true s []) as [[[| a [| b [| c [| d [| x p]]]]] [| c0 rest]] |];
    try discriminate.
  intros H. injection H as <-. reflexivity.
Qed.

Lemma parseIPv6_groups_length fuel : forall s ip e ip' e' s',
  Nat.even (length ip) = true -> length ip <= 16 ->
  GoNet.parseIPv6_groups fuel s ip e = Some (ip', e', s') ->
  Nat.even (length ip') = true /\ length ip' <= 16.
Proof.
  induction fuel as [| fuel IH]; intros s ip e ip' e' s' Hev Hle; cbn [GoNet.parseIPv6_groups].
  - intros H. injection H as <- <- <-. auto.
  - destruct (negb (length ip <? GoNet.IPv6len)%nat) eqn:Hi.
    { intros H. injection H as <- <- <-. auto. }
    apply negb_false_iff, Nat.ltb_lt in Hi. unfold GoNet.IPv6len in Hi.
    assert (Hstep : forall x y, Nat.even (length (ip ++ [x; y])) = true
                                /\ length (ip ++ [x; y]) <= 16).
    { intros x y. rewrite length_app. cbn [length].
      replace (length ip + 2) with (S (S (length ip))) by lia.
      split; [exact Hev |].
      destruct (Nat.eq_dec (length ip) 15) as [E | E]; [rewrite E in Hev; discriminate | lia]. }
    destruct (GoNet.xtoi s) as [[n c] ok].
    destruct (negb ok || (65535 <? n)%Z); [discriminate |].
    destruct ((c <? String.length s)%nat && GoNet.startsWith "." (GoStrings.from c s)).
    + destruct (bool_decide (e = None) && negb (length ip =? GoNet.IPv6len - GoNet.IPv4len)%nat);
        [discriminate |].
      destruct (GoNet.IPv6len <? length ip + GoNet.IPv4len)%nat eqn:Hfit; [discriminate |].
      apply Nat.ltb_ge in Hfit. unfold GoNet.IPv6len, GoNet.IPv4len in Hfit.
      destruct (GoNet.parseIPv4 s) as [ip4 |] eqn:E4; [| discriminate].
      apply parseIPv4_length in E4.
      intros H. injection H as <- <- <-.
      rewrite length_app, length_drop, E4.
      replace (length ip + (16 - 12)) with (S (S (S (S (length ip))))) by lia.
      split; [exact Hev | lia].
    + destruct (GoStrings.from c s) as [| c1 s1]; [intros H; injection H as <- <- <-; apply Hstep |].
      destruct (negb (Ascii.eqb c1 ":") || String.eqb s1 ""); [discriminate |].
      assert (Hrec : forall s2 e2,
        GoNet.parseIPv6_groups fuel s2 (ip ++ [Z.shiftr n 8; Z.land n 255]) e2
        = Some (ip', e', s') -> Nat.even (length ip') = true /\ length ip' <= 16)
        by (intros s2 e2; apply IH; apply Hstep).
      destruct s1 as [| c2 s2]; [apply Hrec |].
      destruct (Ascii.eqb_spec c2 ":") as [-> | Hne].
      * destruct e; [discriminate |].
        destruct (String.eqb s2 ""); [intros H; injection H as <- <- <-; apply Hstep | apply Hrec].
      * intros H. apply (Hrec (String c2 s2) e). rewrite <- H.
        destruct c2 as [[] [] [] [] [] [] [] []]; try reflexivity. contradiction.
Qed.

Lemma parseIPv6_finish_length ip e s r :
  Nat.even (length ip) = true -> length ip <= 16 ->
  GoNet.parseIPv6_finish (ip, e, s) = Some r -> length r = 16.
Proof.
  intros _ Hle. unfold GoNet.parseIPv6_finish, GoNet.IPv6len.
  destruct (negb (String.eqb s "")); [discriminate |].
  destruct (length ip <? 16)%nat eqn:Hlt.
  - apply Nat.ltb_lt in Hlt. destruct e as [e |]; [| discriminate].
    intros H. injection H as <-.
    rewrite !length_app, length_take, length_replicate, length_drop. lia.
  - apply Nat.ltb_ge in Hlt. destruct e; [discriminate |].
    intros H. injection H as <-. lia.
Qed.

Lemma parseIPv6_length s ip : GoNet.parseIPv6 s = Some ip -> length ip = 16.
Proof.
  assert (Hgroups : forall s0 e0,
    GoNet.parseIPv6_groups 8 s0 [] e0 ≫= GoNet.parseIPv6_finish = Some ip -> length ip = 16).
  { intros s0 e0.
    destruct (GoNet.parseIPv6_groups 8 s0 [] e0) as [[[ip' e'] s'] |] eqn:Eg; [| discriminate].
    apply parseIPv6_groups_length in Eg as [Hev Hle]; [| reflexivity | cbn; lia].
    cbn. apply parseIPv6_finish_length; assumption. }
  unfold GoNet.parseIPv6.
  destruct s as [| c0 s1]; [apply Hgroups |].
  destruct c0 as [[] [] [] [] [] [] [] []]; try apply Hgroups.
  destruct s1 as [| c1 s']; [apply Hgroups |].
  destruct c1 as [[] [] [] [] [] [] [] []]; try apply Hgroups.
  destruct (String.eqb s' ""); [intros H; injection H as <-; reflexivity | apply Hgroups].
Qed.

Lemma CIDRMask_bytes_length l n : length (GoNet.CIDRMask_bytes l n) = l.
Proof.
  revert n. induction l as [| l IH]; intros n; [reflexivity |].
  cbn [GoNet.CIDRMask_bytes]. destruct (8 <=? n)%Z; cbn [length]; now rewrite IH.
Qed.

Lemma andBytes_length ip mask : length ip = length mask ->
  length (GoNet.andBytes ip mask) = length ip.
Proof.
  revert mask. induction ip as [| a ip IH]; intros [| m mask] H; try discriminate; [reflexivity |].
  cbn [GoNet.andBytes length]. f_equal. apply IH. now injection H.
Qed.

(** The network of a parsed CIDR has an address of 4 or of 16 bytes. *)
Lemma ParseCIDR_length s ip n :
  GoNet.ParseCIDR s = Ok (ip, n) ->
  length (GoNet.net_IP n) = 4 \/ length (GoNet.net_IP n) = 16.
Proof.
  unfold GoNet.ParseCIDR.
  destruct (GoStrings.Index s "/") as [i |]; [| discriminate].
  set (addr := GoStrings.upto i s). set (mask := GoStrings.from (S i) s).
  destruct (GoNet.parseIPv4 addr) as [ip4 |] eqn:E4.
  - cbn iota beta. destruct (GoNet.dtoi mask) as [[k j] [|]]; [| discriminate].
    destruct (negb (j =? String.length mask)%nat || _); [discriminate |].
    unfold GoNet.CIDRMask, GoNet.IPv4len.
    change (Z.of_nat (8 * 4)) with 32%Z. cbn [Z.eqb negb andb Pos.eqb].
    destruct ((k <? 0)%Z || (32 <? k)%Z); [discriminate |].
    change (Z.to_nat (32 / 8)) with 4.
    pose proof (CIDRMask_bytes_length 4 k) as Hm.
    set (m := GoNet.CIDRMask_bytes 4 k) in *. clearbody m.
    pose proof (parseIPv4_length _ _ E4) as Hip.
    unfold GoNet.parseIPv4 in E4.
    destruct (GoNet.parseIPv4_fields 4 true addr [])
      as [[[| a [| b [| c [| d [| x p]]]]] [| c0 rest]] |]; try discriminate.
    injection E4 as <-.
    change (GoNet.IPv4 a b c d) with [0; 0; 0; 0; 0; 0; 0; 0; 0; 0; 255; 255; a; b; c; d]%Z.
    unfold GoNet.Mask. rewrite Hm.
    change (GoNet.bytesEqual _ _) with true.
    change GoNet.IPv4len with 4. change GoNet.IPv6len with 16.
    cbn [length Nat.eqb andb drop]. rewrite Hm. cbn [Nat.eqb].
    assert (Hlen : length (GoNet.andBytes [a; b; c; d] m) = 4)
      by (rewrite andBytes_length; [reflexivity | now rewrite Hm]).
    set (masked := GoNet.andBytes _ m) in *. clearbody masked.
    intros H. injection H as <- <-. left. exact Hlen.
  - cbn iota beta. destruct (GoNet.parseIPv6 addr) as [ip6 |] eqn:E6; [| discriminate].
    apply parseIPv6_length in E6.
    destruct (GoNet.dtoi mask) as [[k j] [|]]; [| discriminate].
    destruct (negb (j =? String.length mask)%nat || _); [discriminate |].
    unfold GoNet.CIDRMask, GoNet.IPv6len.
    change (Z.of_nat (8 * 16)) with 128%Z. cbn [Z.eqb negb andb Pos.eqb].
    destruct ((k <? 0)%Z || (128 <? k)%Z); [discriminate |].
    change (Z.to_nat (128 / 8)) with 16.
    pose proof (CIDRMask_bytes_length 16 k) as Hm.
    set (m := GoNet.CIDRMask_bytes 16 k) in *. clearbody m.
    unfold GoNet.Mask. rewrite Hm, E6.
    change GoNet.IPv4len with 4. change GoNet.IPv6len with 16.
    cbn [Nat.eqb andb]. rewrite ?Hm, ?E6. cbn [Nat.eqb andb]. rewrite ?E6. cbn [Nat.eqb].
    assert (Hlen : length (GoNet.andBytes ip6 m) = 16)
      by (rewrite andBytes_length; [exact E6 | now rewrite Hm, E6]).
    set (masked := GoNet.andBytes _ m) in *. clearbody masked.
    intros H. injection H as <- <-. right. exact Hlen.
Qed.

(** ** The child address of the port forwarder *)

(** A byte of a mask keeps a byte. *)
Lemma land_byte x m : (0 <= m < 256)%Z -> (0 <= Z.land x m < 256)%Z.
Proof.
  intros Hm. split; [apply Z.land_nonneg; lia |].
  assert (Z.land x m <= m)%Z; [| lia].
  assert (Hsub : Z.ldiff (Z.land x m) m = 0%Z).
  { apply Z.bits_inj'. intros k Hk.
    rewrite Z.ldiff_spec, Z.land_spec, Z.bits_0. destruct (Z.testbit x k), (Z.testbit m k); reflexivity. }
  pose proof (Z.sub_nocarry_ldiff m (Z.land x m) Hsub) as Hd.
  assert (0 <= Z.ldiff m (Z.land x m))%Z by (apply Z.ldiff_nonneg; lia).
  lia.
Qed.

Lemma land_128 x : Z.land x 128 = 0%Z \/ Z.land x 128 = 128%Z.
Proof.
  destruct (Z.testbit x 7) eqn:E; [right | left]; apply Z.bits_inj'; intros k Hk;
    rewrite Z.land_spec; change 128%Z with (2 ^ 7)%Z; rewrite ?Z.bits_0, Z.pow2_bits_eqb by lia;
    destruct (Z.eqb_spec 7 k) as [<- | _]; rewrite ?E, ?andb_false_r; reflexivity.
Qed.

(** The network of a dotted CIDR: its address is the address given, masked
    byte by byte. *)
Lemma ParseCIDR_IPv4 s ip n :
  GoNet.ParseCIDR s = Ok (ip, n) -> length (GoNet.net_Mask n) = 4 ->
  exists a b c d, GoNet.net_IP n = GoNet.andBytes [a; b; c; d] (GoNet.net_Mask n).
Proof.
  unfold GoNet.ParseCIDR.
  destruct (GoStrings.Index s "/") as [i |]; [| discriminate].
  set (addr := GoStrings.upto i s). set (mask := GoStrings.from (S i) s).
  destruct (GoNet.parseIPv4 addr) as [ip4 |] eqn:E4.
  - cbn iota beta. destruct (GoNet.dtoi mask) as [[k j] [|]]; [| discriminate].
    destruct (negb (j =? String.length mask)%nat || _); [discriminate |].
    unfold GoNet.CIDRMask, GoNet.IPv4len.
    change (Z.of_nat (8 * 4)) with 32%Z. cbn [Z.eqb negb andb Pos.eqb].
    destruct ((k <? 0)%Z || (32 <? k)%Z); [discriminate |].
    change (Z.to_nat (32 / 8)) with 4.
    pose proof (CIDRMask_bytes_length 4 k) as Hm.
    set (m := GoNet.CIDRMask_bytes 4 k) in *. clearbody m.
    unfold GoNet.parseIPv4 in E4.
    destruct (GoNet.parseIPv4_fields 4 true addr [])
      as [[[| a [| b [| c [| d [| x p]]]]] [| c0 rest]] |]; try discriminate.
    injection E4 as <-.
    change (GoNet.IPv4 a b c d) with [0; 0; 0; 0; 0; 0; 0; 0; 0; 0; 255; 255; a; b; c; d]%Z.
    unfold GoNet.Mask. rewrite Hm.
    change (GoNet.bytesEqual _ _) with true.
    change GoNet.IPv4len with 4. change GoNet.IPv6len with 16.
    cbn [length Nat.eqb andb drop]. rewrite Hm. cbn [Nat.eqb].
    intros H _. injection H as <- <-. exists a, b, c, d. reflexivity.
  - cbn iota beta. destruct (GoNet.parseIPv6 addr) as [ip6 |] eqn:E6; [| discriminate].
    destruct (GoNet.dtoi mask) as [[k j] [|]]; [| discriminate].
    destruct (negb (j =? String.length mask)%nat || _); [discriminate |].
    unfold GoNet.CIDRMask, GoNet.IPv6len.
    change (Z.of_nat (8 * 16)) with 128%Z. cbn [Z.eqb negb andb Pos.eqb].
    destruct ((k <? 0)%Z || (128 <? k)%Z); [discriminate |].
    change (Z.to_nat (128 / 8)) with 16.
    pose proof (CIDRMask_bytes_length 16 k) as Hm.
    set (m := GoNet.CIDRMask_bytes 16 k) in *. clearbody m.
    destruct (GoNet.Mask ip6 m); intros H Hlen; injection H as <- <-;
      cbn [GoNet.net_Mask] in Hlen; rewrite Hm in Hlen; discriminate.
Qed.

(** The masks of the prefixes up to 25 end in 0 or in 128, and their bytes
    are bytes. *)
Lemma CIDRMask_bytes_large n : (0 <= n <= 25)%Z ->
  exists m1 m2 m3 m4,
    GoNet.CIDRMask_bytes 4 n = [m1; m2; m3; m4]
    /\ (0 <= m1 < 256)%Z /\ (0 <= m2 < 256)%Z /\ (0 <= m3 < 256)%Z
    /\ (m4 = 0 \/ m4 = 128)%Z.
Proof.
  intros Hn.
  assert (Hk : exists k : nat, k <= 25 /\ n = Z.of_nat k)
    by (exists (Z.to_nat n); lia).
  destruct Hk as (k & Hk & ->).
  do 26 (destruct k as [| k]; [vm_compute; eexists _, _, _, _; repeat split; auto; discriminate |]).
  lia.
Qed.

(** C3, as amended: for a dotted CIDR with a prefix of at most 25 bits, so
    that its subnet has a hundredth address, and with no IPv4 address known
    from the network status, the child address is the address 100 places
    after the network address, and it lies in the subnet.  For 10.0.2.0/24
    it is 10.0.2.100. *)
Theorem C3_child_ip_hundredth_in_large_subnets (slirp4netnsIP slirp4CIDR : string)
  (ip : GoNet.IP) (cidr : GoNet.IPNet) (n : Z) (status : list (list GoNet.IP)) :
  GoNet.ParseCIDR slirp4CIDR = Ok (ip, cidr) ->
  GoNet.net_Mask cidr = GoNet.CIDRMask_bytes 4 n ->
  (0 <= n <= 25)%Z ->
  firstIPv4 status = None ->
  next (rlkChildIP slirp4netnsIP slirp4CIDR status)
  = inl (GoNet.IP_String (addressPlus (GoNet.net_IP cidr) 100))
  /\ inSubnet cidr (addressPlus (GoNet.net_IP cidr) 100) = true
  /\ next (rlkChildIP slirp4netnsIP "10.0.2.0/24" []) = inl "10.0.2.100".
Proof.
  intros Hparse Hmask Hn Hstatus.
  assert (String.eqb slirp4CIDR "" = false) as Hne
    by (destruct slirp4CIDR; [discriminate Hparse | reflexivity]).
  destruct (CIDRMask_bytes_large n Hn) as (m1 & m2 & m3 & m4 & Hm & H1 & H2 & H3 & H4).
  rewrite Hm in Hmask.
  destruct (ParseCIDR_IPv4 _ _ _ Hparse) as (a & b & c & d & Hip);
    [now rewrite Hmask |].
  rewrite Hmask in Hip. cbn [GoNet.andBytes] in Hip.
  pose proof (land_byte a m1 H1) as Ha. pose proof (land_byte b m2 H2) as Hb.
  pose proof (land_byte c m3 H3) as Hc.
  assert (Hlast : (Z.land d m4 = 0 \/ Z.land d m4 = 128)%Z).
  { destruct H4 as [-> | ->]; [left; apply Z.land_0_r | apply land_128]. }
  set (x := Z.land d m4) in *.
  assert (Hplus : addressPlus (GoNet.net_IP cidr) 100
                  = [Z.land a m1; Z.land b m2; Z.land c m3] ++ [((x + 100) mod 256)%Z]).
  { rewrite Hip. apply (addressPlus_last [Z.land a m1; Z.land b m2; Z.land c m3] x 100);
      [repeat constructor; lia | lia | lia | lia]. }
  split; [| split; [| vm_compute; reflexivity]].
  - unfold rlkChildIP. rewrite Hne, Hparse, Hstatus, Hplus, Hip.
    change [Z.land a m1; Z.land b m2; Z.land c m3; x]
      with ([Z.land a m1; Z.land b m2; Z.land c m3] ++ [x]).
    rewrite addToLastByte_last. reflexivity.
  - unfold inSubnet. rewrite Hplus, Hip, Hmask. cbn [length app Nat.eqb andb GoNet.andBytes].
    apply bool_decide_eq_true. do 3 f_equal.
    subst x. destruct H4 as [-> | ->].
    + now rewrite !Z.land_0_r.
    + destruct (land_128 d) as [-> | ->]; reflexivity.
Qed.

(** C3 as stated fails: 10.0.2.192/26 is a CIDR the option parser accepts,
    and the child address computed for it, 10.0.2.36, does not lie in it. *)
Lemma C3_counterexample :
  parseOption Fixture.host Fixture.defaults "cidr=10.0.2.192/26"
  = Ok (mkOptions "10.0.2.192/26" true false false false 65520 "" "")
  /\ GoNet.ParseCIDR "10.0.2.192/26"
     = Ok (GoNet.IPv4 10 0 2 192, GoNet.mkIPNet [10; 0; 2; 192]%Z [255; 255; 255; 192]%Z)
  /\ next (rlkChildIP "10.0.2.100" "10.0.2.192/26" []) = inl "10.0.2.36"
  /\ GoNet.IP_String [10; 0; 2; 36]%Z = "10.0.2.36"
  /\ inSubnet (GoNet.mkIPNet [10; 0; 2; 192]%Z [255; 255; 255; 192]%Z) [10; 0; 2; 36]%Z = false.
Proof. repeat split; vm_compute; reflexivity. Qed.

(** C3 as amended, on 10.0.2.128/25. *)
Lemma C3_witness :
  next (rlkChildIP "10.0.2.100" "10.0.2.128/25" [])
  = inl (GoNet.IP_String (addressPlus [10; 0; 2; 128]%Z 100))
  /\ inSubnet (GoNet.mkIPNet [10; 0; 2; 128]%Z [255; 255; 255; 128]%Z)
       (addressPlus [10; 0; 2; 128]%Z 100) = true
  /\ next (rlkChildIP "10.0.2.100" "10.0.2.0/24" []) = inl "10.0.2.100".
Proof.
  apply (C3_child_ip_hundredth_in_large_subnets "10.0.2.100" "10.0.2.128/25"
           (GoNet.IPv4 10 0 2 128) (GoNet.mkIPNet [10; 0; 2; 128]%Z [255; 255; 255; 128]%Z)
           25 []).
  - vm_compute. reflexivity.
  - vm_compute. reflexivity.
  - lia.
  - reflexivity.
Defined.

(** ** No run-time panic *)

Lemma next_bind {A B : Type} (m : body A) (k : A -> body B) :
  next (m ≫= k) = match next m with inl a => next (k a) | inr x => inr x end.
Proof. unfold mbind, body_bind. destruct (next m); reflexivity. Qed.

Lemma func_panics (b : body unit) : (func b).1 = Panicked <-> next b = inr Panic.
Proof.
  unfold func. destruct (next b) as [[] | [e | |]]; cbn [fst]; split; intros H;
    try discriminate; reflexivity.
Qed.

(** The index [len(cidr.IP)-1] of the child address is in range for every
    CIDR that [net.ParseCIDR] accepts. *)
Lemma rlkChildIP_no_panic ip0 cidr status : next (rlkChildIP ip0 cidr status) <> inr Panic.
Proof.
  unfold rlkChildIP. rewrite next_bind.
  destruct (String.eqb cidr "");
    [cbn [next mret body_ret]; destruct (firstIPv4 status); discriminate |].
  destruct (GoNet.ParseCIDR cidr) as [[ip n] | e] eqn:Ecidr; [| discriminate].
  apply ParseCIDR_length in Ecidr.
  unfold addToLastByte.
  destruct (last (GoNet.net_IP n)) as [b |] eqn:Elast;
    [cbn [next mret body_ret]; destruct (firstIPv4 status); discriminate |].
  apply last_None in Elast. rewrite Elast in Ecidr. cbn in Ecidr. lia.
Qed.

Lemma waitForSync_loop_no_panic prog pid script lf t :
  next (waitForSync_loop prog pid script lf t) <> inr Panic.
Proof.
  induction script as [| o script IH]; [discriminate |].
  cbn [waitForSync_loop]. rewrite next_bind. cbn [call next].
  destruct (obs_setDeadline o); [discriminate |].
  rewrite next_bind. cbn [call next].
  destruct (obs_read o) as [| e]; [discriminate |].
  destruct (IsTimeout e); [| discriminate].
  rewrite next_bind. cbn [call next].
  destruct (obs_wait4 o) as [[pid' status] |]; [| discriminate].
  destruct (negb (pid' =? pid)%Z); [exact IH |].
  destruct (Exited status).
  - unfold Seek0, ReadAll.
    destruct (log_seekErr lf); cbn; destruct (log_readErr lf); discriminate.
  - destruct (Signaled status); [discriminate | exact IH].
Qed.

Lemma waitForSync_no_panic script cmd pid lf t :
  (waitForSync script cmd pid lf t).1 <> Panicked.
Proof.
  unfold waitForSync. rewrite func_panics, next_bind.
  pose proof (waitForSync_loop_no_panic (progOf cmd) pid script lf t) as H.
  destruct (next (waitForSync_loop (progOf cmd) pid script lf t)) as [[] | [e | |]];
    try discriminate. contradiction.
Qed.

Lemma next_invoke {B : Type} (r : waited * list event) (k : option error -> body B) :
  r.1 <> Panicked ->
  (forall err, next (k err) <> inr Panic) ->
  next (invoke r ≫= k) <> inr Panic.
Proof.
  intros Hr Hk. rewrite next_bind. unfold invoke. cbn [next].
  destruct r.1; [apply Hk | discriminate | contradiction].
Qed.

(** X15: [setupRootlessPortMappingViaRLK] never stops in a run-time panic:
    the index [len(cidr.IP)-1] of line 435 is in range for every CIDR that
    [net.ParseCIDR] accepts, the address of whose network has 4 or 16
    bytes. *)
Theorem X15_child_ip_index_in_range (slirp4netnsIP ReexecKey : string)
  (marshalConfig : rootlessportConfig -> result string)
  (h : Host) (r : Runtime) (ctr : Container) (netnsPath slirp4CIDR : string) :
  (setupRootlessPortMappingViaRLK slirp4netnsIP ReexecKey marshalConfig h r ctr netnsPath
     slirp4CIDR).1 <> Panicked.
Proof.
  unfold setupRootlessPortMappingViaRLK. rewrite func_panics, next_bind. cbn [call next].
  destruct (os_Pipe h "syncR, syncW"); [discriminate |].
  rewrite next_bind. cbn [defer next]. rewrite next_bind. cbn [call next].
  destruct (os_Create h _); [discriminate |].
  rewrite next_bind. cbn [defer next]. rewrite next_bind. cbn [call next].
  destruct (os_Remove h _); [discriminate |].
  rewrite next_bind.
  destruct (PostConfigureNetNS ctr);
    [| rewrite next_bind; cbn [call next];
       destruct (os_Pipe h "rootlessPortSyncR, rootlessPortSyncW"); [discriminate |]].
  all: cbn [next mret body_ret]; rewrite next_bind.
  all: pose proof (rlkChildIP_no_panic slirp4netnsIP slirp4CIDR (NetworkStatus ctr)) as Hip.
  all: destruct (next (rlkChildIP slirp4netnsIP slirp4CIDR (NetworkStatus ctr)))
         as [childIP | [e | |]]; [| discriminate | discriminate | contradiction].
  all: destruct (marshalConfig _); [| discriminate].
  all: rewrite next_bind.
  all: destruct (_ || rootlessPortSyncR ctr); cbn [next defer mret body_ret].
  all: rewrite next_bind; cbn [call next].
  all: destruct (os_Start h _) as [p | e]; [| discriminate].
  all: rewrite next_bind; cbn [defer next].
  all: apply next_invoke; [apply waitForSync_no_panic |].
  all: intros [e |]; [destruct (negb _) |]; discriminate.
Qed.

(** ** The probe of the capabilities *)

Lemma prefix_app_l p q s : String.prefix (p +:+ q) s = true -> String.prefix p s = true.
Proof.
  revert s. induction p as [| c p IH]; intros s H; [destruct s; reflexivity |].
  destruct s as [| c' s]; [discriminate |].
  simpl in *.
  destruct (ascii_dec c c'); [apply IH, H | discriminate].
Qed.

Lemma Contains_app_l s p q :
  GoStrings.Contains s (p +:+ q) = true -> GoStrings.Contains s p = true.
Proof.
  unfold GoStrings.Contains. induction s as [| c s IH]; cbn [GoStrings.Index].
  - destruct (String.prefix (p +:+ q) "") eqn:E; [| discriminate].
    intros _. now rewrite (prefix_app_l _ _ _ E).
  - destruct (String.prefix (p +:+ q) (String c s)) eqn:E.
    + intros _. now rewrite (prefix_app_l _ _ _ E).
    + destruct (String.prefix p (String c s)); [reflexivity |].
      destruct (GoStrings.Index s (p +:+ q)); [| discriminate].
      intros _. specialize (IH eq_refl). destruct (GoStrings.Index s p); [reflexivity | discriminate].
Qed.

(** X16: [checkSlirpFlags] runs the helper once, with [--help], and reads
    the capabilities off the output by substring: a capability is reported as
    soon as the output has a word that begins with its switch, so that a help
    text with [--outbound-addr6] reports [HasOutboundAddr].  When the run
    fails the error carries the output. *)
Theorem X16_capabilities_by_substring (h : Host) (path more : string) :
  (checkSlirpFlags h path).2 = [EvExec path ["--help"]]
  /\ match os_CombinedOutput h path ["--help"] with
     | (out, Some err) =>
         (checkSlirpFlags h path).1 = Err (Wrapf err "slirp4netns %q" [AString out])
     | (out, None) =>
         exists features, (checkSlirpFlags h path).1 = Ok features
           /\ (GoStrings.Contains out ("--disable-host-loopback" +:+ more) = true ->
               HasDisableHostLoopback features = true)
           /\ (GoStrings.Contains out ("--mtu" +:+ more) = true -> HasMTU features = true)
           /\ (GoStrings.Contains out ("--enable-sandbox" +:+ more) = true ->
               HasEnableSandbox features = true)
           /\ (GoStrings.Contains out ("--enable-seccomp" +:+ more) = true ->
               HasEnableSeccomp features = true)
           /\ (GoStrings.Contains out ("--cidr" +:+ more) = true -> HasCIDR features = true)
           /\ (GoStrings.Contains out ("--outbound-addr" +:+ more) = true ->
               HasOutboundAddr features = true)
           /\ (GoStrings.Contains out ("--enable-ipv6" +:+ more) = true ->
               HasIPv6 features = true)
     end.
Proof.
  unfold checkSlirpFlags.
  destruct (os_CombinedOutput h path ["--help"]) as [out [err |]]; cbn [fst snd];
    split; try reflexivity.
  eexists. split; [reflexivity |].
  cbn [HasDisableHostLoopback HasMTU HasEnableSandbox HasEnableSeccomp HasCIDR
       HasOutboundAddr HasIPv6].
  repeat split; apply Contains_app_l.
Qed.
